(** * The watch-mode rerun engine of AVA (lib/watcher.js)

    A shallow embedding of the two control-flow shapes the source file
    contains: the callback-driven [Watcher] class with its [Debouncer], and
    the pull-style [plan] generator.  Arrays are lists, JS [Set]s of paths are
    [gset string], and every method that mutates [this] becomes a function
    from the old object to the new one.  The numbers of the source are
    counters stepped by one; they are integers far below 2^53, where the
    arithmetic of doubles is exact, and are modelled as [Z].
    Collaborators that live in other modules ([classify],
    [applyTestFileFilter], the providers, [buildIgnoreMatcher]) are section
    variables. *)

From Stdlib Require Import ZArith QArith Ascii String.
From stdpp Require Import base strings gmap list.

Set Default Proof Using "Type".

Local Open Scope string_scope.
Local Open Scope list_scope.
Local Open Scope Z_scope.

(** ** Strings read from stdin

    [data.trim().toLowerCase()] on the ASCII range: [trim] strips the ASCII
    white space and line terminators at both ends, [toLowerCase] maps [A-Z] to
    [a-z].  Bytes above 127 are left alone.  JavaScript's [trim] also strips
    the white space outside ASCII (U+00A0, U+FEFF, U+2028 and the like), which
    a string of bytes does not single out: the two functions are those of
    the source on input that [isAscii] accepts, and what is proved about input
    that is no command is proved of such input. *)

Definition isWhiteSpace (c : ascii) : bool :=
  bool_decide (nat_of_ascii c ∈ [9; 10; 11; 12; 13; 32]%nat).

Fixpoint trimStart (s : string) : string :=
  match s with
  | EmptyString => EmptyString
  | String c rest => if isWhiteSpace c then trimStart rest else s
  end.

Definition trimEnd (s : string) : string :=
  String.rev (trimStart (String.rev s)).

Definition trim (s : string) : string := trimEnd (trimStart s).

Definition lowerChar (c : ascii) : ascii :=
  let n := nat_of_ascii c in
  if bool_decide (65 ≤ n ≤ 90)%nat then ascii_of_nat (n + 32) else c.

Fixpoint toLowerCase (s : string) : string :=
  match s with
  | EmptyString => EmptyString
  | String c rest => String (lowerChar c) (toLowerCase rest)
  end.

(** Every character of [s] is in the ASCII range. *)
Definition isAscii (s : string) : Prop :=
  Forall (λ c, (nat_of_ascii c < 128)%nat) (list_ascii_of_string s).

(** ** Arrays and sets *)

(** [array.includes(x)] on an array of strings. *)
Definition includes (l : list string) (x : string) : bool :=
  bool_decide (x ∈ l).

(** [[...new Set(l)]]: a [Set] keeps the first insertion of every element and
    iterates in insertion order. *)
Definition spreadSet (l : list string) : list string :=
  fold_left (λ seen x, if includes seen x then seen else seen ++ [x]) l [].

(** ** FailureLedger: [this.filesWithFailures] *)

Record FailureState := {
  state_file : string;
  state_vector : Z;
  state_count : Z;
}.

(** The callback of [this.filesWithFailures.some(...)] in [countFailure]:
    [some] stops at the first record of [file], whose [count] the callback has
    incremented by then.  [None] when [some] returns false. *)
Fixpoint someCountFailure (file : string) (l : list FailureState)
  : option (list FailureState) :=
  match l with
  | [] => None
  | state :: rest =>
      if decide (state_file state = file)
      then Some ({| state_file := state_file state;
                    state_vector := state_vector state;
                    state_count := state_count state + 1 |} :: rest)
      else (state ::.) <$> someCountFailure file rest
  end.

Definition countFailure (file : string) (vector : Z) (l : list FailureState)
  : list FailureState :=
  match someCountFailure file l with
  | Some l' => l'
  | None => l ++ [{| state_file := file; state_vector := vector; state_count := 1 |}]
  end.

Definition sumPreviousFailures (beforeVector : Z) (l : list FailureState) : Z :=
  fold_left
    (λ total state,
       if decide (state_vector state < beforeVector)
       then total + state_count state else total)
    l 0.

Definition pruneFailures (files : list string) (l : list FailureState)
  : list FailureState :=
  let toPrune : gset string := list_to_set files in
  filter (λ state, state_file state ∉ toPrune) l.

(** The ledgers the class can hold: it starts empty and is only ever changed
    by [countFailure] and [pruneFailures]. *)
Inductive ledger_reachable : list FailureState → Prop :=
| ledger_init : ledger_reachable []
| ledger_count file vector l :
    ledger_reachable l → ledger_reachable (countFailure file vector l)
| ledger_prune files l :
    ledger_reachable l → ledger_reachable (pruneFailures files l).

(** The sum the text describes: add up [count] over the records kept by the
    test [vector < beforeVector]. *)
Definition sumOfRecordsBefore (beforeVector : Z) (l : list FailureState) : Z :=
  foldr Z.add 0
    (state_count <$> filter (λ state, state_vector state < beforeVector) l).

(** ** Collaborators and records of the [Watcher] class *)

(** What [classify(path, globs)] of ./globs.js returns. *)
Record Classification := {
  isIgnoredByWatcher : bool;
  isTest : bool;
}.

(** The [main] object of a provider. *)
Record ProviderMain := {
  ignoreChange : string → bool;
  resolveTestFile : string → string;
}.

Record TestDependency := {
  dep_file : string;
  dep_dependencies : list string;
}.

(** [Debouncer]: [timer] holds the [Timeout] object returned by [setTimeout],
    identified here by its allocation number, or [null]. *)
Record Debouncer := {
  timer : option nat;
  again : bool;
}.

(** The fields of a [Watcher].  [dirtyStates] is the object whose own keys, in
    enumeration order, are the first components. *)
Record Watcher := {
  debouncer : Debouncer;
  clearLogOnNextRun : bool;
  runVector : Z;
  previousFiles : list string;
  testDependencies : list TestDependency;
  temporaryFiles : gset string;
  touchedFiles : gset string;
  filesWithExclusiveTests : list string;
  filesWithFailures : list FailureState;
  dirtyStates : list (string * string);
}.

Definition set_debouncer (d : Debouncer) (w : Watcher) : Watcher :=
  {| debouncer := d; clearLogOnNextRun := clearLogOnNextRun w;
     runVector := runVector w; previousFiles := previousFiles w;
     testDependencies := testDependencies w; temporaryFiles := temporaryFiles w;
     touchedFiles := touchedFiles w;
     filesWithExclusiveTests := filesWithExclusiveTests w;
     filesWithFailures := filesWithFailures w; dirtyStates := dirtyStates w |}.

Definition set_clearLogOnNextRun (b : bool) (w : Watcher) : Watcher :=
  {| debouncer := debouncer w; clearLogOnNextRun := b;
     runVector := runVector w; previousFiles := previousFiles w;
     testDependencies := testDependencies w; temporaryFiles := temporaryFiles w;
     touchedFiles := touchedFiles w;
     filesWithExclusiveTests := filesWithExclusiveTests w;
     filesWithFailures := filesWithFailures w; dirtyStates := dirtyStates w |}.

Definition set_runVector (v : Z) (w : Watcher) : Watcher :=
  {| debouncer := debouncer w; clearLogOnNextRun := clearLogOnNextRun w;
     runVector := v; previousFiles := previousFiles w;
     testDependencies := testDependencies w; temporaryFiles := temporaryFiles w;
     touchedFiles := touchedFiles w;
     filesWithExclusiveTests := filesWithExclusiveTests w;
     filesWithFailures := filesWithFailures w; dirtyStates := dirtyStates w |}.

Definition set_previousFiles (fs : list string) (w : Watcher) : Watcher :=
  {| debouncer := debouncer w; clearLogOnNextRun := clearLogOnNextRun w;
     runVector := runVector w; previousFiles := fs;
     testDependencies := testDependencies w; temporaryFiles := temporaryFiles w;
     touchedFiles := touchedFiles w;
     filesWithExclusiveTests := filesWithExclusiveTests w;
     filesWithFailures := filesWithFailures w; dirtyStates := dirtyStates w |}.

Definition set_testDependencies (ds : list TestDependency) (w : Watcher) : Watcher :=
  {| debouncer := debouncer w; clearLogOnNextRun := clearLogOnNextRun w;
     runVector := runVector w; previousFiles := previousFiles w;
     testDependencies := ds; temporaryFiles := temporaryFiles w;
     touchedFiles := touchedFiles w;
     filesWithExclusiveTests := filesWithExclusiveTests w;
     filesWithFailures := filesWithFailures w; dirtyStates := dirtyStates w |}.

Definition set_temporaryFiles (s : gset string) (w : Watcher) : Watcher :=
  {| debouncer := debouncer w; clearLogOnNextRun := clearLogOnNextRun w;
     runVector := runVector w; previousFiles := previousFiles w;
     testDependencies := testDependencies w; temporaryFiles := s;
     touchedFiles := touchedFiles w;
     filesWithExclusiveTests := filesWithExclusiveTests w;
     filesWithFailures := filesWithFailures w; dirtyStates := dirtyStates w |}.

Definition set_touchedFiles (s : gset string) (w : Watcher) : Watcher :=
  {| debouncer := debouncer w; clearLogOnNextRun := clearLogOnNextRun w;
     runVector := runVector w; previousFiles := previousFiles w;
     testDependencies := testDependencies w; temporaryFiles := temporaryFiles w;
     touchedFiles := s;
     filesWithExclusiveTests := filesWithExclusiveTests w;
     filesWithFailures := filesWithFailures w; dirtyStates := dirtyStates w |}.

Definition set_filesWithExclusiveTests (l : list string) (w : Watcher) : Watcher :=
  {| debouncer := debouncer w; clearLogOnNextRun := clearLogOnNextRun w;
     runVector := runVector w; previousFiles := previousFiles w;
     testDependencies := testDependencies w; temporaryFiles := temporaryFiles w;
     touchedFiles := touchedFiles w;
     filesWithExclusiveTests := l;
     filesWithFailures := filesWithFailures w; dirtyStates := dirtyStates w |}.

Definition set_filesWithFailures (l : list FailureState) (w : Watcher) : Watcher :=
  {| debouncer := debouncer w; clearLogOnNextRun := clearLogOnNextRun w;
     runVector := runVector w; previousFiles := previousFiles w;
     testDependencies := testDependencies w; temporaryFiles := temporaryFiles w;
     touchedFiles := touchedFiles w;
     filesWithExclusiveTests := filesWithExclusiveTests w;
     filesWithFailures := l; dirtyStates := dirtyStates w |}.

Definition set_dirtyStates (ds : list (string * string)) (w : Watcher) : Watcher :=
  {| debouncer := debouncer w; clearLogOnNextRun := clearLogOnNextRun w;
     runVector := runVector w; previousFiles := previousFiles w;
     testDependencies := testDependencies w; temporaryFiles := temporaryFiles w;
     touchedFiles := touchedFiles w;
     filesWithExclusiveTests := filesWithExclusiveTests w;
     filesWithFailures := filesWithFailures w; dirtyStates := ds |}.

(** The [runtimeOptions] and [files] handed to [api.run]. *)
Record RuntimeOptions := {
  opt_clearLogOnNextRun : bool;
  opt_previousFailures : Z;
  opt_runOnlyExclusive : bool;
  opt_runVector : Z;
  opt_updateSnapshots : bool;
}.

Record ApiRun := {
  files : list string;
  runtimeOptions : RuntimeOptions;
}.

(** The counters of [runStatus.stats] that the [then] handler of [run] reads. *)
Record Stats := {
  failedHooks : Z;
  failedTests : Z;
  failedWorkers : Z;
  internalErrors : Z;
  timeouts : Z;
  uncaughtExceptions : Z;
  unhandledRejections : Z;
}.

(** [this.filesWithExclusiveTests.splice(index, 1)] at the index [indexOf]
    found: the first occurrence goes. *)
Fixpoint spliceFirst (file : string) (l : list string) : list string :=
  match l with
  | [] => []
  | x :: rest => if decide (x = file) then rest else x :: spliceFirst file rest
  end.

Definition updateExclusivity (file : string) (hasExclusiveTests : bool)
    (l : list string) : list string :=
  if hasExclusiveTests
  then if includes l file then l else l ++ [file]
  else if includes l file then spliceFirst file l else l.

(** The callback of [this.testDependencies.some(...)] in
    [updateTestDependencies]. *)
Fixpoint someUpdateDependencies (file : string) (dependencies : list string)
    (l : list TestDependency) : option (list TestDependency) :=
  match l with
  | [] => None
  | dep :: rest =>
      if decide (dep_file dep = file)
      then Some ({| dep_file := dep_file dep;
                    dep_dependencies := dependencies |} :: rest)
      else (dep ::.) <$> someUpdateDependencies file dependencies rest
  end.

(** [dep.contains(dependency)] *)
Definition contains (dep : TestDependency) (dependency : string) : bool :=
  includes (dep_dependencies dep) dependency.

(** The three arrays filled by the classification loop of [runAfterChanges]. *)
Record Classified := {
  dirtyHelpersAndSources : list string;
  addedOrChangedTests : list string;
  unlinkedTests : list string;
}.

(** [dirtyStates[filePath]] *)
Definition dirtyState (ds : list (string * string)) (filePath : string)
  : option string :=
  snd <$> List.find (λ kv, bool_decide (kv.1 = filePath)) ds.

Section WatcherClass.

(** [classify] and [applyTestFileFilter] of ./globs.js (called with
    [this.globs], and with the constant [cwd], [expandDirectories] and
    [treatFilterPatternsAsFiles]), the [main] objects of the constructor's
    [providers], and [filter.map(({pattern}) => pattern)]. *)
Variable classify : string → Classification.
Variable providers : list ProviderMain.
Variable patternFilters : list string.
Variable applyTestFileFilter : list string → list string → list string.

(** *** DependencyTracker *)

(** The provider loop at the head of [updateTestDependencies]. *)
Definition withRewritten (file : string) (dependencies : list string)
  : list string :=
  fold_left
    (λ dependencies main,
       let rewritten := resolveTestFile main file in
       if includes dependencies rewritten then dependencies
       else rewritten :: dependencies)
    providers dependencies.

Definition updateTestDependencies (file : string) (dependencies : list string)
    (l : list TestDependency) : list TestDependency :=
  let dependencies := withRewritten file dependencies in
  if (length dependencies =? 0)%nat
  then filter (λ dep, dep_file dep ≠ file) l
  else match someUpdateDependencies file dependencies l with
       | Some l' => l'
       | None => l ++ [{| dep_file := file; dep_dependencies := dependencies |}]
       end.

(** *** RunDriver: [this.run] *)

(** The [if (filter.length > 0)] block of [run]. *)
Definition narrowed (specificFiles : list string) : list string :=
  if bool_decide (0 < length patternFilters)%nat
  then applyTestFileFilter patternFilters specificFiles
  else specificFiles.

Definition run (specificFiles : list string) (updateSnapshots : bool)
    (w : Watcher) : Watcher * ApiRun :=
  let clearLog := clearLogOnNextRun w && bool_decide (runVector w > 0) in
  let w := if bool_decide (runVector w > 0)
           then set_clearLogOnNextRun true w else w in
  let w := set_runVector (runVector w + 1) w in
  let '(specificFiles, runOnlyExclusive, w) :=
    if bool_decide (0 < length specificFiles)%nat then
      let exclusiveFiles :=
        filter (λ file, includes (filesWithExclusiveTests w) file) specificFiles in
      let runOnlyExclusive :=
        bool_decide (length exclusiveFiles ≠ length (filesWithExclusiveTests w)) in
      let specificFiles :=
        if runOnlyExclusive then
          let remainingFiles :=
            filter (λ file, negb (includes exclusiveFiles file)) specificFiles in
          filesWithExclusiveTests w ++ remainingFiles
        else specificFiles in
      let specificFiles := narrowed specificFiles in
      (specificFiles, runOnlyExclusive,
       set_filesWithFailures (pruneFailures specificFiles (filesWithFailures w)) w)
    else (specificFiles, false, w) in
  let w := set_touchedFiles ∅ w in
  let w := set_previousFiles specificFiles w in
  (w,
   {| files := specificFiles;
      runtimeOptions :=
        {| opt_clearLogOnNextRun := clearLog;
           opt_previousFailures :=
             sumPreviousFailures (runVector w) (filesWithFailures w);
           opt_runOnlyExclusive := runOnlyExclusive;
           opt_runVector := runVector w;
           opt_updateSnapshots := updateSnapshots |} |}).

(** The [then] handler installed on the promise of [api.run]. *)
Definition runSettled (stats : Stats) (w : Watcher) : Watcher :=
  if clearLogOnNextRun w
     && (bool_decide (failedHooks stats > 0)
         || bool_decide (failedTests stats > 0)
         || bool_decide (failedWorkers stats > 0)
         || bool_decide (internalErrors stats > 0)
         || bool_decide (timeouts stats > 0)
         || bool_decide (uncaughtExceptions stats > 0)
         || bool_decide (unhandledRejections stats > 0))
  then set_clearLogOnNextRun false w else w.

Definition rerunAll (w : Watcher) : Watcher * ApiRun :=
  run [] false (set_dirtyStates [] w).

Definition updatePreviousSnapshots (w : Watcher) : Watcher * ApiRun :=
  let w := set_dirtyStates [] w in
  run (previousFiles w) true w.

(** *** [cleanUnlinkedTests] *)

Definition cleanUnlinkedTest (w : Watcher) (testFile : string) : Watcher :=
  let w := set_testDependencies
             (updateTestDependencies testFile [] (testDependencies w)) w in
  let w := set_filesWithExclusiveTests
             (updateExclusivity testFile false (filesWithExclusiveTests w)) w in
  set_filesWithFailures (pruneFailures [testFile] (filesWithFailures w)) w.

Definition cleanUnlinkedTests (unlinked : list string) (w : Watcher) : Watcher :=
  fold_left cleanUnlinkedTest unlinked w.

(** *** Telemetry: the [stateChange] listeners *)

(** The events the four [track...] methods listen to.  [Failed] stands for
    the seven failure types; its [testFile] may be missing. *)
Inductive StateChange :=
| AccessedSnapshots (testFile filename : string)
| TouchedFiles (changedFiles temporary : list string)
| WorkerFinished (testFile : string) (selectedTests declaredTests : Z)
| Failed (testFile : option string)
| OtherChange.

(** The [run] listener of [trackFailures], which also fixes the
    [currentVector] its [stateChange] listener counts failures at. *)
Definition runStarted (planFiles : list string) (w : Watcher) : Watcher * Z :=
  (set_filesWithFailures (pruneFailures planFiles (filesWithFailures w)) w,
   runVector w).

Definition stateChange (currentVector : Z) (evt : StateChange) (w : Watcher)
  : Watcher :=
  match evt with
  | AccessedSnapshots testFile filename =>
      let dependencies :=
        filter (λ filePath, negb (isIgnoredByWatcher (classify filePath)))
          [filename] in
      set_testDependencies
        (updateTestDependencies testFile dependencies (testDependencies w)) w
  | TouchedFiles changedFiles temporary =>
      set_temporaryFiles (temporaryFiles w ∪ list_to_set temporary)
        (set_touchedFiles (touchedFiles w ∪ list_to_set changedFiles) w)
  | WorkerFinished testFile selectedTests declaredTests =>
      let ranExclusiveTests :=
        bool_decide (selectedTests > 0)
        && bool_decide (declaredTests > selectedTests) in
      set_filesWithExclusiveTests
        (updateExclusivity testFile ranExclusiveTests
           (filesWithExclusiveTests w)) w
  | Failed (Some testFile) =>
      set_filesWithFailures
        (countFailure testFile currentVector (filesWithFailures w)) w
  | Failed None => w
  | OtherChange => w
  end.

(** *** RerunDecisionEngine: [runAfterChanges] *)

(** The callback of the first [filter] over [Object.keys(dirtyStates)], which
    deletes from [this.touchedFiles] as it goes: [acc] holds the paths kept so
    far and the touched files that are left. *)
Definition keepDirtyPath (w : Watcher) (acc : list string * gset string)
    (path : string) : list string * gset string :=
  let '(kept, touched) := acc in
  if decide (path ∈ touched) then (kept, touched ∖ {[path]})
  else if decide (path ∈ temporaryFiles w) then (kept, touched)
  else (kept ++ [path], touched).

Definition dropTouchedAndTemporary (paths : list string) (w : Watcher)
  : list string * gset string :=
  fold_left (keepDirtyPath w) paths ([], touchedFiles w).

(** The loop that filters [dirtyPaths] once per provider. *)
Definition dropIgnoredChanges (paths : list string) : list string :=
  fold_left
    (λ dirtyPaths main,
       filter (λ path, negb (ignoreChange main path)) dirtyPaths)
    providers paths.

Definition classifyDirty (ds : list (string * string)) (dirtyPaths : list string)
  : Classified :=
  fold_left
    (λ acc filePath,
       let c := classify filePath in
       if negb (isIgnoredByWatcher c) then
         if isTest c then
           if decide (dirtyState ds filePath = Some "unlink")
           then {| dirtyHelpersAndSources := dirtyHelpersAndSources acc;
                   addedOrChangedTests := addedOrChangedTests acc;
                   unlinkedTests := unlinkedTests acc ++ [filePath] |}
           else {| dirtyHelpersAndSources := dirtyHelpersAndSources acc;
                   addedOrChangedTests := addedOrChangedTests acc ++ [filePath];
                   unlinkedTests := unlinkedTests acc |}
         else {| dirtyHelpersAndSources := dirtyHelpersAndSources acc ++ [filePath];
                 addedOrChangedTests := addedOrChangedTests acc;
                 unlinkedTests := unlinkedTests acc |}
       else acc)
    dirtyPaths
    {| dirtyHelpersAndSources := []; addedOrChangedTests := [];
       unlinkedTests := [] |}.

(** [this.testDependencies.filter(dep => dep.contains(path)).map(dep => dep.file)] *)
Definition dependentsOf (path : string) (l : list TestDependency) : list string :=
  dep_file <$> filter (λ dep, contains dep path) l.

Definition testsByHelpersOrSource (helpers : list string)
    (l : list TestDependency) : list (list string) :=
  filter (λ tests, (0 < length tests)%nat)
    ((λ path, dependentsOf path l) <$> helpers).

(** What [runAfterChanges] decides once the unlinked tests are cleaned up:
    return without a run, or call [this.run] with these files. *)
Definition rerunDecision (dirtyPaths : list string) (c : Classified)
    (l : list TestDependency) : option (list string) :=
  if bool_decide (length (unlinkedTests c) = length dirtyPaths) then None
  else if bool_decide (length (dirtyHelpersAndSources c) = 0%nat)
  then Some (addedOrChangedTests c)
  else
    let found := testsByHelpersOrSource (dirtyHelpersAndSources c) l in
    if bool_decide (length found ≠ length (dirtyHelpersAndSources c))
    then Some []
    else Some (spreadSet (addedOrChangedTests c ++ concat found)).

(** The paths that get as far as the classification loop. *)
Definition survivingPaths (w : Watcher) : list string :=
  dropIgnoredChanges
    (dropTouchedAndTemporary (fst <$> dirtyStates w) w).1.

(** The watcher as [cleanUnlinkedTests] leaves it. *)
Definition afterCleanup (w : Watcher) : Watcher :=
  let ds := dirtyStates w in
  let touched := (dropTouchedAndTemporary (fst <$> ds) w).2 in
  let c := classifyDirty ds (survivingPaths w) in
  cleanUnlinkedTests (unlinkedTests c)
    (set_touchedFiles touched (set_dirtyStates [] w)).

Definition runAfterChanges (w : Watcher) : Watcher * option ApiRun :=
  let c := classifyDirty (dirtyStates w) (survivingPaths w) in
  let w' := afterCleanup w in
  match rerunDecision (survivingPaths w) c (testDependencies w') with
  | None => (w', None)
  | Some specificFiles =>
      let '(w'', call) := run specificFiles false w' in (w'', Some call)
  end.

End WatcherClass.

(** ** The event loop around a [Watcher]: timeouts and the [Debouncer] *)

(** A [Timeout] made by [setTimeout] in [debounce]: [Scheduled] until it
    expires, [AwaitingBusy] once its callback has started and is suspended at
    [await this.watcher.busy]. *)
Inductive TimeoutPhase := Scheduled | AwaitingBusy.

#[global] Instance TimeoutPhase_eq_dec : EqDecision TimeoutPhase.
Proof. solve_decision. Defined.

Record Timeout := {
  timeout_id : nat;
  timeout_delay : Q;
  timeout_phase : TimeoutPhase;
}.

(** What a debounce callback did after its identity check let it through. *)
Inductive CallbackEffect :=
| Restarted (timer : nat)
| RanAfterChanges (timer : nat) (call : option ApiRun).

Definition effectTimer (e : CallbackEffect) : nat :=
  match e with
  | Restarted t => t
  | RanAfterChanges t _ => t
  end.

(** [this] is the watcher, [pending] the timeouts that were set and whose
    callbacks have not finished, [allocated] the number of [Timeout] objects
    made so far, [effects] the callbacks that acted, newest first. *)
Record Runtime := {
  this : Watcher;
  pending : list Timeout;
  allocated : nat;
  effects : list CallbackEffect;
}.

Definition MIN_DEBOUNCE_DELAY : Q := inject_Z 10.
Definition INITIAL_DEBOUNCE_DELAY : Q := inject_Z 100.

(** [delay ? Math.max(delay, MIN_DEBOUNCE_DELAY) : INITIAL_DEBOUNCE_DELAY] *)
Definition debounceDelay (delay : option Q) : Q :=
  match delay with
  | None => INITIAL_DEBOUNCE_DELAY
  | Some d =>
      if Qeq_bool d (inject_Z 0) then INITIAL_DEBOUNCE_DELAY
      else if Qle_bool MIN_DEBOUNCE_DELAY d then d else MIN_DEBOUNCE_DELAY
  end.

Definition debounce (delay : option Q) (r : Runtime) : Runtime :=
  let d := debouncer (this r) in
  match timer d with
  | Some _ =>
      {| this := set_debouncer {| timer := timer d; again := true |} (this r);
         pending := pending r; allocated := allocated r; effects := effects r |}
  | None =>
      let t := allocated r in
      {| this := set_debouncer {| timer := Some t; again := again d |} (this r);
         pending := pending r ++
                    [{| timeout_id := t; timeout_delay := debounceDelay delay;
                        timeout_phase := Scheduled |}];
         allocated := S t; effects := effects r |}
  end.

(** [clearTimeout(timer)] stops a timeout that has not expired; a callback
    that is already running is not touched. *)
Definition clearTimeout (t : nat) (l : list Timeout) : list Timeout :=
  filter (λ to, ¬ (timeout_id to = t ∧ timeout_phase to = Scheduled)) l.

Definition cancel (r : Runtime) : Runtime :=
  match timer (debouncer (this r)) with
  | Some t =>
      {| this := set_debouncer {| timer := None; again := false |} (this r);
         pending := clearTimeout t (pending r);
         allocated := allocated r; effects := effects r |}
  | None => r
  end.

(** Timeout [t] expires: its callback starts and stops at the [await]. *)
Definition expire (t : nat) (r : Runtime) : Runtime :=
  {| this := this r;
     pending :=
       (λ to, if decide (timeout_id to = t ∧ timeout_phase to = Scheduled)
              then {| timeout_id := t; timeout_delay := timeout_delay to;
                      timeout_phase := AwaitingBusy |}
              else to) <$> pending r;
     allocated := allocated r; effects := effects r |}.

Definition awaiting (t : nat) (l : list Timeout) : option Timeout :=
  List.find
    (λ to, bool_decide (timeout_id to = t ∧ timeout_phase to = AwaitingBusy)) l.

Section EventLoop.

Variable classify : string → Classification.
Variable providers : list ProviderMain.
Variable patternFilters : list string.
Variable applyTestFileFilter : list string → list string → list string.

(** The busy promise is fulfilled and the callback of timeout [t] goes on
    after its [await]. *)
Definition resume (t : nat) (r : Runtime) : Runtime :=
  match awaiting t (pending r) with
  | None => r
  | Some to =>
      let rest :=
        filter (λ to, ¬ (timeout_id to = t ∧ timeout_phase to = AwaitingBusy))
          (pending r) in
      let d := debouncer (this r) in
      if decide (timer d ≠ Some t) then
        {| this := this r; pending := rest;
           allocated := allocated r; effects := effects r |}
      else if again d then
        debounce (Some (timeout_delay to / inject_Z 2)%Q)
          {| this := set_debouncer {| timer := None; again := false |} (this r);
             pending := rest; allocated := allocated r;
             effects := Restarted t :: effects r |}
      else
        let '(w, call) :=
          runAfterChanges classify providers patternFilters
            applyTestFileFilter (this r) in
        {| this := set_debouncer {| timer := None; again := false |} w;
           pending := rest; allocated := allocated r;
           effects := RanAfterChanges t call :: effects r |}
  end.

(** What can happen to a runtime.  [Meanwhile f] stands for any other code
    of the class running in between (telemetry handlers, a dispatch, a
    write to [dirtyStates]): none of it assigns to the debouncer. *)
Inductive Event :=
| Debounce (delay : option Q)
| Cancel
| Expire (t : nat)
| BusySettled (t : nat)
| Meanwhile (f : Watcher → Watcher).

Definition step (r : Runtime) (e : Event) : Runtime :=
  match e with
  | Debounce delay => debounce delay r
  | Cancel => cancel r
  | Expire t => expire t r
  | BusySettled t => resume t r
  | Meanwhile f =>
      {| this := set_debouncer (debouncer (this r)) (f (this r));
         pending := pending r; allocated := allocated r;
         effects := effects r |}
  end.

Definition exec (evs : list Event) (r : Runtime) : Runtime :=
  fold_left step evs r.

(** *** ControlChannel: the [data] listener of [observeStdin] *)

(** Up to [await this.busy]: [None] when the listener returns at once. *)
Definition stdinData (data : string) (r : Runtime) : option (string * Runtime) :=
  let data := toLowerCase (trim data) in
  if bool_decide (data ≠ "r") && bool_decide (data ≠ "rs")
     && bool_decide (data ≠ "u")
  then None
  else Some (data, cancel r).

(** From [await this.busy] on, with the normalised [data]. *)
Definition stdinResumed (data : string) (r : Runtime) : Runtime * ApiRun :=
  let r := cancel r in
  let w := set_clearLogOnNextRun false (this r) in
  let '(w, call) :=
    if decide (data = "u")
    then updatePreviousSnapshots patternFilters applyTestFileFilter w
    else rerunAll patternFilters applyTestFileFilter w in
  ({| this := w; pending := pending r; allocated := allocated r;
      effects := effects r |}, call).

(** *** The constructor *)

Definition blank : Watcher :=
  {| debouncer := {| timer := None; again := false |};
     clearLogOnNextRun := true; runVector := 0; previousFiles := [];
     testDependencies := []; temporaryFiles := ∅; touchedFiles := ∅;
     filesWithExclusiveTests := []; filesWithFailures := [];
     dirtyStates := [] |}.

Definition construct : Runtime * ApiRun :=
  let '(w, call) := rerunAll patternFilters applyTestFileFilter blank in
  ({| this := w; pending := []; allocated := 0%nat; effects := [] |}, call).

End EventLoop.

(** ** The [plan] generator *)

(** The promise [changed]: pending, or resolved with a list of files. *)
Inductive Promise := Unsettled | Resolved (value : list string).

(** The local variables of [plan].  [signalChanged] tells whether the variable
    holds the resolver of [changed] yet ([reset] assigns it); [dirtyPaths] is a
    [Set] that is spread into an array, so its insertion order is kept. *)
Record Plan := {
  plan_filesWithExclusiveTests : gset string;
  plan_touchedFiles : gset string;
  plan_temporaryFiles : gset string;
  signalChanged : bool;
  changed : Promise;
  firstRun : bool;
  runAll : bool;
  updateSnapshots : bool;
  dirtyPaths : list string;
}.

(** The object [plan] yields; [start] passes [files] and the rest, as
    [runtimeOptions], to [api.run]. *)
Record Instructions := {
  ins_files : list string;
  ins_firstRun : bool;
  ins_previousFailures : Z;
  ins_runOnlyExclusive : bool;
  ins_updateSnapshots : bool;
}.

(** A listener either returns or throws (calling [signalChanged] while it is
    still [undefined]); the variables it assigned before stay assigned. *)
Inductive Outcome := Returned (p : Plan) | Threw (p : Plan).

Definition planOf (o : Outcome) : Plan :=
  match o with Returned p => p | Threw p => p end.

(** [signalChanged(value)]: resolving a promise twice changes nothing. *)
Definition callSignalChanged (value : list string) (p : Plan) : Outcome :=
  if signalChanged p then
    Returned
      {| plan_filesWithExclusiveTests := plan_filesWithExclusiveTests p;
         plan_touchedFiles := plan_touchedFiles p;
         plan_temporaryFiles := plan_temporaryFiles p;
         signalChanged := true;
         changed := match changed p with
                    | Unsettled => Resolved value
                    | Resolved v => Resolved v
                    end;
         firstRun := firstRun p; runAll := runAll p;
         updateSnapshots := updateSnapshots p; dirtyPaths := dirtyPaths p |}
  else Threw p.

Definition planStart : Plan :=
  {| plan_filesWithExclusiveTests := ∅; plan_touchedFiles := ∅;
     plan_temporaryFiles := ∅; signalChanged := false;
     changed := Resolved []; firstRun := true; runAll := true;
     updateSnapshots := false; dirtyPaths := [] |}.

Definition reset (p : Plan) : Plan :=
  {| plan_filesWithExclusiveTests := plan_filesWithExclusiveTests p;
     plan_touchedFiles := plan_touchedFiles p;
     plan_temporaryFiles := plan_temporaryFiles p;
     signalChanged := true; changed := Unsettled;
     firstRun := false; runAll := false; updateSnapshots := false;
     dirtyPaths := dirtyPaths p |}.

(** One turn of the [while (true)] loop, possible once [changed] is resolved. *)
Definition planNext (p : Plan) : option (Instructions * Plan) :=
  match changed p with
  | Unsettled => None
  | Resolved value =>
      Some ({| ins_files := value; ins_firstRun := firstRun p;
               ins_previousFailures := 0; ins_runOnlyExclusive := false;
               ins_updateSnapshots := updateSnapshots p |},
            reset p)
  end.

(** The [data] listener on stdin. *)
Definition planStdinData (data : string) (p : Plan) : Outcome :=
  let data := toLowerCase (trim data) in
  let p :=
    {| plan_filesWithExclusiveTests := plan_filesWithExclusiveTests p;
       plan_touchedFiles := plan_touchedFiles p;
       plan_temporaryFiles := plan_temporaryFiles p;
       signalChanged := signalChanged p; changed := changed p;
       firstRun := firstRun p;
       runAll := runAll p || bool_decide (data = "r");
       updateSnapshots := updateSnapshots p || bool_decide (data = "u");
       dirtyPaths := dirtyPaths p |} in
  if runAll p || updateSnapshots p then callSignalChanged [] p else Returned p.

(** The callback of [fs.watch]: [dirtyPaths.add(filename)]. *)
Definition planWatched (filename : string) (p : Plan) : Plan :=
  {| plan_filesWithExclusiveTests := plan_filesWithExclusiveTests p;
     plan_touchedFiles := plan_touchedFiles p;
     plan_temporaryFiles := plan_temporaryFiles p;
     signalChanged := signalChanged p; changed := changed p;
     firstRun := firstRun p; runAll := runAll p;
     updateSnapshots := updateSnapshots p;
     dirtyPaths := if includes (dirtyPaths p) filename then dirtyPaths p
                   else dirtyPaths p ++ [filename] |}.

(** The [touched-files] case of the [stateChange] listener, on paths already
    made relative to [projectDir]. *)
Definition planTouchedFiles (changedFiles temporary : list string) (p : Plan)
  : Plan :=
  {| plan_filesWithExclusiveTests := plan_filesWithExclusiveTests p;
     plan_touchedFiles := plan_touchedFiles p ∪ list_to_set changedFiles;
     plan_temporaryFiles := plan_temporaryFiles p ∪ list_to_set temporary;
     signalChanged := signalChanged p; changed := changed p;
     firstRun := firstRun p; runAll := runAll p;
     updateSnapshots := updateSnapshots p; dirtyPaths := dirtyPaths p |}.

(** The [worker-finished] case of the same listener. *)
Definition planWorkerFinished (testFile : string)
    (selectedTests declaredTests : Z) (p : Plan) : Plan :=
  {| plan_filesWithExclusiveTests :=
       if bool_decide (selectedTests > 0)
          && bool_decide (declaredTests > selectedTests)
       then plan_filesWithExclusiveTests p ∪ {[testFile]}
       else plan_filesWithExclusiveTests p ∖ {[testFile]};
     plan_touchedFiles := plan_touchedFiles p;
     plan_temporaryFiles := plan_temporaryFiles p;
     signalChanged := signalChanged p; changed := changed p;
     firstRun := firstRun p; runAll := runAll p;
     updateSnapshots := updateSnapshots p; dirtyPaths := dirtyPaths p |}.

Section PlanCallbacks.

(** [classify] and [applyTestFileFilter] as above; [isIgnored] is
    [buildIgnoreMatcher(globs)]. *)
Variable classify : string → Classification.
Variable isIgnored : string → bool.
Variable providers : list ProviderMain.
Variable patternFilters : list string.
Variable applyTestFileFilter : list string → list string → list string.

(** The callback given to [[...dirtyPaths].filter]. *)
Definition planKeeps (p : Plan) (path : string) : bool :=
  if decide (path ∈ plan_temporaryFiles p) then false
  else if decide (path ∈ plan_touchedFiles p) then false
  else if existsb (λ main, ignoreChange main path) providers then false
  else if isIgnored path then false
  else if negb (isTest (classify path)) then false
  else true.

(** The callback of the [debounce] timeout. *)
Definition planDebounced (p : Plan) : Outcome :=
  if bool_decide (length (dirtyPaths p) = 0%nat) then Returned p
  else
    let testFiles := filter (λ path, planKeeps p path) (dirtyPaths p) in
    let p :=
      {| plan_filesWithExclusiveTests := plan_filesWithExclusiveTests p;
         plan_touchedFiles := ∅; plan_temporaryFiles := ∅;
         signalChanged := signalChanged p; changed := changed p;
         firstRun := firstRun p; runAll := runAll p;
         updateSnapshots := updateSnapshots p; dirtyPaths := [] |} in
    let testFiles :=
      if bool_decide (0 < length patternFilters)%nat
      then applyTestFileFilter patternFilters testFiles
      else testFiles in
    if bool_decide (0 < length testFiles)%nat
    then callSignalChanged testFiles p
    else Returned p.

End PlanCallbacks.

(** ** A session of the [plan] generator

    What happens to the generator between two turns of its loop: its
    listeners fire, or the consumer asks for the next instructions.  A
    listener that throws leaves the variables as it had assigned them. *)

Inductive PlanEvent :=
| OnStdin (data : string)
| OnWatch (filename : string)
| OnTimeout
| OnTouched (changedFiles temporary : list string)
| OnWorkerFinished (testFile : string) (selectedTests declaredTests : Z)
| OnNext.

Section PlanSession.

Variable classify : string → Classification.
Variable isIgnored : string → bool.
Variable providers : list ProviderMain.
Variable patternFilters : list string.
Variable applyTestFileFilter : list string → list string → list string.

(** The generator's variables and the instructions yielded so far. *)
Definition planStep (acc : Plan * list Instructions) (ev : PlanEvent)
  : Plan * list Instructions :=
  let '(p, yielded) := acc in
  match ev with
  | OnStdin data => (planOf (planStdinData data p), yielded)
  | OnWatch filename => (planWatched filename p, yielded)
  | OnTimeout =>
      (planOf (planDebounced classify isIgnored providers patternFilters
                 applyTestFileFilter p), yielded)
  | OnTouched changedFiles temporary =>
      (planTouchedFiles changedFiles temporary p, yielded)
  | OnWorkerFinished testFile selectedTests declaredTests =>
      (planWorkerFinished testFile selectedTests declaredTests p, yielded)
  | OnNext =>
      match planNext p with
      | Some (ins, p') => (p', yielded ++ [ins])
      | None => (p, yielded)
      end
  end.

Definition planSession (evs : list PlanEvent) : Plan * list Instructions :=
  fold_left planStep evs (planStart, []).

End PlanSession.

(** ** The shape the trackers keep

    No file is listed twice among the exclusive files, the failure records are
    a reachable ledger, and no tracked test has an empty dependency list. *)
Definition trackersWellFormed (w : Watcher) : Prop :=
  NoDup (filesWithExclusiveTests w)
  ∧ ledger_reachable (filesWithFailures w)
  ∧ Forall (λ dep, dep_dependencies dep ≠ []) (testDependencies w).

(** ** Sample collaborators

    Collaborators to run the model on: a classifier that takes the files
    under [test/] for tests and ignores those under [node_modules/], a
    provider that rewrites nothing and ignores nothing, a matcher that ignores
    nothing, a filter function that keeps every file, and one that takes
    each pattern for the path of a single file. *)

Definition sampleClassify (path : string) : Classification :=
  {| isIgnoredByWatcher := String.prefix "node_modules/" path;
     isTest := String.prefix "test/" path |}.

Definition plainProvider : ProviderMain :=
  {| ignoreChange := λ _, false; resolveTestFile := λ file, file |}.

Definition ignoreNothing (path : string) : bool := false.

Definition keepAll (patterns testFiles : list string) : list string := testFiles.

Definition keepListed (patterns testFiles : list string) : list string :=
  filter (λ file, file ∈ patterns) testFiles.

(** A watcher after its first run, with one tracked, exclusive and failing
    test, and the given [dirtyStates]. *)
Definition sampleWatcher (ds : list (string * string)) : Watcher :=
  {| debouncer := {| timer := None; again := false |};
     clearLogOnNextRun := true; runVector := 1; previousFiles := [];
     testDependencies :=
       [{| dep_file := "test/a.js";
           dep_dependencies := ["test/a.js"; "src/helper.js"] |}];
     temporaryFiles := ∅; touchedFiles := ∅;
     filesWithExclusiveTests := ["test/a.js"];
     filesWithFailures :=
       [{| state_file := "test/a.js"; state_vector := 1; state_count := 2 |}];
     dirtyStates := ds |}.

(** * Properties *)

(** ** FailureLedger *)

Lemma someCountFailure_None file l :
  file ∉ state_file <$> l → someCountFailure file l = None.
Proof.
  induction l as [|s l IH]; simpl; [done|].
  rewrite not_elem_of_cons. intros [Hne Hl].
  destruct (decide (state_file s = file)) as [Heq|_]; [congruence|].
  by rewrite IH.
Qed.

Lemma someCountFailure_first file before s after :
  file ∉ state_file <$> before → state_file s = file →
  someCountFailure file (before ++ s :: after)
  = Some (before ++ {| state_file := file; state_vector := state_vector s;
                       state_count := state_count s + 1 |} :: after).
Proof.
  intros Hbefore Hs. induction before as [|b before IH]; simpl.
  - rewrite decide_True by done. by rewrite Hs.
  - simpl in Hbefore. apply not_elem_of_cons in Hbefore as [Hne Hbefore].
    rewrite decide_False by congruence. by rewrite IH.
Qed.

Lemma someCountFailure_files file l l' :
  someCountFailure file l = Some l' →
  file ∈ state_file <$> l ∧ state_file <$> l' = state_file <$> l.
Proof.
  revert l'. induction l as [|s l IH]; simpl; intros l' H; [done|].
  destruct (decide (state_file s = file)) as [Heq|Hne].
  - inversion H; subst. split; [left|done].
  - destruct (someCountFailure file l) as [l0|] eqn:E; simpl in H; [|done].
    inversion H; subst. destruct (IH l0 eq_refl) as [Hin Hmap].
    split; [by right|]. rewrite !fmap_cons. by rewrite Hmap.
Qed.

Lemma sumPreviousFailures_from beforeVector l total :
  fold_left
    (λ total state,
       if decide (state_vector state < beforeVector)
       then total + state_count state else total) l total
  = total + sumOfRecordsBefore beforeVector l.
Proof.
  unfold sumOfRecordsBefore. revert total.
  induction l as [|s l IH]; intros total; simpl; [lia|].
  rewrite IH, filter_cons.
  destruct (decide (state_vector s < beforeVector));
    rewrite ?fmap_cons; cbn [foldr]; lia.
Qed.

Lemma elem_of_pruneFailures files l s :
  s ∈ pruneFailures files l ↔ s ∈ l ∧ state_file s ∉ files.
Proof.
  unfold pruneFailures. rewrite list_elem_of_filter, elem_of_list_to_set.
  tauto.
Qed.

Lemma countFailure_NoDup file vector l :
  NoDup (state_file <$> l) → NoDup (state_file <$> countFailure file vector l).
Proof.
  intros Hl. unfold countFailure.
  destruct (someCountFailure file l) as [l'|] eqn:E.
  - apply someCountFailure_files in E as [_ ->]. done.
  - rewrite fmap_app. simpl. apply NoDup_app. split; [done|].
    split; [|apply NoDup_singleton].
    intros x Hx Hx'. apply list_elem_of_singleton in Hx'. subst x.
    apply list_elem_of_fmap in Hx as (s & Hs & Hin).
    apply list_elem_of_split in Hin as (l1 & l2 & ->).
    clear Hl. revert E. induction l1 as [|a l1 IH]; simpl.
    + by rewrite decide_True.
    + destruct (decide (state_file a = file)); [done|].
      destruct (someCountFailure file (l1 ++ s :: l2)); [done|]. auto.
Qed.

Lemma pruneFailures_NoDup files l :
  NoDup (state_file <$> l) → NoDup (state_file <$> pruneFailures files l).
Proof.
  unfold pruneFailures. intros Hl.
  apply (sublist_NoDup _ (state_file <$> l)); [exact Hl|].
  apply fmap_sublist, sublist_filter.
Qed.

Lemma ledger_reachable_NoDup l :
  ledger_reachable l → NoDup (state_file <$> l).
Proof.
  induction 1; simpl.
  - apply NoDup_nil_2.
  - by apply countFailure_NoDup.
  - by apply pruneFailures_NoDup.
Qed.

(** C5: recording a failure for a file without a record appends a record with
    count 1 at the given vector; recording one for a file that has a record
    adds 1 to the count of that record and keeps its vector; the sum reported
    before a vector is the sum of the counts of the records with a strictly
    smaller vector; two failures of one file at vector 1 give the sum 2 before
    vector 2. *)
Theorem record_and_sumBefore (f : string) (g : Z) :
  (∀ l, f ∉ state_file <$> l →
     countFailure f g l
     = l ++ [{| state_file := f; state_vector := g; state_count := 1 |}])
  ∧ (∀ before s after,
       f ∉ state_file <$> before → state_file s = f →
       countFailure f g (before ++ s :: after)
       = before ++ {| state_file := f; state_vector := state_vector s;
                      state_count := state_count s + 1 |} :: after)
  ∧ (∀ g' l, sumPreviousFailures g' l = sumOfRecordsBefore g' l)
  ∧ sumPreviousFailures 2 (countFailure f 1 (countFailure f 1 [])) = 2.
Proof.
  repeat split.
  - intros l Hl. unfold countFailure. by rewrite someCountFailure_None.
  - intros before s after Hb Hs. unfold countFailure.
    by rewrite someCountFailure_first.
  - intros g' l. unfold sumPreviousFailures.
    by rewrite sumPreviousFailures_from.
  - unfold countFailure; simpl. rewrite decide_True by done. reflexivity.
Qed.

Lemma record_and_sumBefore_witness :
  countFailure "test/a.js" 4 []
  = [{| state_file := "test/a.js"; state_vector := 4; state_count := 1 |}]
  ∧ countFailure "test/a.js" 4
      [{| state_file := "test/b.js"; state_vector := 1; state_count := 3 |};
       {| state_file := "test/a.js"; state_vector := 2; state_count := 5 |}]
    = [{| state_file := "test/b.js"; state_vector := 1; state_count := 3 |};
       {| state_file := "test/a.js"; state_vector := 2; state_count := 6 |}].
Proof.
  destruct (record_and_sumBefore "test/a.js" 4) as (Hnew & Hold & _).
  split.
  - apply (Hnew []). simpl. apply not_elem_of_nil.
  - apply (Hold
      [{| state_file := "test/b.js"; state_vector := 1; state_count := 3 |}]
      {| state_file := "test/a.js"; state_vector := 2; state_count := 5 |} []).
    + simpl. rewrite list_elem_of_singleton. discriminate.
    + reflexivity.
Defined.

(** C6, as stated, fails: no ledger the class can reach holds two records of
    one file, at different vectors or otherwise. *)
Lemma no_two_records_of_one_file :
  ¬ ∃ l i j si sj,
      ledger_reachable l ∧ i ≠ j ∧ l !! i = Some si ∧ l !! j = Some sj
      ∧ state_file si = state_file sj ∧ state_vector si ≠ state_vector sj.
Proof.
  intros (l & i & j & si & sj & Hl & Hij & Hi & Hj & Hfile & _).
  apply ledger_reachable_NoDup in Hl. apply Hij.
  eapply (NoDup_lookup _ i j (state_file si)); [exact Hl| |].
  - by rewrite list_lookup_fmap, Hi.
  - by rewrite list_lookup_fmap, Hj, Hfile.
Qed.

(** C6, amended: a reachable ledger holds at most one record per file, and
    pruning keeps exactly the records whose file is not among the pruned ones,
    whatever their vector. *)
Theorem one_record_per_file_and_prune (l : list FailureState) :
  ledger_reachable l →
  NoDup (state_file <$> l)
  ∧ ∀ files s, s ∈ pruneFailures files l ↔ s ∈ l ∧ state_file s ∉ files.
Proof.
  intros Hl. split; [by apply ledger_reachable_NoDup|].
  intros files s. apply elem_of_pruneFailures.
Qed.

Lemma one_record_per_file_and_prune_witness :
  NoDup (state_file <$> countFailure "test/a.js" 2 (countFailure "test/a.js" 1 []))
  ∧ ∀ files s,
      s ∈ pruneFailures files
            (countFailure "test/a.js" 2 (countFailure "test/a.js" 1 []))
      ↔ s ∈ countFailure "test/a.js" 2 (countFailure "test/a.js" 1 [])
        ∧ state_file s ∉ files.
Proof.
  apply one_record_per_file_and_prune.
  apply ledger_count, ledger_count, ledger_init.
Defined.

(** ** RunDriver and ExclusivityTracker *)

Lemma filter_ext_in {A} (P Q : A → Prop) `{!∀ x, Decision (P x)}
    `{!∀ x, Decision (Q x)} (l : list A) :
  (∀ x, x ∈ l → P x ↔ Q x) → filter P l = filter Q l.
Proof.
  induction l as [|a l IH]; intros Hext; [done|].
  rewrite !filter_cons.
  rewrite IH by (intros x Hx; apply Hext; by right).
  apply decide_ext, Hext. left.
Qed.

(** Among lists without repetition, [filter] finds as many exclusive files
    in the request as there are exactly when the request has them all. *)
Lemma covers_iff_lengths (exclusive requested : list string) :
  NoDup exclusive → NoDup requested →
  length (filter (λ file, includes exclusive file) requested) = length exclusive
  ↔ exclusive ⊆ requested.
Proof.
  intros He Hr.
  set (X := filter (λ file, includes exclusive file) requested).
  assert (HX : ∀ x, x ∈ X ↔ x ∈ exclusive ∧ x ∈ requested).
  { intros x. unfold X, includes. rewrite list_elem_of_filter.
    by rewrite bool_decide_spec. }
  assert (HXd : NoDup X) by (by apply NoDup_filter).
  split.
  - intros Hlen x Hx.
    assert (HP : X ≡ₚ exclusive).
    { apply submseteq_length_Permutation; [|lia].
      apply NoDup_submseteq; [done|]. intros y Hy. by apply HX in Hy as []. }
    rewrite <- HP in Hx. by apply HX in Hx as [].
  - intros Hsub. apply Permutation_length, NoDup_Permutation; [done..|].
    intros x. rewrite HX. split; [tauto|]. intros Hx. split; [done|].
    by apply Hsub.
Qed.

Lemma remaining_is_difference (exclusive requested : list string) :
  filter
    (λ file, negb (includes (filter (λ file, includes exclusive file) requested)
                     file)) requested
  = filter (λ file, file ∉ exclusive) requested.
Proof.
  apply filter_ext_in. intros x Hx. unfold includes.
  rewrite negb_True, bool_decide_spec, list_elem_of_filter, bool_decide_spec.
  tauto.
Qed.

Lemma updateExclusivity_NoDup file hasExclusiveTests l :
  NoDup l → NoDup (updateExclusivity file hasExclusiveTests l).
Proof.
  intros Hl. unfold updateExclusivity, includes.
  destruct hasExclusiveTests; case_bool_decide; try done.
  - apply NoDup_app. split; [done|]. split; [|apply NoDup_singleton].
    intros x Hx Hx'. apply list_elem_of_singleton in Hx'. by subst.
  - clear H. induction Hl as [|x l Hx Hl IH]; simpl; [constructor|].
    destruct (decide (x = file)); [done|].
    constructor; [|done]. intros Hin. apply Hx.
    clear -Hin. induction l as [|y l IH]; simpl in *; [done|].
    destruct (decide (y = file)); [by right|].
    apply elem_of_cons in Hin as [->|Hin]; [left|right; auto].
Qed.

(** C3, as stated, fails when pattern filters are configured.  With
    [test/a.js] exclusive and a filter that matches [test/b.js] only, a
    request for [test/b.js] is dispatched as [test/b.js] alone, not with
    [test/a.js], though [runOnlyExclusive] is set; and with a filter that
    matches neither file, a request that has every exclusive file is not
    dispatched unchanged but as the empty list. *)
Lemma pattern_filters_narrow_the_run :
  let w := sampleWatcher [] in
  filesWithExclusiveTests w = ["test/a.js"]
  ∧ (let call := (run ["test/b.js"] keepListed ["test/b.js"] false w).2 in
     opt_runOnlyExclusive (runtimeOptions call) = true
     ∧ files call = ["test/b.js"])
  ∧ (let call :=
       (run ["test/c.js"] keepListed ["test/a.js"; "test/b.js"] false w).2 in
     opt_runOnlyExclusive (runtimeOptions call) = false
     ∧ files call = []).
Proof. vm_compute. repeat split; reflexivity. Qed.

Section RunProperties.

Context (patternFilters : list string)
        (applyTestFileFilter : list string → list string → list string).

Lemma run_clearLog specificFiles updateSnapshots w :
  opt_clearLogOnNextRun
    (runtimeOptions
       (run patternFilters applyTestFileFilter specificFiles updateSnapshots w).2)
  = clearLogOnNextRun w && bool_decide (runVector w > 0).
Proof.
  unfold run.
  destruct (bool_decide (runVector w > 0));
    destruct (bool_decide (0 < length specificFiles)%nat); reflexivity.
Qed.

Lemma run_updateSnapshots specificFiles updateSnapshots w :
  opt_updateSnapshots
    (runtimeOptions
       (run patternFilters applyTestFileFilter specificFiles updateSnapshots w).2)
  = updateSnapshots.
Proof.
  unfold run.
  destruct (bool_decide (runVector w > 0));
    destruct (bool_decide (0 < length specificFiles)%nat); reflexivity.
Qed.

Lemma run_empty updateSnapshots w :
  files (run patternFilters applyTestFileFilter [] updateSnapshots w).2 = []
  ∧ opt_runOnlyExclusive
      (runtimeOptions
         (run patternFilters applyTestFileFilter [] updateSnapshots w).2) = false.
Proof.
  unfold run.
  rewrite (bool_decide_eq_false_2 (0 < length [])%nat) by (simpl; lia).
  destruct (bool_decide (runVector w > 0)); split; reflexivity.
Qed.

Lemma run_nonempty specificFiles updateSnapshots w :
  specificFiles ≠ [] →
  let exclusive := filesWithExclusiveTests w in
  let exclusiveFiles := filter (λ file, includes exclusive file) specificFiles in
  let runOnlyExclusive :=
    bool_decide (length exclusiveFiles ≠ length exclusive) in
  let call :=
    (run patternFilters applyTestFileFilter specificFiles updateSnapshots w).2 in
  files call
  = narrowed patternFilters applyTestFileFilter
      (if runOnlyExclusive
       then exclusive
            ++ filter (λ file, negb (includes exclusiveFiles file)) specificFiles
       else specificFiles)
  ∧ opt_runOnlyExclusive (runtimeOptions call) = runOnlyExclusive.
Proof.
  intros Hne. unfold run.
  rewrite (bool_decide_eq_true_2 (0 < length specificFiles)%nat)
    by (destruct specificFiles; simpl; [done|lia]).
  destruct (bool_decide (runVector w > 0)); split; reflexivity.
Qed.

(** C10: a run dispatched while [runVector] is still 0 is told not to clear
    the log, whatever the stored flag says. *)
Theorem first_run_keeps_the_log (specificFiles : list string)
    (updateSnapshots : bool) (w : Watcher) :
  runVector w = 0 →
  opt_clearLogOnNextRun
    (runtimeOptions
       (run patternFilters applyTestFileFilter specificFiles updateSnapshots w).2)
  = false.
Proof.
  intros Hv. rewrite run_clearLog, Hv.
  rewrite (bool_decide_eq_false_2 (0 > 0)) by lia. apply andb_false_r.
Qed.

(** The [if (filter.length > 0)] block, by cases on the pattern filters. *)
Lemma narrowed_cases (l : list string) :
  narrowed patternFilters applyTestFileFilter l
  = if decide (patternFilters = []) then l
    else applyTestFileFilter patternFilters l.
Proof.
  unfold narrowed. destruct patternFilters as [|f fs].
  - rewrite bool_decide_eq_false_2 by (simpl; lia). by rewrite decide_True.
  - rewrite bool_decide_eq_true_2 by (simpl; lia). by rewrite decide_False.
Qed.

(** What [api.run] is handed for a non-empty request without repetition:
    the request when it has every exclusive file, the exclusive files followed
    by the rest of the request when it has not, in both cases narrowed by the
    pattern filters when there are any. *)
Lemma run_dispatch (requested : list string) (updateSnapshots : bool)
    (w : Watcher) :
  NoDup requested → NoDup (filesWithExclusiveTests w) → requested ≠ [] →
  let exclusive := filesWithExclusiveTests w in
  let call :=
    (run patternFilters applyTestFileFilter requested updateSnapshots w).2 in
  (exclusive ⊆ requested →
   opt_runOnlyExclusive (runtimeOptions call) = false
   ∧ files call
     = if decide (patternFilters = []) then requested
       else applyTestFileFilter patternFilters requested)
  ∧ (¬ exclusive ⊆ requested →
     opt_runOnlyExclusive (runtimeOptions call) = true
     ∧ files call
       = if decide (patternFilters = [])
         then exclusive ++ filter (λ file, file ∉ exclusive) requested
         else applyTestFileFilter patternFilters
                (exclusive ++ filter (λ file, file ∉ exclusive) requested)).
Proof.
  intros Hr He Hne exclusive call.
  destruct (run_nonempty requested updateSnapshots w Hne) as [Hf Ho].
  fold call exclusive in Hf, Ho. rewrite narrowed_cases in Hf. split.
  - intros Hcov.
    rewrite bool_decide_eq_false_2 in Hf, Ho
      by (intros Hn; apply Hn; by apply covers_iff_lengths).
    done.
  - intros Hmiss.
    rewrite bool_decide_eq_true_2 in Hf, Ho
      by (by rewrite covers_iff_lengths).
    rewrite remaining_is_difference in Hf. done.
Qed.

(** C3, amended.  A non-empty request without repetition that misses some
    exclusive file is replaced by the exclusive files followed by the
    requested files that are not exclusive, the union of the two, and
    [runOnlyExclusive] is set; a request that has every exclusive file is kept
    and [runOnlyExclusive] is unset.  That list is what the run gets when no
    pattern filters are configured; with pattern filters the run gets what
    [applyTestFileFilter] makes of it.  An empty request stays empty, with
    [runOnlyExclusive] unset.  Without pattern filters, exclusive [A] and
    request [B] give the run [A; B]. *)
Theorem exclusive_files_join_the_run (updateSnapshots : bool) :
  (∀ requested w,
     NoDup requested → NoDup (filesWithExclusiveTests w) →
     requested ≠ [] → ¬ filesWithExclusiveTests w ⊆ requested →
     let call :=
       (run patternFilters applyTestFileFilter requested updateSnapshots w).2 in
     let reconciled :=
       filesWithExclusiveTests w
       ++ filter (λ file, file ∉ filesWithExclusiveTests w) requested in
     opt_runOnlyExclusive (runtimeOptions call) = true
     ∧ (∀ file, file ∈ reconciled
                ↔ file ∈ filesWithExclusiveTests w ∨ file ∈ requested)
     ∧ (patternFilters = [] → files call = reconciled)
     ∧ (patternFilters ≠ [] →
        files call = applyTestFileFilter patternFilters reconciled))
  ∧ (∀ requested w,
       NoDup requested → NoDup (filesWithExclusiveTests w) →
       requested ≠ [] → filesWithExclusiveTests w ⊆ requested →
       let call :=
         (run patternFilters applyTestFileFilter requested updateSnapshots w).2 in
       opt_runOnlyExclusive (runtimeOptions call) = false
       ∧ (patternFilters = [] → files call = requested)
       ∧ (patternFilters ≠ [] →
          files call = applyTestFileFilter patternFilters requested))
  ∧ (∀ w,
       let call :=
         (run patternFilters applyTestFileFilter [] updateSnapshots w).2 in
       opt_runOnlyExclusive (runtimeOptions call) = false ∧ files call = [])
  ∧ (∀ A B w,
       patternFilters = [] → A ≠ B → filesWithExclusiveTests w = [A] →
       let call :=
         (run patternFilters applyTestFileFilter [B] updateSnapshots w).2 in
       opt_runOnlyExclusive (runtimeOptions call) = true
       ∧ files call = [A; B]).
Proof.
  split; [|split; [|split]].
  - intros requested w Hr He Hne Hmiss call reconciled.
    destruct (run_dispatch requested updateSnapshots w Hr He Hne)
      as [_ Hrun].
    destruct (Hrun Hmiss) as [Ho Hf]. fold call in Ho, Hf.
    split; [done|]. split; [|split].
    + intros file. unfold reconciled.
      rewrite elem_of_app, list_elem_of_filter.
      destruct (decide (file ∈ filesWithExclusiveTests w)); tauto.
    + intros Hpf. by rewrite decide_True in Hf.
    + intros Hpf. by rewrite decide_False in Hf.
  - intros requested w Hr He Hne Hcov call.
    destruct (run_dispatch requested updateSnapshots w Hr He Hne)
      as [Hrun _].
    destruct (Hrun Hcov) as [Ho Hf]. fold call in Ho, Hf.
    split; [done|]. split.
    + intros Hpf. by rewrite decide_True in Hf.
    + intros Hpf. by rewrite decide_False in Hf.
  - intros w call. destruct (run_empty updateSnapshots w). done.
  - intros A B w Hpf HAB HA call.
    destruct (run_dispatch [B] updateSnapshots w) as [_ Hrun].
    + apply NoDup_singleton.
    + rewrite HA. apply NoDup_singleton.
    + done.
    + destruct Hrun as [Ho Hf].
      * rewrite HA. intros Hsub. apply HAB.
        specialize (Hsub A). rewrite !list_elem_of_singleton in Hsub. auto.
      * fold call in Ho, Hf. split; [done|].
        rewrite decide_True in Hf by done. rewrite Hf, HA.
        rewrite filter_cons_True, filter_nil; [done|].
        rewrite list_elem_of_singleton. congruence.
Qed.

End RunProperties.

(** ** RerunDecisionEngine *)

Lemma filter_all {A} (P : A → Prop) `{!∀ x, Decision (P x)} (l : list A) :
  Forall P l → filter P l = l.
Proof.
  induction 1 as [|x l Hx Hl IH]; [done|].
  by rewrite filter_cons_True, IH.
Qed.

Lemma elem_of_concat {A} (x : A) (ls : list (list A)) :
  x ∈ concat ls ↔ ∃ l, x ∈ l ∧ l ∈ ls.
Proof.
  induction ls as [|l ls IH]; simpl.
  - split; [by intros ?%elem_of_nil|]. by intros (l & _ & ?%elem_of_nil).
  - rewrite elem_of_app, IH. split.
    + intros [Hx|(l' & Hx & Hl')]; [exists l; split; [done|left]|].
      exists l'. split; [done|by right].
    + intros (l' & Hx & Hl'). apply elem_of_cons in Hl' as [->|Hl']; eauto.
Qed.

Lemma spreadSet_from (seen l : list string) :
  NoDup seen →
  let out := fold_left
               (λ seen x, if includes seen x then seen else seen ++ [x]) l seen in
  NoDup out ∧ ∀ x, x ∈ out ↔ x ∈ seen ∨ x ∈ l.
Proof.
  cbv zeta. revert seen. induction l as [|a l IH]; intros seen Hseen; simpl.
  - split; [done|]. intros x. rewrite elem_of_nil. tauto.
  - destruct (includes seen a) eqn:Ha; unfold includes in Ha.
    + apply bool_decide_eq_true in Ha.
      destruct (IH seen Hseen) as [Hd Hin]. split; [done|].
      intros x. rewrite Hin, elem_of_cons. split; [tauto|].
      intros [?|[->|?]]; tauto.
    + apply bool_decide_eq_false in Ha.
      destruct (IH (seen ++ [a])) as [Hd Hin].
      { apply NoDup_app. split; [done|]. split; [|apply NoDup_singleton].
        intros x Hx Hx'. apply list_elem_of_singleton in Hx'. by subst. }
      split; [done|]. intros x.
      rewrite Hin, elem_of_app, list_elem_of_singleton, elem_of_cons. tauto.
Qed.

Lemma spreadSet_spec (l : list string) :
  NoDup (spreadSet l) ∧ ∀ x, x ∈ spreadSet l ↔ x ∈ l.
Proof.
  destruct (spreadSet_from [] l (NoDup_nil_2)) as [Hd Hin].
  split; [done|]. intros x. unfold spreadSet. rewrite Hin, elem_of_nil. tauto.
Qed.

(** The three arrays of the classification loop, as filters of its input. *)
Lemma classifyDirty_spec (classify : string → Classification)
    (ds : list (string * string)) (paths : list string) :
  let c := classifyDirty classify ds paths in
  dirtyHelpersAndSources c
  = filter (λ path, negb (isIgnoredByWatcher (classify path))
                    ∧ negb (isTest (classify path))) paths
  ∧ addedOrChangedTests c
    = filter (λ path, negb (isIgnoredByWatcher (classify path))
                      ∧ isTest (classify path)
                      ∧ dirtyState ds path ≠ Some "unlink") paths
  ∧ unlinkedTests c
    = filter (λ path, negb (isIgnoredByWatcher (classify path))
                      ∧ isTest (classify path)
                      ∧ dirtyState ds path = Some "unlink") paths.
Proof.
  induction paths as [|x l IH] using rev_ind; [done|].
  unfold classifyDirty in *. rewrite fold_left_app. simpl in *.
  destruct IH as (IH1 & IH2 & IH3).
  rewrite !filter_app, !filter_cons, !filter_nil.
  destruct (isIgnoredByWatcher (classify x)), (isTest (classify x)); simpl;
    try destruct (decide (dirtyState ds x = Some "unlink")); simpl;
    rewrite ?IH1, ?IH2, ?IH3;
    repeat (case_decide; simpl); rewrite ?app_nil_r; try tauto; done.
Qed.

Lemma dependentsOf_nonempty (path : string) (l : list TestDependency) :
  dependentsOf path l ≠ []
  ↔ ∃ dep, dep ∈ l ∧ path ∈ dep_dependencies dep.
Proof.
  unfold dependentsOf, contains, includes. split.
  - intros Hne.
    destruct (filter (λ dep, bool_decide (path ∈ dep_dependencies dep)) l)
      as [|dep rest] eqn:E; [done|].
    assert (Hin : dep ∈ filter
                    (λ dep, bool_decide (path ∈ dep_dependencies dep)) l)
      by (rewrite E; left).
    apply list_elem_of_filter in Hin as [Hp Hin].
    rewrite bool_decide_spec in Hp. eauto.
  - intros (dep & Hin & Hp) Hnil.
    apply fmap_nil_inv in Hnil.
    assert (Hd : dep ∈ filter
                   (λ dep, bool_decide (path ∈ dep_dependencies dep)) l).
    { apply list_elem_of_filter. split; [by apply bool_decide_pack|done]. }
    rewrite Hnil in Hd. by apply elem_of_nil in Hd.
Qed.

Lemma elem_of_dependentsOf (file path : string) (l : list TestDependency) :
  file ∈ dependentsOf path l
  ↔ ∃ dep, dep ∈ l ∧ dep_file dep = file ∧ path ∈ dep_dependencies dep.
Proof.
  unfold dependentsOf, contains, includes. rewrite list_elem_of_fmap.
  split.
  - intros (dep & -> & Hin). apply list_elem_of_filter in Hin as [Hp Hin].
    rewrite bool_decide_spec in Hp. eauto.
  - intros (dep & Hin & Hf & Hp). exists dep. split; [done|].
    apply list_elem_of_filter. split; [by apply bool_decide_pack|done].
Qed.

Lemma rerunDecision_helpers (classify : string → Classification)
    (paths : list string) (ds : list (string * string))
    (tracked : list TestDependency) :
  let c := classifyDirty classify ds paths in
  dirtyHelpersAndSources c ≠ [] →
  rerunDecision paths c tracked
  = if bool_decide
         (Forall (λ path, dependentsOf path tracked ≠ [])
            (dirtyHelpersAndSources c))
    then Some (spreadSet
                 (addedOrChangedTests c
                  ++ concat ((λ path, dependentsOf path tracked)
                               <$> dirtyHelpersAndSources c)))
    else Some [].
Proof.
  intros c Hne. unfold rerunDecision.
  destruct (classifyDirty_spec classify ds paths) as (Hh & _ & Hu). fold c in Hh, Hu.
  rewrite bool_decide_eq_false_2.
  2:{ assert (∃ x, x ∈ dirtyHelpersAndSources c) as [x Hx].
      { destruct (dirtyHelpersAndSources c) as [|x rest]; [done|].
        exists x. left. }
      rewrite Hh in Hx. apply list_elem_of_filter in Hx as [[_ Hnt] Hx].
      rewrite Hu.
      pose proof (length_filter_lt
        (λ path, negb (isIgnoredByWatcher (classify path))
                 ∧ isTest (classify path)
                 ∧ dirtyState ds path = Some "unlink") paths x Hx) as Hlt.
      intros Heq. rewrite Heq in Hlt.
      assert (Hlt' : ¬ (length paths < length paths)%nat) by lia.
      apply Hlt', Hlt. intros (_ & Ht & _).
      destruct (isTest (classify x)); done. }
  rewrite bool_decide_eq_false_2
    by (destruct (dirtyHelpersAndSources c); simpl; [done|lia]).
  unfold testsByHelpersOrSource.
  set (helpers := dirtyHelpersAndSources c).
  set (tests := (λ path, dependentsOf path tracked) <$> helpers).
  destruct (decide (Forall (λ path, dependentsOf path tracked ≠ []) helpers))
    as [Hall|Hall];
    [rewrite (bool_decide_eq_true_2 _ Hall)
    |rewrite (bool_decide_eq_false_2 _ Hall)].
  - assert (Hfull : Forall (λ tests, (0 < length tests)%nat) tests).
    { unfold tests. apply Forall_fmap. eapply Forall_impl; [exact Hall|].
      intros path Hp. simpl in *. destruct (dependentsOf path tracked); simpl;
        [by destruct Hp|lia]. }
    rewrite filter_all by done.
    rewrite bool_decide_eq_false_2; [done|].
    unfold tests. rewrite length_fmap. tauto.
  - rewrite bool_decide_eq_true_2; [done|].
    apply not_Forall_Exists in Hall; [|apply _].
    apply Exists_exists in Hall as (path & Hin & Hempty).
    assert (Hnil : dependentsOf path tracked = []).
    { simpl in Hempty. destruct (dependentsOf path tracked); [done|].
      by destruct Hempty. }
    pose proof (length_filter_lt (λ tests, (0 < length tests)%nat) tests
                  (dependentsOf path tracked)) as Hlt.
    assert (Hlen : length tests = length helpers)
      by (unfold tests; apply length_fmap).
    assert ((length (filter (λ tests, (0 < length tests)%nat) tests)
             < length tests)%nat); [|lia].
    apply Hlt.
    + unfold tests. apply list_elem_of_fmap. eauto.
    + rewrite Hnil. simpl. lia.
Qed.

Section RerunProperties.

Context (classify : string → Classification)
        (providers : list ProviderMain)
        (patternFilters : list string)
        (applyTestFileFilter : list string → list string → list string).

Lemma dispatch_pair (specificFiles : list string) (w : Watcher) :
  (let '(w'', call) :=
     run patternFilters applyTestFileFilter specificFiles false w in
   (w'', Some call))
  = ((run patternFilters applyTestFileFilter specificFiles false w).1,
     Some (run patternFilters applyTestFileFilter specificFiles false w).2).
Proof. by destruct (run _ _ _ _ _). Qed.

End RerunProperties.

(** *** Unlinked tests *)

Lemma withRewritten_nonempty (providers : list ProviderMain) (file : string)
    (dependencies : list string) :
  providers ≠ [] ∨ dependencies ≠ [] →
  withRewritten providers file dependencies ≠ [].
Proof.
  unfold withRewritten. intros H.
  assert (Hgen : ∀ ps deps, ps ≠ [] ∨ deps ≠ [] →
    fold_left
      (λ dependencies main,
         let rewritten := resolveTestFile main file in
         if includes dependencies rewritten then dependencies
         else rewritten :: dependencies) ps deps ≠ []).
  { clear. induction ps as [|main ps IH]; intros deps H; simpl.
    - by destruct H.
    - apply IH. right. unfold includes. case_bool_decide as Hin; [|done].
      intros ->. by apply elem_of_nil in Hin. }
  by apply Hgen.
Qed.

(** With a provider registered the list is never empty when the emptiness
    test is reached, so the entry of [file] is written, not deleted. *)
Lemma updateTestDependencies_keeps_file (providers : list ProviderMain)
    (file : string)
    (dependencies : list string) (l : list TestDependency) :
  providers ≠ [] →
  file ∈ dep_file <$> updateTestDependencies providers file dependencies l.
Proof.
  intros Hp. unfold updateTestDependencies.
  pose proof (withRewritten_nonempty providers file dependencies
                (or_introl Hp)) as Hne.
  destruct (withRewritten providers file dependencies) as [|d ds] eqn:E;
    [done|]. simpl.
  destruct (someUpdateDependencies file (d :: ds) l) as [l'|] eqn:Eu.
  - clear -Eu. revert l' Eu. induction l as [|dep l IH]; intros l' Eu;
      simpl in Eu; [done|].
    destruct (decide (dep_file dep = file)) as [Heq|Hne].
    + inversion Eu; subst. left.
    + destruct (someUpdateDependencies file (d :: ds) l) as [l0|]; [|done].
      inversion Eu; subst. rewrite fmap_cons. right. by apply IH.
  - rewrite fmap_app, elem_of_app. right. left.
Qed.

(** Entries never hold an empty dependency list. *)
Lemma updateTestDependencies_nonempty (providers : list ProviderMain)
    (file : string)
    (dependencies : list string) (l : list TestDependency) :
  Forall (λ dep, dep_dependencies dep ≠ []) l →
  Forall (λ dep, dep_dependencies dep ≠ [])
    (updateTestDependencies providers file dependencies l).
Proof.
  intros Hl. unfold updateTestDependencies.
  destruct (withRewritten providers file dependencies) as [|d ds]; simpl.
  - rewrite Forall_forall in Hl. apply Forall_forall. intros x Hx.
    apply list_elem_of_filter in Hx as [_ Hx]. by apply Hl.
  - destruct (someUpdateDependencies file (d :: ds) l) as [l'|] eqn:Eu.
    + revert l' Eu. induction Hl as [|dep l Hdep Hl IH]; intros l' Eu;
        simpl in Eu; [done|].
      destruct (decide (dep_file dep = file)).
      * inversion Eu; subst. by constructor.
      * destruct (someUpdateDependencies file (d :: ds) l) as [l0|]; [|done].
        inversion Eu; subst. constructor; [done|]. by apply IH.
    + apply Forall_app. split; [done|]. by repeat constructor.
Qed.


(** Without providers, updating with the empty list deletes the entry. *)
Lemma updateTestDependencies_empty (file : string) (l : list TestDependency) :
  updateTestDependencies [] file [] l = filter (λ dep, dep_file dep ≠ file) l.
Proof. reflexivity. Qed.

Lemma elem_of_spliceFirst (file x : string) (l : list string) :
  NoDup l → x ∈ spliceFirst file l ↔ x ∈ l ∧ x ≠ file.
Proof.
  induction 1 as [|y l Hy Hl IH]; simpl.
  - rewrite elem_of_nil. tauto.
  - destruct (decide (y = file)) as [->|Hne].
    + rewrite elem_of_cons. split; [|intros [[?|?] ?]; done].
      intros Hx. split; [by right|]. by intros ->.
    + rewrite !elem_of_cons, IH. split; [|tauto].
      intros [->|[? ?]]; tauto.
Qed.

Lemma elem_of_updateExclusivity_false (file x : string) (l : list string) :
  NoDup l → x ∈ updateExclusivity file false l ↔ x ∈ l ∧ x ≠ file.
Proof.
  intros Hl. unfold updateExclusivity, includes. case_bool_decide as Hin.
  - by apply elem_of_spliceFirst.
  - split; [|tauto]. intros Hx. split; [done|]. by intros ->.
Qed.

Lemma cleanUnlinkedTest_fields (providers : list ProviderMain) (w : Watcher)
    (t : string) :
  testDependencies (cleanUnlinkedTest providers w t)
  = updateTestDependencies providers t [] (testDependencies w)
  ∧ filesWithExclusiveTests (cleanUnlinkedTest providers w t)
    = updateExclusivity t false (filesWithExclusiveTests w)
  ∧ filesWithFailures (cleanUnlinkedTest providers w t)
    = pruneFailures [t] (filesWithFailures w).
Proof. done. Qed.

Lemma cleanUnlinkedTests_cons (providers : list ProviderMain) (t : string)
    (l : list string) (w : Watcher) :
  cleanUnlinkedTests providers (t :: l) w
  = cleanUnlinkedTests providers l (cleanUnlinkedTest providers w t).
Proof. done. Qed.

(** What the cleanup of a list of unlinked tests leaves, when no provider is
    registered. *)
Lemma cleanUnlinkedTests_spec (unlinked : list string) (w : Watcher) :
  NoDup (filesWithExclusiveTests w) →
  let w' := cleanUnlinkedTests [] unlinked w in
  NoDup (filesWithExclusiveTests w')
  ∧ (∀ dep, dep ∈ testDependencies w'
            ↔ dep ∈ testDependencies w ∧ dep_file dep ∉ unlinked)
  ∧ (∀ x, x ∈ filesWithExclusiveTests w'
          ↔ x ∈ filesWithExclusiveTests w ∧ x ∉ unlinked)
  ∧ (∀ s, s ∈ filesWithFailures w'
          ↔ s ∈ filesWithFailures w ∧ state_file s ∉ unlinked).
Proof.
  cbv zeta. revert w. induction unlinked as [|t l IH]; intros w Hw.
  - split; [done|].
    split; [|split]; intros x;
      (split; [intros Hx; split; [done|apply not_elem_of_nil]|tauto]).
  - rewrite cleanUnlinkedTests_cons.
    destruct (cleanUnlinkedTest_fields [] w t) as (E1 & E2 & E3).
    destruct (IH (cleanUnlinkedTest [] w t)) as (Hd & Hdeps & Hex & Hfail).
    { rewrite E2. by apply updateExclusivity_NoDup. }
    split; [done|]. split; [|split].
    + intros dep. rewrite Hdeps, E1, updateTestDependencies_empty.
      rewrite list_elem_of_filter, not_elem_of_cons. tauto.
    + intros x. rewrite Hex, E2.
      rewrite elem_of_updateExclusivity_false, not_elem_of_cons by done. tauto.
    + intros s. rewrite Hfail, E3.
      rewrite elem_of_pruneFailures, !not_elem_of_cons.
      pose proof (not_elem_of_nil (state_file s)). tauto.
Qed.

(** Without providers, a batch whose surviving paths are all unlinked tests
    dispatches nothing and retires those files from the three trackers. *)
Lemma only_unlinked_tests_without_providers
    (classify : string → Classification) (patternFilters : list string)
    (applyTestFileFilter : list string → list string → list string)
    (w : Watcher) :
  NoDup (filesWithExclusiveTests w) →
  (∀ path, path ∈ survivingPaths [] w →
     isIgnoredByWatcher (classify path) = false
     ∧ isTest (classify path) = true
     ∧ dirtyState (dirtyStates w) path = Some "unlink") →
  let r := runAfterChanges classify [] patternFilters applyTestFileFilter w in
  (snd r) = None
  ∧ ∀ path, path ∈ survivingPaths [] w →
      (path ∉ dep_file <$> testDependencies (fst r))
      ∧ (path ∉ filesWithExclusiveTests (fst r))
      ∧ (path ∉ state_file <$> filesWithFailures (fst r)).
Proof.
  intros Hnd Hall r.
  set (paths := survivingPaths [] w) in *.
  destruct (classifyDirty_spec classify (dirtyStates w) paths) as (_ & _ & Hu).
  rewrite filter_all in Hu.
  2:{ apply Forall_forall. intros path Hp.
      destruct (Hall path Hp) as (-> & -> & ->). done. }
  assert (Hr : r = (cleanUnlinkedTests [] paths
                      (set_touchedFiles
                         (dropTouchedAndTemporary (fst <$> dirtyStates w) w).2
                         (set_dirtyStates [] w)), None)).
  { unfold r, runAfterChanges, rerunDecision, afterCleanup. fold paths.
    rewrite Hu. by rewrite bool_decide_eq_true_2. }
  rewrite Hr. split; [done|]. intros path Hp.
  destruct (cleanUnlinkedTests_spec paths
              (set_touchedFiles
                 (dropTouchedAndTemporary (fst <$> dirtyStates w) w).2
                 (set_dirtyStates [] w)) Hnd) as (_ & Hdeps & Hex & Hfail).
  cbn [fst]. split; [|split].
  - intros (dep & -> & Hin)%list_elem_of_fmap. apply Hdeps in Hin. tauto.
  - intros Hin. apply Hex in Hin. tauto.
  - intros (s & -> & Hin)%list_elem_of_fmap. apply Hfail in Hin. tauto.
Qed.

(** C2: with a provider registered, even one that rewrites nothing, updating
    with the empty dependency list does not delete the entry of the file: the
    provider loop has put the resolved path into the list before its length is
    tested.  The entry is overwritten, or created where there was none. *)
Theorem update_with_empty_list_under_provider :
  updateTestDependencies [plainProvider] "test/a.js" []
    [{| dep_file := "test/a.js";
        dep_dependencies := ["test/a.js"; "src/helper.js"] |}]
  = [{| dep_file := "test/a.js"; dep_dependencies := ["test/a.js"] |}]
  ∧ updateTestDependencies [plainProvider] "test/a.js" [] []
    = [{| dep_file := "test/a.js"; dep_dependencies := ["test/a.js"] |}].
Proof. split; reflexivity. Qed.

(** C4: with a provider registered, a batch that holds one unlinked test
    dispatches no run and clears the file from the exclusive files and the
    failure records, but the file keeps an entry among the test
    dependencies. *)
Theorem unlinked_test_stays_tracked_under_provider :
  let r := runAfterChanges sampleClassify [plainProvider] [] keepAll
             (sampleWatcher [("test/a.js", "unlink")]) in
  (snd r) = None
  ∧ filesWithExclusiveTests (fst r) = []
  ∧ filesWithFailures (fst r) = []
  ∧ testDependencies (fst r)
    = [{| dep_file := "test/a.js"; dep_dependencies := ["test/a.js"] |}].
Proof. vm_compute. repeat split; reflexivity. Qed.

(** A path ignored by the watcher next to an unlinked test: the lengths
    compared by [runAfterChanges] differ, and all tests are rerun. *)
Lemma ignored_path_beside_unlinked_test :
  let r := runAfterChanges sampleClassify [] [] keepAll
             (sampleWatcher [("node_modules/x.js", "change");
                             ("test/a.js", "unlink")]) in
  files <$> (snd r) = Some [] ∧ testDependencies (fst r) = [].
Proof. vm_compute. split; reflexivity. Qed.

Lemma cleanUnlinkedTests_exclusive (providers : list ProviderMain)
    (unlinked : list string) (w : Watcher) :
  NoDup (filesWithExclusiveTests w) →
  NoDup (filesWithExclusiveTests (cleanUnlinkedTests providers unlinked w))
  ∧ ∀ x, x ∈ filesWithExclusiveTests (cleanUnlinkedTests providers unlinked w)
         ↔ x ∈ filesWithExclusiveTests w ∧ x ∉ unlinked.
Proof.
  revert w. induction unlinked as [|t l IH]; intros w Hw.
  - split; [done|]. intros x. split; [|tauto].
    intros Hx. split; [done|apply not_elem_of_nil].
  - rewrite cleanUnlinkedTests_cons.
    destruct (cleanUnlinkedTest_fields providers w t) as (_ & E2 & _).
    destruct (IH (cleanUnlinkedTest providers w t)) as [Hd Hex].
    { rewrite E2. by apply updateExclusivity_NoDup. }
    split; [done|]. intros x. rewrite Hex, E2.
    rewrite elem_of_updateExclusivity_false, not_elem_of_cons by done. tauto.
Qed.

Lemma afterCleanup_exclusive (classify : string → Classification)
    (providers : list ProviderMain) (w : Watcher) :
  NoDup (filesWithExclusiveTests w) →
  let unlinked :=
    filter (λ path, negb (isIgnoredByWatcher (classify path))
                    ∧ isTest (classify path)
                    ∧ dirtyState (dirtyStates w) path = Some "unlink")
      (survivingPaths providers w) in
  NoDup (filesWithExclusiveTests (afterCleanup classify providers w))
  ∧ ∀ x, x ∈ filesWithExclusiveTests (afterCleanup classify providers w)
         ↔ x ∈ filesWithExclusiveTests w ∧ x ∉ unlinked.
Proof.
  intros Hnd unlinked. unfold afterCleanup.
  destruct (classifyDirty_spec classify (dirtyStates w)
              (survivingPaths providers w)) as (_ & _ & Hu).
  rewrite Hu. fold unlinked.
  exact (cleanUnlinkedTests_exclusive providers unlinked
           (set_touchedFiles
              (dropTouchedAndTemporary (fst <$> dirtyStates w) w).2
              (set_dirtyStates [] w)) Hnd).
Qed.

(** *** Helper and source changes *)

(** C1, as stated, fails when the exclusive files are not all among the
    changed tests and dependents.  [src/helper.js], the one path of the
    batch, has the one dependent [test/a.js] and no test changed, yet the run
    targets [test/x.js], which held exclusive tests, and [test/a.js]. *)
Lemma exclusive_file_joins_the_dependents :
  let w := set_filesWithExclusiveTests ["test/x.js"]
             (sampleWatcher [("src/helper.js", "change")]) in
  let c := classifyDirty sampleClassify (dirtyStates w) (survivingPaths [] w) in
  dirtyHelpersAndSources c = ["src/helper.js"]
  ∧ addedOrChangedTests c = []
  ∧ dependentsOf "src/helper.js"
      (testDependencies (afterCleanup sampleClassify [] w)) = ["test/a.js"]
  ∧ files <$> (runAfterChanges sampleClassify [] [] keepAll w).2
    = Some ["test/x.js"; "test/a.js"]
  ∧ opt_runOnlyExclusive <$>
      (runtimeOptions <$> (runAfterChanges sampleClassify [] [] keepAll w).2)
    = Some true.
Proof. vm_compute. repeat split; reflexivity. Qed.

Section HelperChanges.

Context (classify : string → Classification)
        (providers : list ProviderMain)
        (patternFilters : list string)
        (applyTestFileFilter : list string → list string → list string).

(** C1, amended.  Take a batch whose paths, once the touched, temporary and
    provider-ignored ones are dropped, hold a helper or source path; the
    trackers are read as the cleanup of the unlinked tests of the batch left
    them.  If every helper or source path is a dependency of some tracked
    test, [run] is requested for the changed tests and the tests that depend
    on one of those paths, each once.  The dispatched run targets that request
    when it has every exclusive file; otherwise it targets the exclusive
    files followed by the rest of the request, with [runOnlyExclusive] set;
    with pattern filters it targets what [applyTestFileFilter] makes of the
    list.  If some helper or source path is a dependency of no tracked test,
    the dispatched run targets the empty list, all tests. *)
Theorem helper_changes_rerun_dependents_or_all (w : Watcher) :
  let paths := survivingPaths providers w in
  let helpers :=
    filter (λ path, negb (isIgnoredByWatcher (classify path))
                    ∧ negb (isTest (classify path))) paths in
  let changed :=
    filter (λ path, negb (isIgnoredByWatcher (classify path))
                    ∧ isTest (classify path)
                    ∧ dirtyState (dirtyStates w) path ≠ Some "unlink") paths in
  let unlinked :=
    filter (λ path, negb (isIgnoredByWatcher (classify path))
                    ∧ isTest (classify path)
                    ∧ dirtyState (dirtyStates w) path = Some "unlink") paths in
  let w' := afterCleanup classify providers w in
  let tracked := testDependencies w' in
  let exclusive := filesWithExclusiveTests w' in
  let narrow (l : list string) :=
    if decide (patternFilters = []) then l
    else applyTestFileFilter patternFilters l in
  let dispatched :=
    snd (runAfterChanges classify providers patternFilters
           applyTestFileFilter w) in
  NoDup (filesWithExclusiveTests w) →
  helpers ≠ [] →
  (∀ file, file ∈ exclusive
           ↔ file ∈ filesWithExclusiveTests w ∧ file ∉ unlinked)
  ∧ (unlinked = [] → tracked = testDependencies w)
  ∧ ((∀ path, path ∈ helpers →
        ∃ dep, dep ∈ tracked ∧ path ∈ dep_dependencies dep) →
     ∃ requested call,
       dispatched = Some call
       ∧ NoDup requested
       ∧ (∀ file, file ∈ requested ↔
            file ∈ changed
            ∨ ∃ path dep, path ∈ helpers ∧ dep ∈ tracked
                ∧ dep_file dep = file ∧ path ∈ dep_dependencies dep)
       ∧ opt_updateSnapshots (runtimeOptions call) = false
       ∧ (exclusive ⊆ requested →
          opt_runOnlyExclusive (runtimeOptions call) = false
          ∧ files call = narrow requested)
       ∧ (¬ exclusive ⊆ requested →
          opt_runOnlyExclusive (runtimeOptions call) = true
          ∧ files call
            = narrow (exclusive
                      ++ filter (λ file, file ∉ exclusive) requested)))
  ∧ ((∃ path, path ∈ helpers
        ∧ ∀ dep, dep ∈ tracked → path ∉ dep_dependencies dep) →
     ∃ call,
       dispatched = Some call
       ∧ files call = []
       ∧ opt_runOnlyExclusive (runtimeOptions call) = false
       ∧ opt_updateSnapshots (runtimeOptions call) = false).
Proof.
  intros paths helpers changed unlinked w' tracked exclusive narrow dispatched
    Hnd Hne.
  destruct (classifyDirty_spec classify (dirtyStates w) paths)
    as (Hh & Hc & Hu).
  fold helpers in Hh. fold changed in Hc. fold unlinked in Hu.
  destruct (afterCleanup_exclusive classify providers w Hnd) as [Hexd Hex].
  fold paths unlinked w' exclusive in Hexd, Hex.
  pose proof (rerunDecision_helpers classify paths (dirtyStates w) tracked)
    as Hdec.
  cbv zeta in Hdec. rewrite Hh, Hc in Hdec. specialize (Hdec Hne).
  assert (Hrun : ∀ requested,
            rerunDecision paths (classifyDirty classify (dirtyStates w) paths)
              tracked = Some requested →
            dispatched
            = Some (run patternFilters applyTestFileFilter requested false
                      w').2).
  { intros requested Hreq. unfold dispatched, runAfterChanges.
    fold paths. fold w'. fold tracked. rewrite Hreq, dispatch_pair.
    reflexivity. }
  split; [exact Hex|]. split; [|split].
  - intros Hnil. unfold tracked, w', afterCleanup. fold paths.
    rewrite Hu, Hnil. reflexivity.
  - intros Hall.
    rewrite bool_decide_eq_true_2 in Hdec.
    2:{ apply Forall_forall. intros path Hp.
        apply dependentsOf_nonempty. by apply Hall. }
    set (requested :=
           spreadSet (changed
                      ++ concat ((λ path, dependentsOf path tracked)
                                   <$> helpers))) in Hdec.
    destruct (spreadSet_spec
                (changed ++ concat ((λ path, dependentsOf path tracked)
                                      <$> helpers))) as [Hrd Hrin].
    fold requested in Hrd, Hrin.
    assert (Hmem : ∀ file, file ∈ requested ↔
              file ∈ changed
              ∨ ∃ path dep, path ∈ helpers ∧ dep ∈ tracked
                  ∧ dep_file dep = file ∧ path ∈ dep_dependencies dep).
    { intros file. rewrite Hrin, elem_of_app. apply or_iff_compat_l.
      rewrite elem_of_concat. split.
      - intros (tests & Hfile & Htests).
        apply list_elem_of_fmap in Htests as (path & -> & Hpath).
        apply elem_of_dependentsOf in Hfile as (dep & ? & ? & ?).
        exists path, dep. done.
      - intros (path & dep & Hpath & Hdep & Hf & Hp).
        exists (dependentsOf path tracked). split.
        + apply elem_of_dependentsOf. eauto.
        + apply list_elem_of_fmap. eauto. }
    assert (Hrne : requested ≠ []).
    { destruct helpers as [|path rest] eqn:E; [done|].
      destruct (Hall path) as (dep & Hdep & Hp); [left|].
      intros Hnil.
      assert (Hin : dep_file dep ∈ requested).
      { apply Hmem. right. exists path, dep.
        split; [left|]. done. }
      rewrite Hnil in Hin. by apply elem_of_nil in Hin. }
    exists requested,
      (run patternFilters applyTestFileFilter requested false w').2.
    split; [by apply Hrun|]. split; [done|]. split; [done|].
    split; [apply run_updateSnapshots|].
    destruct (run_dispatch patternFilters applyTestFileFilter requested false
                w' Hrd Hexd Hrne) as [Hcov Hmiss].
    split; [exact Hcov|exact Hmiss].
  - intros (path & Hpath & Hnone).
    rewrite bool_decide_eq_false_2 in Hdec.
    2:{ intros Hall. rewrite Forall_forall in Hall.
        apply (Hall path Hpath). destruct (dependentsOf path tracked) eqn:E;
          [done|].
        assert (Hd : dependentsOf path tracked ≠ []) by (by rewrite E).
        apply dependentsOf_nonempty in Hd as (dep & Hin & Hp).
        by destruct (Hnone dep Hin). }
    exists (run patternFilters applyTestFileFilter [] false w').2.
    split; [by apply Hrun|].
    destruct (run_empty patternFilters applyTestFileFilter false w')
      as [Hf Ho].
    split; [done|]. split; [done|]. apply run_updateSnapshots.
Qed.

End HelperChanges.

(** ** TouchedFileLedger: temporary files *)

Lemma run_temporaryFiles (patternFilters : list string)
    (applyTestFileFilter : list string → list string → list string)
    (specificFiles : list string) (updateSnapshots : bool) (w : Watcher) :
  temporaryFiles
    (run patternFilters applyTestFileFilter specificFiles updateSnapshots w).1
  = temporaryFiles w.
Proof.
  unfold run.
  destruct (bool_decide (runVector w > 0));
    destruct (bool_decide (0 < length specificFiles)%nat); reflexivity.
Qed.

Lemma run_previousFiles (patternFilters : list string)
    (applyTestFileFilter : list string → list string → list string)
    (specificFiles : list string) (updateSnapshots : bool) (w : Watcher) :
  previousFiles
    (run patternFilters applyTestFileFilter specificFiles updateSnapshots w).1
  = files
      (run patternFilters applyTestFileFilter specificFiles updateSnapshots w).2.
Proof.
  unfold run.
  destruct (bool_decide (runVector w > 0));
    destruct (bool_decide (0 < length specificFiles)%nat); reflexivity.
Qed.

Lemma cleanUnlinkedTests_temporaryFiles (providers : list ProviderMain)
    (unlinked : list string) (w : Watcher) :
  temporaryFiles (cleanUnlinkedTests providers unlinked w) = temporaryFiles w.
Proof.
  revert w. induction unlinked as [|t l IH]; intros w; [done|].
  rewrite cleanUnlinkedTests_cons, IH. reflexivity.
Qed.

Lemma runAfterChanges_temporaryFiles (classify : string → Classification)
    (providers : list ProviderMain) (patternFilters : list string)
    (applyTestFileFilter : list string → list string → list string)
    (w : Watcher) :
  temporaryFiles
    (runAfterChanges classify providers patternFilters applyTestFileFilter w).1
  = temporaryFiles w.
Proof.
  unfold runAfterChanges.
  destruct (rerunDecision _ _ _) as [specificFiles|].
  - rewrite dispatch_pair. cbn [fst].
    rewrite run_temporaryFiles. unfold afterCleanup.
    by rewrite cleanUnlinkedTests_temporaryFiles.
  - cbn [fst]. unfold afterCleanup.
    by rewrite cleanUnlinkedTests_temporaryFiles.
Qed.

Lemma dropTouchedAndTemporary_kept (paths : list string) (w : Watcher)
    (path : string) :
  path ∈ (dropTouchedAndTemporary paths w).1 →
  path ∈ paths ∧ path ∉ temporaryFiles w.
Proof.
  unfold dropTouchedAndTemporary.
  assert (Hgen : ∀ l kept touched,
    path ∈ (fold_left (keepDirtyPath w) l (kept, touched)).1 →
    path ∈ kept ∨ (path ∈ l ∧ path ∉ temporaryFiles w)).
  { induction l as [|x l IH]; intros kept touched; simpl; [tauto|].
    destruct (decide (x ∈ touched)); [|destruct (decide (x ∈ temporaryFiles w))].
    - intros [?|[? ?]]%IH; [tauto|]. right. split; [by right|done].
    - intros [?|[? ?]]%IH; [tauto|]. right. split; [by right|done].
    - intros [Hk|[? ?]]%IH.
      + apply elem_of_app in Hk as [?|Hx%list_elem_of_singleton]; [tauto|].
        subst x. right. split; [left|done].
      + right. split; [by right|done]. }
  intros [Hnil|?]%Hgen; [|done]. by apply elem_of_nil in Hnil.
Qed.

Lemma dropIgnoredChanges_kept (providers : list ProviderMain)
    (paths : list string) (path : string) :
  path ∈ dropIgnoredChanges providers paths → path ∈ paths.
Proof.
  unfold dropIgnoredChanges. revert paths.
  induction providers as [|main ps IH]; intros paths; simpl; [done|].
  intros Hin%IH. by apply list_elem_of_filter in Hin as [_ ?].
Qed.

Lemma temporary_path_does_not_survive (providers : list ProviderMain)
    (w : Watcher) (path : string) :
  path ∈ temporaryFiles w → path ∉ survivingPaths providers w.
Proof.
  intros Htemp Hin. unfold survivingPaths in Hin.
  apply dropIgnoredChanges_kept, dropTouchedAndTemporary_kept in Hin. tauto.
Qed.

(** C8, as stated, fails for the [plan] generator: a file recorded as
    temporary is dropped from the batch that follows, the callback then empties
    the temporary set, and the same path in the next batch is dispatched. *)
Lemma plan_forgets_temporary_files :
  ∃ ins p1 p2 p3,
    planNext planStart = Some (ins, p1)
    ∧ "test/tmp.js" ∈ plan_temporaryFiles
                         (planTouchedFiles [] ["test/tmp.js"] p1)
    ∧ planDebounced sampleClassify ignoreNothing [] [] keepAll
        (planWatched "test/tmp.js" (planTouchedFiles [] ["test/tmp.js"] p1))
      = Returned p2
    ∧ changed p2 = Unsettled
    ∧ plan_temporaryFiles p2 = ∅
    ∧ planDebounced sampleClassify ignoreNothing [] [] keepAll
        (planWatched "test/tmp.js" p2)
      = Returned p3
    ∧ changed p3 = Resolved ["test/tmp.js"].
Proof.
  do 4 eexists. split; [reflexivity|]. split; [|split; [|split; [|split]]].
  - vm_compute. set_solver.
  - vm_compute. reflexivity.
  - reflexivity.
  - reflexivity.
  - split; vm_compute; reflexivity.
Qed.

(** C8, amended: in the [Watcher] class no sequence of batches handled by
    [runAfterChanges] removes a path from the temporary files, and such a path
    never reaches classification; in [plan], the debounce callback empties the
    temporary set with every non-empty batch. *)
Theorem temporary_files_stay_in_watcher (classify : string → Classification)
    (isIgnored : string → bool) (providers : list ProviderMain)
    (patternFilters : list string)
    (applyTestFileFilter : list string → list string → list string) :
  (∀ (batches : list (list (string * string))) (w : Watcher) (path : string),
     path ∈ temporaryFiles w →
     let w' :=
       fold_left
         (λ w ds,
            (runAfterChanges classify providers patternFilters
               applyTestFileFilter (set_dirtyStates ds w)).1)
         batches w in
     path ∈ temporaryFiles w'
     ∧ ∀ ds, path ∉ survivingPaths providers (set_dirtyStates ds w'))
  ∧ (∀ p : Plan,
       dirtyPaths p ≠ [] →
       plan_temporaryFiles
         (planOf (planDebounced classify isIgnored providers patternFilters
                    applyTestFileFilter p)) = ∅).
Proof.
  split.
  - intros batches w path Hin. cbv zeta.
    assert (Hkeep : path ∈ temporaryFiles
      (fold_left
         (λ w ds,
            (runAfterChanges classify providers patternFilters
               applyTestFileFilter (set_dirtyStates ds w)).1)
         batches w)).
    { revert w Hin. induction batches as [|ds batches IH]; intros w Hin;
        [done|].
      simpl. apply IH. by rewrite runAfterChanges_temporaryFiles. }
    split; [done|]. intros ds. by apply temporary_path_does_not_survive.
  - intros p Hne. unfold planDebounced.
    rewrite bool_decide_eq_false_2
      by (destruct (dirtyPaths p); simpl; [done|lia]).
    unfold callSignalChanged.
    repeat (case_bool_decide || case_match); reflexivity.
Qed.

(** ** ControlChannel *)

Lemma run_covering (patternFilters : list string)
    (applyTestFileFilter : list string → list string → list string)
    (requested : list string) (updateSnapshots : bool) (w : Watcher) :
  NoDup requested → NoDup (filesWithExclusiveTests w) →
  filesWithExclusiveTests w ⊆ requested →
  files (run patternFilters applyTestFileFilter requested updateSnapshots w).2
  = match requested with
    | [] => []
    | _ => narrowed patternFilters applyTestFileFilter requested
    end.
Proof.
  intros Hr He Hcov. destruct requested as [|f rest] eqn:E.
  - apply run_empty.
  - rewrite <- E in *.
    assert (Hne : requested ≠ []) by (by rewrite E).
    destruct (run_nonempty patternFilters applyTestFileFilter requested
                updateSnapshots w Hne) as [Hf _].
    rewrite bool_decide_eq_false_2 in Hf
      by (intros Hn; apply Hn; by apply covers_iff_lengths).
    exact Hf.
Qed.

Lemma cancel_this (r : Runtime) :
  this (cancel r)
  = set_debouncer
      (match timer (debouncer (this r)) with
       | Some _ => {| timer := None; again := false |}
       | None => debouncer (this r)
       end) (this r).
Proof.
  unfold cancel. destruct r as [w ? ? ?].
  destruct w as [[[t|] a] ? ? ? ? ? ? ? ? ?]; reflexivity.
Qed.

(** C7, as stated, fails for the [plan] generator: after a run of
    [test/a.js] alone, [u] yields the empty file list, not that of the previous
    run, and [rs] yields nothing. *)
Lemma plan_commands_differ :
  ∃ ins0 p1 p2 ins1 p3,
    planNext planStart = Some (ins0, p1)
    ∧ planDebounced sampleClassify ignoreNothing [] [] keepAll
        (planWatched "test/a.js" p1) = Returned p2
    ∧ planNext p2 = Some (ins1, p3)
    ∧ ins_files ins1 = ["test/a.js"]
    ∧ (∃ ins2 p4,
         planNext (planOf (planStdinData "u" p3)) = Some (ins2, p4)
         ∧ ins_files ins2 = [] ∧ ins_updateSnapshots ins2 = true)
    ∧ planNext (planOf (planStdinData "rs" p3)) = None.
Proof.
  do 5 eexists. split; [reflexivity|].
  split; [vm_compute; reflexivity|].
  split; [reflexivity|]. split; [reflexivity|]. split.
  - do 2 eexists. split; [vm_compute; reflexivity|]. split; reflexivity.
  - vm_compute. reflexivity.
Qed.

(** C7, amended.  In the [Watcher] class: ASCII input that is none of [r],
    [rs], [u] once trimmed and lowercased makes the listener return at once;
    input that is one of them makes it cancel the debouncer and wait; resumed
    with [u] it calls [run] with the previous file list and [updateSnapshots]
    set, and the run gets that very list when it is empty or, without pattern
    filters, has every exclusive file; resumed with [r] or [rs] it runs the
    empty list, all tests, with [updateSnapshots] unset.  In [plan], a
    listener waiting with both flags unset yields the empty list for [r] and
    for [u], the latter with [updateSnapshots] set, and nothing for any other
    ASCII input, [rs] included. *)
Theorem control_commands (patternFilters : list string)
    (applyTestFileFilter : list string → list string → list string) :
  (∀ data r,
     let d := toLowerCase (trim data) in
     (isAscii data → d ≠ "r" → d ≠ "rs" → d ≠ "u" → stdinData data r = None)
     ∧ (d = "r" ∨ d = "rs" ∨ d = "u" → stdinData data r = Some (d, cancel r)))
  ∧ (∀ r,
       let previous := previousFiles (this r) in
       let call := (stdinResumed patternFilters applyTestFileFilter "u" r).2 in
       call
       = (run patternFilters applyTestFileFilter previous true
            (set_dirtyStates []
               (set_clearLogOnNextRun false (this (cancel r))))).2
       ∧ opt_updateSnapshots (runtimeOptions call) = true
       ∧ (previous = [] → files call = [])
       ∧ (patternFilters = [] → NoDup previous →
          NoDup (filesWithExclusiveTests (this r)) →
          filesWithExclusiveTests (this r) ⊆ previous →
          files call = previous))
  ∧ (∀ d r,
       d = "r" ∨ d = "rs" →
       let call := (stdinResumed patternFilters applyTestFileFilter d r).2 in
       files call = [] ∧ opt_updateSnapshots (runtimeOptions call) = false)
  ∧ (∀ data p,
       signalChanged p = true → changed p = Unsettled →
       runAll p = false → updateSnapshots p = false →
       let d := toLowerCase (trim data) in
       let next := planNext (planOf (planStdinData data p)) in
       (d = "r" →
        fst <$> next
        = Some {| ins_files := []; ins_firstRun := firstRun p;
                  ins_previousFailures := 0; ins_runOnlyExclusive := false;
                  ins_updateSnapshots := false |})
       ∧ (d = "u" →
          fst <$> next
          = Some {| ins_files := []; ins_firstRun := firstRun p;
                    ins_previousFailures := 0; ins_runOnlyExclusive := false;
                    ins_updateSnapshots := true |})
       ∧ (isAscii data → d ≠ "r" → d ≠ "u" → next = None)).
Proof.
  split; [|split; [|split]].
  - intros data r d. unfold stdinData. fold d. split.
    + intros _ H1 H2 H3. by rewrite !bool_decide_eq_true_2.
    + intros [-> | [-> | ->]]; reflexivity.
  - intros r previous call.
    assert (Hcall : call
       = (run patternFilters applyTestFileFilter previous true
            (set_dirtyStates []
               (set_clearLogOnNextRun false (this (cancel r))))).2).
    { unfold call, stdinResumed, updatePreviousSnapshots, previous.
      rewrite decide_True by done. rewrite cancel_this.
      by destruct (run _ _ _ _ _). }
    split; [exact Hcall|]. rewrite Hcall. split; [apply run_updateSnapshots|].
    split.
    + intros ->. apply run_empty.
    + intros Hpf Hp He Hcov. rewrite run_covering.
      * unfold narrowed. rewrite Hpf.
        rewrite bool_decide_eq_false_2 by (simpl; lia). by destruct previous.
      * done.
      * by rewrite cancel_this.
      * by rewrite cancel_this.
  - intros d r Hd call.
    assert (Hcall : call
       = (run patternFilters applyTestFileFilter [] false
            (set_dirtyStates []
               (set_clearLogOnNextRun false (this (cancel r))))).2).
    { unfold call, stdinResumed, rerunAll.
      rewrite decide_False by (destruct Hd as [-> | ->]; done).
      by destruct (run _ _ _ _ _). }
    rewrite Hcall. split; [apply run_empty|apply run_updateSnapshots].
  - intros data p Hs Hc Ha Hu d next. unfold next, planStdinData. fold d.
    rewrite Ha, Hu. simpl. split; [|split].
    + intros ->. simpl. unfold callSignalChanged. rewrite Hs, Hc. reflexivity.
    + intros ->. simpl. unfold callSignalChanged. rewrite Hs, Hc. reflexivity.
    + intros _ H1 H2. rewrite !bool_decide_eq_false_2 by done. simpl.
      unfold planNext. simpl. by rewrite Hc.
Qed.

(** ** Debouncer *)

Section DebouncerProperties.

Context (classify : string → Classification)
        (providers : list ProviderMain)
        (patternFilters : list string)
        (applyTestFileFilter : list string → list string → list string).

(** The timer held by the debouncer is one that was allocated, and differs
    from every timer whose callback has acted. *)
Lemma step_keeps_timers_fresh (r : Runtime) (e : Event) :
  (∀ t, timer (debouncer (this r)) = Some t → (t < allocated r)%nat) →
  (∀ x, x ∈ effects r →
     (effectTimer x < allocated r)%nat
     ∧ timer (debouncer (this r)) ≠ Some (effectTimer x)) →
  let r' := step classify providers patternFilters applyTestFileFilter r e in
  (∀ t, timer (debouncer (this r')) = Some t → (t < allocated r')%nat)
  ∧ (∀ x, x ∈ effects r' →
       (effectTimer x < allocated r')%nat
       ∧ timer (debouncer (this r')) ≠ Some (effectTimer x)).
Proof using Type.
  intros Hcur Heff. destruct e as [delay| |t|t|f]; cbn [step].
  - unfold debounce. destruct (timer (debouncer (this r))) as [t|] eqn:Et;
      simpl.
    + split; [exact Hcur|]. intros x Hx. by apply Heff.
    + split; [intros t [= <-]; lia|]. intros x Hx.
      destruct (Heff x Hx) as [Hlt _]. split; [lia|]. intros [= Heq]. lia.
  - unfold cancel. destruct (timer (debouncer (this r))) as [t|] eqn:Et;
      simpl.
    + split; [done|]. intros x Hx. destruct (Heff x Hx). done.
    + split; [by rewrite Et|]. rewrite Et. intros x Hx.
      destruct (Heff x Hx). done.
  - simpl. split; [exact Hcur|exact Heff].
  - unfold resume. destruct (awaiting t (pending r)) as [to|];
      [|split; [exact Hcur|exact Heff]].
    destruct (decide (timer (debouncer (this r)) ≠ Some t)) as [Hne|Heq];
      [simpl; split; [exact Hcur|exact Heff]|].
    apply dec_stable in Heq. pose proof (Hcur t Heq) as Hlt.
    destruct (again (debouncer (this r))).
    + unfold debounce. simpl. split; [intros t' [= <-]; lia|].
      intros x [->|Hx]%elem_of_cons; simpl.
      * split; [lia|]. intros [= ?]. lia.
      * destruct (Heff x Hx) as [Hx' _]. split; [lia|]. intros [= ?]. lia.
    + destruct (runAfterChanges _ _ _ _ _) as [w call]. simpl.
      split; [done|]. intros x [->|Hx]%elem_of_cons; simpl; [done|].
      destruct (Heff x Hx). done.
  - simpl. split; [exact Hcur|exact Heff].
Qed.

Lemma exec_keeps_timers_fresh (evs : list Event) (r : Runtime) :
  (∀ t, timer (debouncer (this r)) = Some t → (t < allocated r)%nat) →
  (∀ x, x ∈ effects r →
     (effectTimer x < allocated r)%nat
     ∧ timer (debouncer (this r)) ≠ Some (effectTimer x)) →
  let r' := exec classify providers patternFilters applyTestFileFilter evs r in
  (∀ t, timer (debouncer (this r')) = Some t → (t < allocated r')%nat)
  ∧ (∀ x, x ∈ effects r' →
       (effectTimer x < allocated r')%nat
       ∧ timer (debouncer (this r')) ≠ Some (effectTimer x)).
Proof using Type.
  cbv zeta. revert r. induction evs as [|e evs IH]; intros r Hcur Heff;
    [done|].
  simpl. destruct (step_keeps_timers_fresh r e Hcur Heff). by apply IH.
Qed.

(** A timer that is no longer held is never held again, and its callback
    stays without effect. *)
Lemma step_keeps_timer_dead (t : nat) (r : Runtime) (e : Event) :
  (t < allocated r)%nat →
  timer (debouncer (this r)) ≠ Some t →
  (∀ x, x ∈ effects r → effectTimer x ≠ t) →
  let r' := step classify providers patternFilters applyTestFileFilter r e in
  (t < allocated r')%nat
  ∧ timer (debouncer (this r')) ≠ Some t
  ∧ (∀ x, x ∈ effects r' → effectTimer x ≠ t).
Proof using Type.
  intros Hlt Hne Heff. destruct e as [delay| |t'|t'|f]; cbn [step].
  - unfold debounce. destruct (timer (debouncer (this r))) as [t0|] eqn:Et;
      simpl.
    + done.
    + split; [lia|]. split; [|done]. intros [= ?]. lia.
  - unfold cancel. destruct (timer (debouncer (this r))) as [t0|] eqn:Et;
      simpl; [done|]. by rewrite Et.
  - simpl. done.
  - unfold resume. destruct (awaiting t' (pending r)) as [to|]; [|done].
    destruct (decide (timer (debouncer (this r)) ≠ Some t')) as [Hne'|Heq];
      [simpl; done|].
    apply dec_stable in Heq.
    assert (Htt : t' ≠ t) by (intros ->; done).
    destruct (again (debouncer (this r))).
    + unfold debounce. simpl. split; [lia|]. split; [intros [= ?]; lia|].
      intros x [->|Hx]%elem_of_cons; simpl; [done|]. by apply Heff.
    + destruct (runAfterChanges _ _ _ _ _) as [w call]. simpl.
      split; [done|]. split; [done|].
      intros x [->|Hx]%elem_of_cons; simpl; [done|]. by apply Heff.
  - simpl. done.
Qed.

Lemma exec_keeps_timer_dead (t : nat) (evs : list Event) (r : Runtime) :
  (t < allocated r)%nat →
  timer (debouncer (this r)) ≠ Some t →
  (∀ x, x ∈ effects r → effectTimer x ≠ t) →
  ∀ x, x ∈ effects
             (exec classify providers patternFilters applyTestFileFilter evs r) →
       effectTimer x ≠ t.
Proof using Type.
  revert r. induction evs as [|e evs IH]; intros r Hlt Hne Heff; [done|].
  simpl. destruct (step_keeps_timer_dead t r e Hlt Hne Heff) as (? & ? & ?).
  by apply IH.
Qed.

(** C9: start from a watcher whose debouncer holds no timer and let anything
    happen: timers set, expiring, callbacks resuming after the busy promise,
    cancellations, other code.  If the debouncer then holds timer [t] and is
    cancelled, the callback of [t] acts at no later point, whether [t] had
    already expired or not; and cancelling twice is cancelling once. *)
Theorem cancelled_timer_never_acts :
  (∀ (before after : list Event) (w : Watcher) (t : nat),
     let r :=
       exec classify providers patternFilters applyTestFileFilter before
         {| this := set_debouncer {| timer := None; again := false |} w;
            pending := []; allocated := 0%nat; effects := [] |} in
     timer (debouncer (this r)) = Some t →
     ∀ x, x ∈ effects
                (exec classify providers patternFilters applyTestFileFilter
                   after (cancel r)) →
          effectTimer x ≠ t)
  ∧ (∀ r, cancel (cancel r) = cancel r).
Proof using Type.
  split.
  - intros before after w t r Ht.
    destruct (exec_keeps_timers_fresh before
                {| this := set_debouncer {| timer := None; again := false |} w;
                   pending := []; allocated := 0%nat; effects := [] |})
      as [Hcur Heff].
    { intros t0 Ht0. simpl in Ht0. done. }
    { intros x Hx. simpl in Hx. by apply elem_of_nil in Hx. }
    fold r in Hcur, Heff.
    apply exec_keeps_timer_dead.
    + unfold cancel. rewrite Ht. simpl. by apply Hcur.
    + unfold cancel. rewrite Ht. simpl. done.
    + unfold cancel. rewrite Ht. simpl. intros x Hx Hxt.
      destruct (Heff x Hx) as [_ Hne]. apply Hne. by rewrite Hxt.
  - intros r. unfold cancel.
    destruct (timer (debouncer (this r))) as [t|] eqn:Et; simpl;
      [reflexivity|by rewrite Et].
Qed.

End DebouncerProperties.

(** * The trackers stay well formed *)

Lemma run_keeps_trackers (patternFilters : list string)
    (applyTestFileFilter : list string → list string → list string)
    (specificFiles : list string) (updateSnapshots : bool) (w : Watcher) :
  trackersWellFormed w →
  trackersWellFormed
    (run patternFilters applyTestFileFilter specificFiles updateSnapshots w).1.
Proof.
  intros (He & Hf & Hd). unfold run, trackersWellFormed.
  destruct (bool_decide (runVector w > 0));
    destruct (bool_decide (0 < length specificFiles)%nat); simpl;
    (split; [done|split; [|done]]); try done; by apply ledger_prune.
Qed.

Lemma cleanUnlinkedTests_keeps_trackers (providers : list ProviderMain)
    (unlinked : list string) (w : Watcher) :
  trackersWellFormed w →
  trackersWellFormed (cleanUnlinkedTests providers unlinked w).
Proof.
  revert w. induction unlinked as [|t l IH]; intros w Hw; [done|].
  rewrite cleanUnlinkedTests_cons. apply IH.
  destruct Hw as (He & Hf & Hd).
  destruct (cleanUnlinkedTest_fields providers w t) as (E1 & E2 & E3).
  unfold trackersWellFormed. rewrite E1, E2, E3. split; [|split].
  - by apply updateExclusivity_NoDup.
  - by apply ledger_prune.
  - by apply updateTestDependencies_nonempty.
Qed.

Lemma runAfterChanges_keeps_trackers (classify : string → Classification)
    (providers : list ProviderMain) (patternFilters : list string)
    (applyTestFileFilter : list string → list string → list string)
    (w : Watcher) :
  trackersWellFormed w →
  trackersWellFormed
    (runAfterChanges classify providers patternFilters applyTestFileFilter w).1.
Proof.
  intros Hw.
  assert (Hclean : trackersWellFormed (afterCleanup classify providers w)).
  { unfold afterCleanup. by apply cleanUnlinkedTests_keeps_trackers. }
  unfold runAfterChanges.
  destruct (rerunDecision _ _ _) as [specificFiles|]; [|done].
  rewrite dispatch_pair. cbn [fst]. by apply run_keeps_trackers.
Qed.

Lemma stateChange_keeps_trackers (classify : string → Classification)
    (providers : list ProviderMain) (currentVector : Z) (evt : StateChange)
    (w : Watcher) :
  trackersWellFormed w →
  trackersWellFormed (stateChange classify providers currentVector evt w).
Proof.
  intros (He & Hf & Hd). unfold trackersWellFormed.
  destruct evt as [testFile filename|changedFiles temporary
                  |testFile selected declared|[testFile|]|]; simpl;
    try done.
  - split; [done|]. split; [done|]. by apply updateTestDependencies_nonempty.
  - split; [|done]. by apply updateExclusivity_NoDup.
  - split; [done|]. split; [|done]. by apply ledger_count.
Qed.

(** The run the constructor dispatches is told not to clear the log. *)
Lemma constructor_run_keeps_the_log (patternFilters : list string)
    (applyTestFileFilter : list string → list string → list string) :
  opt_clearLogOnNextRun
    (runtimeOptions (construct patternFilters applyTestFileFilter).2) = false
  ∧ opt_runVector
      (runtimeOptions (construct patternFilters applyTestFileFilter).2) = 1.
Proof. split; reflexivity. Qed.

(** Without unlinked tests in the batch the cleanup leaves the tracked
    dependencies as they were. *)
Lemma afterCleanup_without_unlinked (classify : string → Classification)
    (providers : list ProviderMain) (w : Watcher) :
  unlinkedTests
    (classifyDirty classify (dirtyStates w) (survivingPaths providers w)) = [] →
  testDependencies (afterCleanup classify providers w) = testDependencies w.
Proof. unfold afterCleanup. by intros ->. Qed.

(** * The theorems at sample inputs *)

Lemma first_run_keeps_the_log_witness :
  runVector blank = 0
  ∧ opt_clearLogOnNextRun (runtimeOptions (run [] keepAll [] false blank).2)
    = false.
Proof.
  split; [reflexivity|].
  apply (first_run_keeps_the_log [] keepAll [] false blank). reflexivity.
Defined.

Lemma exclusive_files_join_the_run_witness :
  (opt_runOnlyExclusive
     (runtimeOptions (run [] keepAll ["test/b.js"] false (sampleWatcher [])).2)
   = true
   ∧ files (run [] keepAll ["test/b.js"] false (sampleWatcher [])).2
     = ["test/a.js"; "test/b.js"])
  ∧ (opt_runOnlyExclusive
       (runtimeOptions
          (run [] keepAll ["test/b.js"; "test/a.js"] false (sampleWatcher [])).2)
     = false
     ∧ files (run [] keepAll ["test/b.js"; "test/a.js"] false (sampleWatcher [])).2
       = ["test/b.js"; "test/a.js"])
  ∧ files (run ["test/b.js"] keepListed ["test/b.js"] false (sampleWatcher [])).2
    = keepListed ["test/b.js"] ["test/a.js"; "test/b.js"].
Proof.
  destruct (exclusive_files_join_the_run [] keepAll false)
    as (_ & Hcover & _ & Hone).
  destruct (exclusive_files_join_the_run ["test/b.js"] keepListed false)
    as (Hmiss & _).
  assert (Hmissing : ¬ filesWithExclusiveTests (sampleWatcher [])
                       ⊆ ["test/b.js"]).
  { intros Hsub. specialize (Hsub "test/a.js").
    rewrite list_elem_of_singleton in Hsub. discriminate Hsub. left. }
  split; [|split].
  - apply (Hone "test/a.js" "test/b.js" (sampleWatcher []));
      [reflexivity|discriminate|reflexivity].
  - destruct (Hcover ["test/b.js"; "test/a.js"] (sampleWatcher []))
      as (Ho & Hf & _).
    + apply (bool_decide_unpack _). vm_compute. exact I.
    + apply (bool_decide_unpack _). vm_compute. exact I.
    + discriminate.
    + simpl. intros x Hx. apply list_elem_of_singleton in Hx. subst x.
      right. left.
    + split; [exact Ho|]. apply Hf. reflexivity.
  - destruct (Hmiss ["test/b.js"] (sampleWatcher [])) as (_ & _ & _ & Hf).
    + apply NoDup_singleton.
    + apply NoDup_singleton.
    + discriminate.
    + exact Hmissing.
    + rewrite Hf by discriminate. reflexivity.
Defined.

Lemma helper_changes_rerun_dependents_or_all_witness :
  (∃ call,
     (runAfterChanges sampleClassify [] [] keepAll
        (sampleWatcher [("src/helper.js", "change")])).2 = Some call
     ∧ opt_runOnlyExclusive (runtimeOptions call) = false
     ∧ ∀ file, file ∈ files call ↔ file = "test/a.js")
  ∧ (∃ call,
       (runAfterChanges sampleClassify [] [] keepAll
          (sampleWatcher [("src/unknown.js", "change");
                          ("src/helper.js", "change")])).2
       = Some call
       ∧ files call = []).
Proof.
  split.
  - pose proof (helper_changes_rerun_dependents_or_all sampleClassify [] []
                  keepAll (sampleWatcher [("src/helper.js", "change")])) as H.
    cbv zeta in H.
    destruct H as (_ & _ & H & _);
      [apply NoDup_singleton|vm_compute; discriminate|].
    destruct H as (requested & call & Hcall & _ & Hin & _ & Hcov & _).
    + intros path Hpath.
      exists {| dep_file := "test/a.js";
                dep_dependencies := ["test/a.js"; "src/helper.js"] |}.
      vm_compute in Hpath. apply list_elem_of_singleton in Hpath. subst path.
      split; [vm_compute; left|right; left].
    + assert (Hone : ∀ file, file ∈ requested ↔ file = "test/a.js").
      { intros file. rewrite Hin. split.
        - intros [Hfile|(path & dep & _ & Hdep & <- & _)].
          + vm_compute in Hfile. by apply elem_of_nil in Hfile.
          + vm_compute in Hdep. apply list_elem_of_singleton in Hdep.
            by subst dep.
        - intros ->. right.
          exists "src/helper.js",
            {| dep_file := "test/a.js";
               dep_dependencies := ["test/a.js"; "src/helper.js"] |}.
          split; [vm_compute; left|]. split; [vm_compute; left|].
          split; [reflexivity|right; left]. }
      destruct Hcov as [Ho Hf].
      * intros x Hx. vm_compute in Hx. apply list_elem_of_singleton in Hx.
        subst x. by apply Hone.
      * exists call. split; [exact Hcall|]. split; [exact Ho|].
        intros file. rewrite Hf. exact (Hone file).
  - pose proof (helper_changes_rerun_dependents_or_all sampleClassify [] []
                  keepAll
                  (sampleWatcher [("src/unknown.js", "change");
                                  ("src/helper.js", "change")])) as H.
    cbv zeta in H.
    destruct H as (_ & _ & _ & H);
      [apply NoDup_singleton|vm_compute; discriminate|].
    destruct H as (call & Hrun & Hfiles & _).
    + exists "src/unknown.js". split; [vm_compute; left|].
      intros dep Hdep. vm_compute in Hdep.
      apply list_elem_of_singleton in Hdep. subst dep. simpl.
      rewrite !not_elem_of_cons. repeat split; try discriminate.
      apply not_elem_of_nil.
    + exists call. split; [exact Hrun|exact Hfiles].
Defined.

Lemma control_commands_witness :
  stdinData " RS " {| this := sampleWatcher []; pending := [];
                      allocated := 0%nat; effects := [] |}
  = Some ("rs", cancel {| this := sampleWatcher []; pending := [];
                          allocated := 0%nat; effects := [] |})
  ∧ stdinData "run" {| this := sampleWatcher []; pending := [];
                       allocated := 0%nat; effects := [] |} = None
  ∧ files (stdinResumed [] keepAll "u"
             {| this := set_previousFiles ["test/a.js"; "test/b.js"]
                          (sampleWatcher []);
                pending := []; allocated := 0%nat; effects := [] |}).2
    = ["test/a.js"; "test/b.js"]
  ∧ fst <$> planNext (planOf (planStdinData "U" (reset planStart)))
    = Some {| ins_files := []; ins_firstRun := false;
              ins_previousFailures := 0; ins_runOnlyExclusive := false;
              ins_updateSnapshots := true |}
  ∧ planNext (planOf (planStdinData "rs" (reset planStart))) = None.
Proof.
  destruct (control_commands [] keepAll) as (Hdata & Hu & _ & Hplan).
  split; [|split; [|split; [|split]]].
  - apply (Hdata " RS "). right. left. vm_compute. reflexivity.
  - apply (Hdata "run").
    + unfold isAscii. simpl. repeat constructor.
    + discriminate.
    + discriminate.
    + discriminate.
  - apply (Hu {| this := set_previousFiles ["test/a.js"; "test/b.js"]
                           (sampleWatcher []);
                 pending := []; allocated := 0%nat; effects := [] |}).
    + reflexivity.
    + apply (bool_decide_unpack _). vm_compute. exact I.
    + apply (bool_decide_unpack _). vm_compute. exact I.
    + simpl. intros x Hx. apply list_elem_of_singleton in Hx. subst x. left.
  - apply (Hplan "U" (reset planStart)); reflexivity.
  - apply (Hplan "rs" (reset planStart)); try reflexivity.
    + unfold isAscii. simpl. repeat constructor.
    + discriminate.
    + discriminate.
Defined.

Lemma temporary_files_stay_in_watcher_witness :
  ("test/tmp.js"
   ∈ temporaryFiles
       (fold_left
          (λ w ds,
             (runAfterChanges sampleClassify [] [] keepAll
                (set_dirtyStates ds w)).1)
          [[("test/tmp.js", "change")]; [("test/tmp.js", "unlink")]]
          (set_temporaryFiles {["test/tmp.js"]} (sampleWatcher []))))
  ∧ plan_temporaryFiles
      (planOf (planDebounced sampleClassify ignoreNothing [] [] keepAll
                 (planWatched "test/tmp.js"
                    (planTouchedFiles [] ["test/tmp.js"] (reset planStart)))))
    = ∅.
Proof.
  destruct (temporary_files_stay_in_watcher sampleClassify ignoreNothing [] []
              keepAll) as [Hwatcher Hplan].
  split.
  - apply (Hwatcher
             [[("test/tmp.js", "change")]; [("test/tmp.js", "unlink")]]
             (set_temporaryFiles {["test/tmp.js"]} (sampleWatcher []))
             "test/tmp.js").
    simpl. apply elem_of_singleton. reflexivity.
  - apply Hplan. vm_compute. discriminate.
Defined.

Lemma cancelled_timer_never_acts_witness :
  timer (debouncer
           (this (exec sampleClassify [] [] keepAll [Debounce None; Expire 0]
                    {| this := set_debouncer {| timer := None; again := false |}
                                 (sampleWatcher [("test/a.js", "change")]);
                       pending := []; allocated := 0%nat; effects := [] |})))
  = Some 0%nat
  ∧ ∀ x,
      x ∈ effects
            (exec sampleClassify [] [] keepAll [BusySettled 0; Debounce None]
               (cancel
                  (exec sampleClassify [] [] keepAll [Debounce None; Expire 0]
                     {| this := set_debouncer
                                  {| timer := None; again := false |}
                                  (sampleWatcher [("test/a.js", "change")]);
                        pending := []; allocated := 0%nat; effects := [] |}))) →
      effectTimer x ≠ 0%nat.
Proof.
  split; [reflexivity|].
  destruct (cancelled_timer_never_acts sampleClassify [] [] keepAll)
    as [Hdead _].
  apply (Hdead [Debounce None; Expire 0] [BusySettled 0; Debounce None]
           (sampleWatcher [("test/a.js", "change")]) 0%nat).
  reflexivity.
Defined.

(** * Further properties of the code *)

(** ** FailureLedger: tallies *)

Lemma sumOfRecordsBefore_app (g : Z) (l1 l2 : list FailureState) :
  sumOfRecordsBefore g (l1 ++ l2)
  = sumOfRecordsBefore g l1 + sumOfRecordsBefore g l2.
Proof.
  unfold sumOfRecordsBefore. rewrite filter_app, fmap_app, foldr_app.
  generalize (state_count <$> filter (λ s, state_vector s < g) l2).
  intros tail.
  induction (state_count <$> filter (λ s, state_vector s < g) l1)
    as [|c cs IH]; simpl; lia.
Qed.

Lemma sumOfRecordsBefore_cons (g : Z) (s : FailureState)
    (l : list FailureState) :
  sumOfRecordsBefore g (s :: l)
  = (if decide (state_vector s < g) then state_count s else 0)
    + sumOfRecordsBefore g l.
Proof.
  unfold sumOfRecordsBefore. rewrite filter_cons.
  destruct (decide (state_vector s < g)); rewrite ?fmap_cons; cbn [foldr]; lia.
Qed.

Lemma sumPreviousFailures_eq (g : Z) (l : list FailureState) :
  sumPreviousFailures g l = sumOfRecordsBefore g l.
Proof. unfold sumPreviousFailures. by rewrite sumPreviousFailures_from. Qed.

Lemma ledger_counts_positive (l : list FailureState) :
  ledger_reachable l → Forall (λ s, 1 ≤ state_count s) l.
Proof.
  induction 1 as [|file vector l Hl IH|files l Hl IH].
  - constructor.
  - unfold countFailure.
    destruct (someCountFailure file l) as [l'|] eqn:E.
    + clear Hl. revert l' E.
      induction IH as [|s l Hs Hrest IH]; intros l' E; simpl in E; [done|].
      destruct (decide (state_file s = file)).
      * inversion E; subst. constructor; [simpl; lia|done].
      * destruct (someCountFailure file l) as [l0|]; [|done].
        inversion E; subst. constructor; [done|]. by apply IH.
    + apply Forall_app. split; [done|]. repeat constructor. simpl. lia.
  - unfold pruneFailures. rewrite Forall_forall in IH. apply Forall_forall.
    intros s Hs. apply list_elem_of_filter in Hs as [_ Hs]. by apply IH.
Qed.

Lemma sumOfRecordsBefore_mono (g g' : Z) (l : list FailureState) :
  Forall (λ s, 1 ≤ state_count s) l → g ≤ g' →
  0 ≤ sumOfRecordsBefore g l ≤ sumOfRecordsBefore g' l.
Proof.
  intros Hl Hg. induction Hl as [|s l Hs Hl IH].
  - unfold sumOfRecordsBefore. simpl. lia.
  - rewrite !sumOfRecordsBefore_cons.
    destruct (decide (state_vector s < g)), (decide (state_vector s < g'));
      lia.
Qed.

Lemma sumOfRecordsBefore_prune (g : Z) (files : list string)
    (l : list FailureState) :
  Forall (λ s, 1 ≤ state_count s) l →
  sumOfRecordsBefore g (pruneFailures files l) ≤ sumOfRecordsBefore g l.
Proof.
  intros Hl. unfold pruneFailures. induction Hl as [|s l Hs Hl IH]; [done|].
  rewrite filter_cons.
  destruct (decide (state_file s ∉ (list_to_set files : gset string)));
    rewrite !sumOfRecordsBefore_cons;
    destruct (decide (state_vector s < g)); lia.
Qed.

Lemma someCountFailure_Some_inv (file : string) (l l' : list FailureState) :
  someCountFailure file l = Some l' →
  ∃ before s after,
    l = before ++ s :: after
    ∧ (file ∉ state_file <$> before) ∧ state_file s = file
    ∧ l' = before ++ {| state_file := file; state_vector := state_vector s;
                        state_count := state_count s + 1 |} :: after.
Proof.
  revert l'. induction l as [|a l IH]; intros l' E; simpl in E; [done|].
  destruct (decide (state_file a = file)) as [Heq|Hne].
  - inversion E; subst. exists [], a, l.
    split; [done|]. split; [apply not_elem_of_nil|]. done.
  - destruct (someCountFailure file l) as [l0|]; [|done].
    inversion E; subst.
    destruct (IH l0 eq_refl) as (before & s & after & -> & Hb & Hs & ->).
    exists (a :: before), s, after. split; [done|]. split; [|done].
    rewrite fmap_cons, not_elem_of_cons. split; [congruence|done].
Qed.

Lemma someCountFailure_None_inv (file : string) (l : list FailureState) :
  someCountFailure file l = None → file ∉ state_file <$> l.
Proof.
  induction l as [|a l IH]; simpl; [intros _; apply not_elem_of_nil|].
  destruct (decide (state_file a = file)); [done|].
  destruct (someCountFailure file l); [done|]. intros _.
  rewrite not_elem_of_cons. split; [congruence|by apply IH].
Qed.

(** X1: in a ledger the class can reach every record counts at least one
    failure; so the tally reported before a vector is never negative, grows
    with the vector, and pruning never raises it. *)
Theorem failure_tally_bounds (l : list FailureState) (g g' : Z)
    (files : list string) :
  ledger_reachable l → g ≤ g' →
  Forall (λ s, 1 ≤ state_count s) l
  ∧ 0 ≤ sumPreviousFailures g l ≤ sumPreviousFailures g' l
  ∧ sumPreviousFailures g (pruneFailures files l) ≤ sumPreviousFailures g l.
Proof.
  intros Hl Hg. pose proof (ledger_counts_positive l Hl) as Hpos.
  rewrite !sumPreviousFailures_eq. split; [done|]. split.
  - by apply sumOfRecordsBefore_mono.
  - by apply sumOfRecordsBefore_prune.
Qed.

Lemma failure_tally_bounds_witness :
  0 ≤ sumPreviousFailures 1
        (countFailure "test/a.js" 1 (countFailure "test/b.js" 0 []))
    ≤ sumPreviousFailures 2
        (countFailure "test/a.js" 1 (countFailure "test/b.js" 0 [])).
Proof.
  apply (failure_tally_bounds
           (countFailure "test/a.js" 1 (countFailure "test/b.js" 0 []))
           1 2 ["test/b.js"]).
  - apply ledger_count, ledger_count, ledger_init.
  - lia.
Defined.

(** X2: one recorded failure raises the tally before a vector by one or not
    at all.  For a file without a record it counts when the vector it is
    recorded at is smaller; for a file with a record it counts when the vector
    stored in that record is smaller, whatever the vector passed. *)
Theorem failure_counts_once (f : string) (v g : Z) :
  (∀ l, f ∉ state_file <$> l →
     sumPreviousFailures g (countFailure f v l)
     = sumPreviousFailures g l + (if decide (v < g) then 1 else 0))
  ∧ (∀ before s after,
       f ∉ state_file <$> before → state_file s = f →
       sumPreviousFailures g (countFailure f v (before ++ s :: after))
       = sumPreviousFailures g (before ++ s :: after)
         + (if decide (state_vector s < g) then 1 else 0)).
Proof.
  split.
  - intros l Hl. unfold countFailure. rewrite someCountFailure_None by done.
    rewrite !sumPreviousFailures_eq, sumOfRecordsBefore_app.
    rewrite sumOfRecordsBefore_cons. simpl.
    unfold sumOfRecordsBefore at 2. simpl.
    destruct (decide (v < g)); lia.
  - intros before s after Hb Hs. unfold countFailure.
    rewrite someCountFailure_first by done.
    rewrite !sumPreviousFailures_eq, !sumOfRecordsBefore_app,
      !sumOfRecordsBefore_cons. simpl.
    destruct (decide (state_vector s < g)); lia.
Qed.

Lemma failure_counts_once_witness :
  sumPreviousFailures 3 (countFailure "test/a.js" 3 []) = 0
  ∧ sumPreviousFailures 4 (countFailure "test/a.js" 3 []) = 1
  ∧ sumPreviousFailures 3
      (countFailure "test/a.js" 3
         [{| state_file := "test/a.js"; state_vector := 1; state_count := 1 |}])
    = 2.
Proof.
  destruct (failure_counts_once "test/a.js" 3 3) as [Hnew Hold].
  destruct (failure_counts_once "test/a.js" 3 4) as [Hnew' _].
  split; [|split].
  - rewrite (Hnew []); [reflexivity|apply not_elem_of_nil].
  - rewrite (Hnew' []); [reflexivity|apply not_elem_of_nil].
  - exact (Hold []
      {| state_file := "test/a.js"; state_vector := 1; state_count := 1 |} []
      (not_elem_of_nil _) eq_refl).
Defined.

Lemma pruneFailures_app (a b : list string) (l : list FailureState) :
  pruneFailures a (pruneFailures b l) = pruneFailures (b ++ a) l.
Proof.
  unfold pruneFailures. rewrite list_filter_filter. apply list_filter_iff.
  intros s. rewrite !elem_of_list_to_set, elem_of_app. tauto.
Qed.

Lemma cleanUnlinkedTests_failures (providers : list ProviderMain)
    (unlinked : list string) (w : Watcher) :
  filesWithFailures (cleanUnlinkedTests providers unlinked w)
  = pruneFailures unlinked (filesWithFailures w).
Proof.
  revert w. induction unlinked as [|t l IH]; intros w.
  - unfold pruneFailures. symmetry. apply filter_all, Forall_forall.
    intros s _. rewrite elem_of_list_to_set. apply not_elem_of_nil.
  - rewrite cleanUnlinkedTests_cons, IH.
    destruct (cleanUnlinkedTest_fields providers w t) as (_ & _ & ->).
    by rewrite pruneFailures_app.
Qed.

(** X3: pruning with no files changes nothing, pruning twice is pruning with
    both lists at once, and the cleanup of unlinked tests, which prunes them
    one at a time, leaves the ledger pruned by the whole list. *)
Theorem pruning_composes (a b : list string) (l : list FailureState) :
  pruneFailures [] l = l
  ∧ pruneFailures a (pruneFailures b l) = pruneFailures (b ++ a) l
  ∧ pruneFailures a (pruneFailures a l) = pruneFailures a l
  ∧ ∀ providers w,
      filesWithFailures (cleanUnlinkedTests providers a w)
      = pruneFailures a (filesWithFailures w).
Proof.
  split; [|split; [|split]].
  - unfold pruneFailures. apply filter_all, Forall_forall.
    intros s _. rewrite elem_of_list_to_set. apply not_elem_of_nil.
  - apply pruneFailures_app.
  - rewrite pruneFailures_app. unfold pruneFailures. apply list_filter_iff.
    intros s. rewrite !elem_of_list_to_set, elem_of_app. tauto.
  - intros providers w. apply cleanUnlinkedTests_failures.
Qed.

(** X4: a file that was pruned starts afresh: its next failure makes a new
    record with count 1 at the vector given; and a failure recorded for a
    file leaves no trace once that file is pruned. *)
Theorem pruned_file_starts_afresh (f : string) (v : Z) (files : list string)
    (l : list FailureState) :
  f ∈ files →
  countFailure f v (pruneFailures files l)
  = pruneFailures files l
    ++ [{| state_file := f; state_vector := v; state_count := 1 |}]
  ∧ pruneFailures files (countFailure f v l) = pruneFailures files l.
Proof.
  intros Hf. split.
  - unfold countFailure. rewrite someCountFailure_None; [done|].
    intros (s & -> & Hs)%list_elem_of_fmap.
    apply elem_of_pruneFailures in Hs as [_ Hs]. done.
  - unfold countFailure. destruct (someCountFailure f l) as [l'|] eqn:E.
    + apply someCountFailure_Some_inv in E
        as (before & s & after & -> & _ & Hs & ->).
      unfold pruneFailures. rewrite !filter_app, !filter_cons.
      rewrite !decide_False; [done| |];
        rewrite elem_of_list_to_set; simpl; rewrite ?Hs; tauto.
    + unfold pruneFailures. rewrite filter_app, filter_cons, filter_nil.
      rewrite decide_False, app_nil_r; [done|].
      rewrite elem_of_list_to_set. simpl. tauto.
Qed.

Lemma pruned_file_starts_afresh_witness :
  countFailure "test/a.js" 5
    (pruneFailures ["test/a.js"]
       [{| state_file := "test/a.js"; state_vector := 1; state_count := 7 |}])
  = [{| state_file := "test/a.js"; state_vector := 5; state_count := 1 |}].
Proof.
  apply (pruned_file_starts_afresh "test/a.js" 5 ["test/a.js"]
           [{| state_file := "test/a.js"; state_vector := 1;
               state_count := 7 |}]).
  left.
Defined.

(** ** RunDriver: what a dispatch leaves behind *)

Lemma run_fields (patternFilters : list string)
    (applyTestFileFilter : list string → list string → list string)
    (specificFiles : list string) (updateSnapshots : bool) (w : Watcher) :
  let r := run patternFilters applyTestFileFilter specificFiles
             updateSnapshots w in
  runVector r.1 = runVector w + 1
  ∧ touchedFiles r.1 = ∅
  ∧ filesWithExclusiveTests r.1 = filesWithExclusiveTests w
  ∧ testDependencies r.1 = testDependencies w
  ∧ dirtyStates r.1 = dirtyStates w
  ∧ debouncer r.1 = debouncer w
  ∧ clearLogOnNextRun r.1
    = bool_decide (runVector w > 0) || clearLogOnNextRun w
  ∧ filesWithFailures r.1
    = (if bool_decide (0 < length specificFiles)%nat
       then pruneFailures (files r.2) (filesWithFailures w)
       else filesWithFailures w)
  ∧ opt_runVector (runtimeOptions r.2) = runVector w + 1
  ∧ opt_previousFailures (runtimeOptions r.2)
    = sumPreviousFailures (runVector w + 1) (filesWithFailures r.1).
Proof.
  unfold run.
  destruct (bool_decide (runVector w > 0));
    destruct (bool_decide (0 < length specificFiles)%nat); simpl;
    repeat split; reflexivity.
Qed.

(** X5: a dispatch raises the run vector by one and reports the new value;
    it leaves no failure record of a file it dispatches, so the previous
    failures it reports, the counts of the records recorded at an earlier
    vector, never include such a file; a dispatch of all tests leaves the
    ledger as it is. *)
Theorem dispatched_files_are_pruned (patternFilters : list string)
    (applyTestFileFilter : list string → list string → list string)
    (specificFiles : list string) (updateSnapshots : bool) (w : Watcher) :
  let r := run patternFilters applyTestFileFilter specificFiles
             updateSnapshots w in
  runVector r.1 = runVector w + 1
  ∧ opt_runVector (runtimeOptions r.2) = runVector w + 1
  ∧ (∀ s, s ∈ filesWithFailures r.1 →
       s ∈ filesWithFailures w ∧ state_file s ∉ files r.2)
  ∧ opt_previousFailures (runtimeOptions r.2)
    = sumOfRecordsBefore (runVector w + 1) (filesWithFailures r.1)
  ∧ (specificFiles = [] → filesWithFailures r.1 = filesWithFailures w).
Proof.
  intros r. subst r.
  pose proof (run_fields patternFilters applyTestFileFilter specificFiles
                updateSnapshots w) as H.
  cbv zeta in H. destruct H as (Hv & _ & _ & _ & _ & _ & _ & Hf & Ho & Hp).
  split; [done|]. split; [done|]. split; [|split].
  - intros s Hs. rewrite Hf in Hs. destruct specificFiles as [|f fs].
    + simpl in Hs. split; [done|].
      destruct (run_empty patternFilters applyTestFileFilter updateSnapshots w)
        as [-> _]. apply not_elem_of_nil.
    + rewrite bool_decide_eq_true_2 in Hs by (simpl; lia).
      by apply elem_of_pruneFailures in Hs.
  - by rewrite Hp, sumPreviousFailures_eq.
  - intros ->. by rewrite Hf.
Qed.

Lemma run_reconciled_shape
    (applyTestFileFilter : list string → list string → list string)
    (requested : list string) (updateSnapshots : bool) (w : Watcher) :
  NoDup requested → NoDup (filesWithExclusiveTests w) → requested ≠ [] →
  let P := files (run [] applyTestFileFilter requested updateSnapshots w).2 in
  NoDup P ∧ P ≠ [] ∧ filesWithExclusiveTests w ⊆ P
  ∧ ∀ x, x ∈ P ↔ x ∈ filesWithExclusiveTests w ∨ x ∈ requested.
Proof.
  intros Hr He Hne P. subst P.
  destruct (run_nonempty [] applyTestFileFilter requested updateSnapshots w Hne)
    as [-> _].
  unfold narrowed. rewrite (bool_decide_eq_false_2 (0 < length [])%nat)
    by (simpl; lia).
  case_bool_decide as Hlen.
  - rewrite remaining_is_difference. split; [|split; [|split]].
    + apply NoDup_app. split; [done|]. split; [|by apply NoDup_filter].
      intros x Hx Hx'. apply list_elem_of_filter in Hx' as [Hn _].
      by apply Hn.
    + intros Happ. apply app_eq_nil in Happ as [HE _].
      apply Hlen. rewrite HE.
      assert (Hnil : filter (λ file, includes [] file) requested = []).
      { clear. induction requested as [|y ys IH]; [done|].
        rewrite filter_cons_False; [done|]. unfold includes. intros Hy.
        apply bool_decide_unpack in Hy. by apply elem_of_nil in Hy. }
      by rewrite Hnil.
    + intros x Hx. apply elem_of_app. by left.
    + intros x. rewrite elem_of_app, list_elem_of_filter.
      destruct (decide (x ∈ filesWithExclusiveTests w)); tauto.
  - apply covers_iff_lengths in Hlen; [|done..].
    split; [done|]. split; [done|]. split; [done|].
    intros x. split; [tauto|]. intros [Hx|Hx]; [by apply Hlen|done].
Qed.

(** X6: without pattern filters, dispatching the file list of the previous
    run again, as the [u] command does, dispatches the same list, in the same
    order, and does not set [runOnlyExclusive], whether the previous dispatch
    had set it or not. *)
Theorem rerun_of_previous_files_is_stable
    (applyTestFileFilter : list string → list string → list string)
    (requested : list string) (u u' : bool) (w : Watcher) :
  NoDup requested → NoDup (filesWithExclusiveTests w) →
  let r1 := run [] applyTestFileFilter requested u w in
  let r2 := run [] applyTestFileFilter (previousFiles r1.1) u' r1.1 in
  files r2.2 = files r1.2
  ∧ opt_runOnlyExclusive (runtimeOptions r2.2) = false
  ∧ previousFiles r2.1 = previousFiles r1.1.
Proof.
  intros Hr He r1 r2. subst r2.
  assert (Hprev : previousFiles r1.1 = files r1.2) by apply run_previousFiles.
  rewrite run_previousFiles, Hprev.
  pose proof (run_fields [] applyTestFileFilter requested u w) as Hfields.
  cbv zeta in Hfields. destruct Hfields as (_ & _ & Hexcl & _). fold r1 in Hexcl.
  destruct (decide (requested = [])) as [->|Hne].
  - destruct (run_empty [] applyTestFileFilter u w) as [Hnil _].
    fold r1 in Hnil. rewrite Hnil.
    destruct (run_empty [] applyTestFileFilter u' r1.1) as [-> ->]. done.
  - pose proof (run_reconciled_shape applyTestFileFilter requested u w
                  Hr He Hne) as Hshape.
    cbv zeta in Hshape. fold r1 in Hshape.
    destruct Hshape as (HPd & HPne & HPcov & _).
    destruct (run_nonempty [] applyTestFileFilter (files r1.2) u' r1.1 HPne)
      as [Hf Ho].
    rewrite Hexcl in Hf, Ho.
    rewrite bool_decide_eq_false_2 in Hf, Ho
      by (intros Hn; apply Hn; by apply covers_iff_lengths).
    unfold narrowed in Hf.
    rewrite (bool_decide_eq_false_2 (0 < length [])%nat) in Hf by (simpl; lia).
    rewrite Hf, Ho. done.
Qed.

Lemma rerun_of_previous_files_is_stable_witness :
  files (run [] keepAll
           (previousFiles (run [] keepAll ["test/b.js"] false
                             (sampleWatcher [])).1)
           true (run [] keepAll ["test/b.js"] false (sampleWatcher [])).1).2
  = files (run [] keepAll ["test/b.js"] false (sampleWatcher [])).2.
Proof.
  apply (rerun_of_previous_files_is_stable keepAll ["test/b.js"] false true
           (sampleWatcher [])).
  - apply NoDup_singleton.
  - apply NoDup_singleton.
Defined.

(** X7: whether a run is told to clear the log is decided by the run that
    settled before it: it is told so exactly when that run reported no failed
    hook, test or worker, no internal error, timeout, uncaught exception or
    unhandled rejection, and either was not the first run or found the flag
    set. *)
Theorem log_is_cleared_after_a_clean_run (patternFilters : list string)
    (applyTestFileFilter : list string → list string → list string)
    (specificFiles specificFiles' : list string) (u u' : bool) (stats : Stats)
    (w : Watcher) :
  0 ≤ runVector w →
  let settled :=
    runSettled stats
      (run patternFilters applyTestFileFilter specificFiles u w).1 in
  opt_clearLogOnNextRun
    (runtimeOptions
       (run patternFilters applyTestFileFilter specificFiles' u' settled).2)
  = (bool_decide (runVector w > 0) || clearLogOnNextRun w)
    && negb (bool_decide (failedHooks stats > 0)
             || bool_decide (failedTests stats > 0)
             || bool_decide (failedWorkers stats > 0)
             || bool_decide (internalErrors stats > 0)
             || bool_decide (timeouts stats > 0)
             || bool_decide (uncaughtExceptions stats > 0)
             || bool_decide (unhandledRejections stats > 0)).
Proof.
  intros Hv settled. subst settled. rewrite run_clearLog.
  pose proof (run_fields patternFilters applyTestFileFilter specificFiles u w)
    as Hfields.
  cbv zeta in Hfields. destruct Hfields as (Hvec & _ & _ & _ & _ & _ & Hc & _).
  unfold runSettled. rewrite Hc.
  set (failed := bool_decide (failedHooks stats > 0)
                 || bool_decide (failedTests stats > 0)
                 || bool_decide (failedWorkers stats > 0)
                 || bool_decide (internalErrors stats > 0)
                 || bool_decide (timeouts stats > 0)
                 || bool_decide (uncaughtExceptions stats > 0)
                 || bool_decide (unhandledRejections stats > 0)).
  destruct (bool_decide (runVector w > 0) || clearLogOnNextRun w) eqn:Eflag,
    failed; simpl; rewrite ?Hc, ?Eflag, ?Hvec;
    rewrite ?(bool_decide_eq_true_2 (runVector w + 1 > 0)) by lia; done.
Qed.

Lemma log_is_cleared_after_a_clean_run_witness :
  opt_clearLogOnNextRun
    (runtimeOptions
       (run [] keepAll [] false
          (runSettled
             {| failedHooks := 0; failedTests := 2; failedWorkers := 0;
                internalErrors := 0; timeouts := 0; uncaughtExceptions := 0;
                unhandledRejections := 0 |}
             (run [] keepAll [] false (sampleWatcher [])).1)).2)
  = false.
Proof.
  apply (log_is_cleared_after_a_clean_run [] keepAll [] [] false false
           {| failedHooks := 0; failedTests := 2; failedWorkers := 0;
              internalErrors := 0; timeouts := 0; uncaughtExceptions := 0;
              unhandledRejections := 0 |} (sampleWatcher [])).
  simpl. lia.
Defined.

(** X8: the run a control command dispatches is never told to clear the
    log; the command leaves the debouncer without a timer, forgets the dirty
    states gathered so far, and lets no debounce callback act. *)
Theorem command_run_is_quiet (patternFilters : list string)
    (applyTestFileFilter : list string → list string → list string)
    (data : string) (r : Runtime) :
  let res := stdinResumed patternFilters applyTestFileFilter data r in
  opt_clearLogOnNextRun (runtimeOptions res.2) = false
  ∧ timer (debouncer (this res.1)) = None
  ∧ dirtyStates (this res.1) = []
  ∧ touchedFiles (this res.1) = ∅
  ∧ effects res.1 = effects r
  ∧ allocated res.1 = allocated r.
Proof.
  intros res. subst res. unfold stdinResumed, updatePreviousSnapshots, rerunAll.
  set (w0 := set_clearLogOnNextRun false (this (cancel r))).
  assert (Htimer : timer (debouncer w0) = None).
  { unfold w0. rewrite cancel_this.
    destruct (timer (debouncer (this r))) eqn:E; simpl; [done|by rewrite E]. }
  assert (Hquiet : ∀ fs u,
    let res := run patternFilters applyTestFileFilter fs u
                 (set_dirtyStates [] w0) in
    opt_clearLogOnNextRun (runtimeOptions res.2) = false
    ∧ timer (debouncer res.1) = None
    ∧ dirtyStates res.1 = [] ∧ touchedFiles res.1 = ∅).
  { intros fs u res.
    pose proof (run_fields patternFilters applyTestFileFilter fs u
                  (set_dirtyStates [] w0)) as Hfields.
    cbv zeta in Hfields.
    destruct Hfields as (_ & Ht & _ & _ & Hd & Hdeb & _).
    subst res. rewrite run_clearLog, Hdeb, Hd, Ht. done. }
  assert (Hkeep : effects (cancel r) = effects r
                  ∧ allocated (cancel r) = allocated r).
  { unfold cancel. by destruct (timer (debouncer (this r))). }
  destruct Hkeep as [Heff Halloc].
  destruct (decide (data = "u")).
  - destruct (Hquiet (previousFiles (set_dirtyStates [] w0)) true)
      as (H1 & H2 & H3 & H4).
    destruct (run _ _ _ _ _) as [w' call]. simpl in *. done.
  - destruct (Hquiet [] false) as (H1 & H2 & H3 & H4).
    destruct (run _ _ _ _ _) as [w' call]. simpl in *. done.
Qed.

(** ** ExclusivityTracker and DependencyTracker *)

Lemma elem_of_updateExclusivity_true (file x : string) (l : list string) :
  x ∈ updateExclusivity file true l ↔ x ∈ l ∨ x = file.
Proof.
  unfold updateExclusivity, includes. case_bool_decide as Hin.
  - split; [tauto|]. intros [?| ->]; done.
  - rewrite elem_of_app, list_elem_of_singleton. tauto.
Qed.

(** X9: when a worker finishes, its test file is among the exclusive files
    afterwards exactly if it selected some tests and declared more than it
    selected; the membership of every other file is as before, and no file is
    listed twice. *)
Theorem worker_finished_sets_membership (classify : string → Classification)
    (providers : list ProviderMain) (currentVector : Z) (testFile : string)
    (selectedTests declaredTests : Z) (w : Watcher) :
  NoDup (filesWithExclusiveTests w) →
  let w' := stateChange classify providers currentVector
              (WorkerFinished testFile selectedTests declaredTests) w in
  NoDup (filesWithExclusiveTests w')
  ∧ (testFile ∈ filesWithExclusiveTests w'
     ↔ selectedTests > 0 ∧ declaredTests > selectedTests)
  ∧ ∀ x, x ≠ testFile →
      (x ∈ filesWithExclusiveTests w' ↔ x ∈ filesWithExclusiveTests w).
Proof.
  intros Hnd w'. subst w'. cbn [stateChange].
  cbn [filesWithExclusiveTests set_filesWithExclusiveTests].
  split; [by apply updateExclusivity_NoDup|].
  destruct (decide (selectedTests > 0)) as [Hs|Hs];
    destruct (decide (declaredTests > selectedTests)) as [Hd|Hd];
    rewrite ?(bool_decide_eq_true_2 _ Hs), ?(bool_decide_eq_false_2 _ Hs),
      ?(bool_decide_eq_true_2 _ Hd), ?(bool_decide_eq_false_2 _ Hd);
    cbn [andb].
  1: { split.
       - rewrite elem_of_updateExclusivity_true. tauto.
       - intros x Hx. rewrite elem_of_updateExclusivity_true. tauto. }
  all: split;
    [rewrite elem_of_updateExclusivity_false by done; tauto
    |intros x Hx; rewrite elem_of_updateExclusivity_false by done; tauto].
Qed.

Lemma worker_finished_sets_membership_witness :
  "test/a.js"
  ∈ filesWithExclusiveTests
      (stateChange sampleClassify [] 1 (WorkerFinished "test/a.js" 1 3)
         (sampleWatcher []))
  ↔ 1 > 0 ∧ 3 > 1.
Proof.
  apply (worker_finished_sets_membership sampleClassify [] 1 "test/a.js" 1 3
           (sampleWatcher [])).
  apply NoDup_singleton.
Defined.

Lemma withRewritten_snoc (providers : list ProviderMain) (main : ProviderMain)
    (file : string) (dependencies : list string) :
  withRewritten (providers ++ [main]) file dependencies
  = (if includes (withRewritten providers file dependencies)
          (resolveTestFile main file)
     then withRewritten providers file dependencies
     else resolveTestFile main file
          :: withRewritten providers file dependencies).
Proof. unfold withRewritten. by rewrite fold_left_app. Qed.

(** X10: the provider loop keeps the dependencies it is given, in their
    order, and puts in front of them the resolved path of the test file for
    each provider that is not there yet: the result holds exactly the given
    dependencies and the resolved paths, and repeats nothing if the given list
    did not. *)
Theorem rewritten_paths_are_prepended (providers : list ProviderMain)
    (file : string) (dependencies : list string) :
  (∃ added, withRewritten providers file dependencies = added ++ dependencies)
  ∧ (∀ x, x ∈ withRewritten providers file dependencies
          ↔ x ∈ dependencies
            ∨ ∃ main, main ∈ providers ∧ x = resolveTestFile main file)
  ∧ (NoDup dependencies → NoDup (withRewritten providers file dependencies)).
Proof.
  induction providers as [|main ps IH] using rev_ind.
  - split; [by exists []|]. split; [|done].
    intros x. split; [tauto|]. intros [?|(main & Hm & _)]; [done|].
    by apply elem_of_nil in Hm.
  - destruct IH as ((added & Hadd) & Hin & Hnd).
    rewrite withRewritten_snoc. unfold includes. case_bool_decide as Hhas.
    + split; [by exists added|]. split; [|done].
      intros x. rewrite Hin. split.
      * intros [?|(m & Hm & ->)]; [tauto|]. right. exists m.
        rewrite elem_of_app. tauto.
      * intros [?|(m & Hm & ->)]; [tauto|].
        apply elem_of_app in Hm as [Hm|Hm%list_elem_of_singleton].
        -- right. eauto.
        -- subst m. by apply Hin.
    + split; [exists (resolveTestFile main file :: added); by rewrite Hadd|].
      split.
      * intros x. rewrite elem_of_cons, Hin. split.
        -- intros [->|[?|(m & Hm & ->)]]; [|tauto|].
           ++ right. exists main. split; [|done]. rewrite elem_of_app.
              right. left.
           ++ right. exists m. rewrite elem_of_app. tauto.
        -- intros [?|(m & Hm & ->)]; [tauto|].
           apply elem_of_app in Hm as [Hm|Hm%list_elem_of_singleton].
           ++ right. right. eauto.
           ++ subst m. by left.
      * intros Hd. apply NoDup_cons. split; [done|by apply Hnd].
Qed.

Lemma someUpdateDependencies_Some_inv (file : string)
    (dependencies : list string) (l l' : list TestDependency) :
  someUpdateDependencies file dependencies l = Some l' →
  ∃ before dep after,
    l = before ++ dep :: after
    ∧ (file ∉ dep_file <$> before) ∧ dep_file dep = file
    ∧ l' = before ++ {| dep_file := file; dep_dependencies := dependencies |}
                     :: after.
Proof.
  revert l'. induction l as [|a l IH]; intros l' E; simpl in E; [done|].
  destruct (decide (dep_file a = file)) as [Heq|Hne].
  - inversion E; subst. exists [], a, l.
    split; [done|]. split; [apply not_elem_of_nil|]. done.
  - destruct (someUpdateDependencies file dependencies l) as [l0|]; [|done].
    inversion E; subst.
    destruct (IH l0 eq_refl) as (before & dep & after & -> & Hb & Hs & ->).
    exists (a :: before), dep, after. split; [done|]. split; [|done].
    rewrite fmap_cons, not_elem_of_cons. split; [congruence|done].
Qed.

Lemma someUpdateDependencies_None_inv (file : string)
    (dependencies : list string) (l : list TestDependency) :
  someUpdateDependencies file dependencies l = None → file ∉ dep_file <$> l.
Proof.
  induction l as [|a l IH]; simpl; [intros _; apply not_elem_of_nil|].
  destruct (decide (dep_file a = file)); [done|].
  destruct (someUpdateDependencies file dependencies l); [done|]. intros _.
  rewrite not_elem_of_cons. split; [congruence|by apply IH].
Qed.

(** The entries of [updateTestDependencies], whichever branch it takes. *)
Lemma elem_of_updateTestDependencies (providers : list ProviderMain)
    (file : string) (dependencies : list string) (l : list TestDependency)
    (dep : TestDependency) :
  NoDup (dep_file <$> l) →
  dep ∈ updateTestDependencies providers file dependencies l
  ↔ (dep ∈ l ∧ dep_file dep ≠ file)
    ∨ (dep = {| dep_file := file;
                dep_dependencies := withRewritten providers file dependencies |}
       ∧ withRewritten providers file dependencies ≠ []).
Proof.
  intros Hnd. unfold updateTestDependencies.
  destruct (withRewritten providers file dependencies) as [|d ds] eqn:Er.
  - simpl. rewrite list_elem_of_filter. split; [tauto|].
    intros [[? ?]|[_ ?]]; done.
  - simpl.
    destruct (someUpdateDependencies file (d :: ds) l) as [l'|] eqn:Eu.
    + apply someUpdateDependencies_Some_inv in Eu
        as (before & old & after & -> & Hb & Hold & ->).
      rewrite fmap_app, fmap_cons in Hnd.
      apply NoDup_app in Hnd as (_ & Hdisj & Hafter).
      apply NoDup_cons in Hafter as [Hafter _]. rewrite Hold in Hafter.
      rewrite !elem_of_app, !elem_of_cons. split.
      * intros [Hin|[->|Hin]].
        -- left. split; [tauto|]. intros Heq. apply Hb.
           apply list_elem_of_fmap. eauto.
        -- right. done.
        -- left. split; [tauto|]. intros Heq. apply Hafter.
           apply list_elem_of_fmap. eauto.
      * intros [[[Hin|[->|Hin]] Hne]|[-> _]]; tauto.
    + apply someUpdateDependencies_None_inv in Eu.
      rewrite elem_of_app, list_elem_of_singleton. split.
      * intros [Hin| ->]; [|by right]. left. split; [done|]. intros Heq.
        apply Eu, list_elem_of_fmap. eauto.
      * intros [[? ?]|[-> _]]; [by left|by right].
Qed.

Lemma updateTestDependencies_NoDup (providers : list ProviderMain)
    (file : string) (dependencies : list string) (l : list TestDependency) :
  NoDup (dep_file <$> l) →
  NoDup (dep_file <$> updateTestDependencies providers file dependencies l).
Proof.
  intros Hnd. unfold updateTestDependencies.
  destruct (withRewritten providers file dependencies) as [|d ds]; simpl.
  - apply (sublist_NoDup _ (dep_file <$> l)); [done|].
    apply fmap_sublist, sublist_filter.
  - destruct (someUpdateDependencies file (d :: ds) l) as [l'|] eqn:Eu.
    + apply someUpdateDependencies_Some_inv in Eu
        as (before & old & after & -> & _ & Hold & ->).
      rewrite fmap_app, fmap_cons in *. simpl. by rewrite <- Hold.
    + apply someUpdateDependencies_None_inv in Eu.
      rewrite fmap_app. apply NoDup_app. split; [done|].
      split; [|apply NoDup_singleton].
      intros x Hx Hx'%list_elem_of_singleton. by subst.
Qed.

(** X11: an update replaces what is tracked for the file and nothing else.
    While no file has two entries, the file depends on a path afterwards
    exactly if the path is among the dependencies given or the resolved paths
    of the providers; every other file depends on what it depended on; and
    still no file has two entries. *)
Theorem dependencies_are_replaced (providers : list ProviderMain)
    (file : string) (dependencies : list string) (l : list TestDependency)
    (path : string) :
  NoDup (dep_file <$> l) →
  let l' := updateTestDependencies providers file dependencies l in
  NoDup (dep_file <$> l')
  ∧ (file ∈ dependentsOf path l'
     ↔ path ∈ withRewritten providers file dependencies)
  ∧ ∀ other, other ≠ file →
      (other ∈ dependentsOf path l' ↔ other ∈ dependentsOf path l).
Proof.
  intros Hnd l'. subst l'. split; [by apply updateTestDependencies_NoDup|].
  split.
  - rewrite elem_of_dependentsOf. split.
    + intros (dep & Hin & Hf & Hp).
      apply elem_of_updateTestDependencies in Hin as [[_ Hne]|[-> _]];
        [done| |done]. by simpl in Hp.
    + intros Hp.
      exists {| dep_file := file;
                dep_dependencies :=
                  withRewritten providers file dependencies |}.
      split; [|done]. apply elem_of_updateTestDependencies; [done|].
      right. split; [done|]. intros Hnil. rewrite Hnil in Hp.
      by apply elem_of_nil in Hp.
  - intros other Hother. rewrite !elem_of_dependentsOf. split.
    + intros (dep & Hin & Hf & Hp).
      apply elem_of_updateTestDependencies in Hin as [[Hin _]|[-> _]];
        [eauto|done|]. simpl in Hf. congruence.
    + intros (dep & Hin & Hf & Hp). exists dep. split; [|done].
      apply elem_of_updateTestDependencies; [done|]. left. split; [done|].
      congruence.
Qed.

Lemma dependencies_are_replaced_witness :
  "test/a.js"
  ∈ dependentsOf "src/other.js"
      (updateTestDependencies [plainProvider] "test/a.js" ["src/other.js"]
         (testDependencies (sampleWatcher [])))
  ↔ "src/other.js" ∈ withRewritten [plainProvider] "test/a.js" ["src/other.js"].
Proof.
  apply (dependencies_are_replaced [plainProvider] "test/a.js" ["src/other.js"]
           (testDependencies (sampleWatcher [])) "src/other.js").
  apply NoDup_singleton.
Defined.

(** ** RerunDecisionEngine: what survives, what is run *)

Lemma difference_list_to_set_cons (touched : gset string) (a : string)
    (l : list string) :
  touched ∖ {[a]} ∖ list_to_set l = touched ∖ list_to_set (a :: l).
Proof.
  apply set_eq. intros y.
  rewrite !elem_of_difference, !elem_of_list_to_set, elem_of_singleton,
    elem_of_cons. tauto.
Qed.

Lemma difference_list_to_set_skip (touched : gset string) (a : string)
    (l : list string) :
  a ∉ touched → touched ∖ list_to_set l = touched ∖ list_to_set (a :: l).
Proof.
  intros Ha. apply set_eq. intros y.
  rewrite !elem_of_difference, !elem_of_list_to_set, elem_of_cons. split.
  - intros [Hy Hn]. split; [done|]. intros [->|?]; done.
  - intros [Hy Hn]. split; [done|]. intros ?. apply Hn. by right.
Qed.

Lemma keepDirtyPath_fold (w : Watcher) (l kept : list string)
    (touched : gset string) :
  let out := fold_left (keepDirtyPath w) l (kept, touched) in
  out.2 = touched ∖ list_to_set l
  ∧ (∀ x, x ∈ kept → x ∈ out.1)
  ∧ (∀ x, x ∈ l → x ∉ touched → x ∉ temporaryFiles w → x ∈ out.1)
  ∧ (NoDup l → ∀ x, x ∈ out.1 →
       x ∈ kept ∨ (x ∈ l ∧ (x ∉ touched) ∧ x ∉ temporaryFiles w)).
Proof.
  cbv zeta. revert kept touched.
  induction l as [|a l IH]; intros kept touched.
  - simpl. split; [apply set_eq; intros y;
      rewrite elem_of_difference, elem_of_empty; tauto|]. split; [done|]. split; [|tauto].
    intros x Hx. by apply elem_of_nil in Hx.
  - cbn [fold_left]. unfold keepDirtyPath at 2 4 6 8.
    destruct (decide (a ∈ touched)) as [Ha|Ha];
      [|destruct (decide (a ∈ temporaryFiles w)) as [Ht|Ht]].
    + destruct (IH kept (touched ∖ {[a]})) as (H2 & Hk & Hin & Hout).
      split; [rewrite H2; apply difference_list_to_set_cons|]. split; [done|]. split.
      * intros x [->|Hx]%elem_of_cons Hnt Hntemp; [done|].
        apply Hin; [done| |done]. intros Hx'.
        by apply elem_of_difference in Hx' as [? _].
      * intros [Hal Hnd]%NoDup_cons x Hx.
        destruct (Hout Hnd x Hx) as [?|(Hxl & Hxt & Hxtemp)]; [tauto|].
        right. split; [by right|]. split; [|done].
        intros Hxt'. apply Hxt. apply elem_of_difference. split; [done|].
        rewrite elem_of_singleton. intros ->. done.
    + destruct (IH kept touched) as (H2 & Hk & Hin & Hout).
      split; [rewrite H2; by apply difference_list_to_set_skip|]. split; [done|]. split.
      * intros x [->|Hx]%elem_of_cons Hnt Hntemp; [done|]. by apply Hin.
      * intros [Hal Hnd]%NoDup_cons x Hx.
        destruct (Hout Hnd x Hx) as [?|(Hxl & Hxt & Hxtemp)]; [tauto|].
        right. split; [by right|done].
    + destruct (IH (kept ++ [a]) touched) as (H2 & Hk & Hin & Hout).
      split; [rewrite H2; by apply difference_list_to_set_skip|]. split; [|split].
      * intros x Hx. apply Hk, elem_of_app. by left.
      * intros x [->|Hx]%elem_of_cons Hnt Hntemp.
        -- apply Hk, elem_of_app. right. left.
        -- by apply Hin.
      * intros [Hal Hnd]%NoDup_cons x Hx.
        destruct (Hout Hnd x Hx) as [Hx'|(Hxl & Hxt & Hxtemp)].
        -- apply elem_of_app in Hx' as [?|Hx'%list_elem_of_singleton];
             [tauto|]. subst x. right. split; [left|done].
        -- right. split; [by right|done].
Qed.

Lemma elem_of_dropIgnoredChanges (providers : list ProviderMain)
    (paths : list string) (path : string) :
  path ∈ dropIgnoredChanges providers paths
  ↔ path ∈ paths ∧ ∀ main, main ∈ providers → ignoreChange main path = false.
Proof.
  unfold dropIgnoredChanges. revert paths.
  induction providers as [|main ps IH]; intros paths; simpl.
  - split; [|tauto]. intros Hp. split; [done|].
    intros main Hm. by apply elem_of_nil in Hm.
  - rewrite IH, list_elem_of_filter. split.
    + intros [[Hi Hp] Hps]. split; [done|].
      intros m [->|Hm]%elem_of_cons; [|by apply Hps].
      by destruct (ignoreChange main path).
    + intros [Hp Hall]. split; [split; [|done]|].
      * rewrite (Hall main); [done|left].
      * intros m Hm. apply Hall. by right.
Qed.

(** The paths that reach classification, when no key is listed twice. *)
Lemma elem_of_survivingPaths (providers : list ProviderMain) (w : Watcher)
    (path : string) :
  NoDup (fst <$> dirtyStates w) →
  path ∈ survivingPaths providers w
  ↔ path ∈ fst <$> dirtyStates w
    ∧ (path ∉ touchedFiles w) ∧ (path ∉ temporaryFiles w)
    ∧ ∀ main, main ∈ providers → ignoreChange main path = false.
Proof.
  intros Hnd. unfold survivingPaths, dropTouchedAndTemporary.
  rewrite elem_of_dropIgnoredChanges.
  pose proof (keepDirtyPath_fold w (fst <$> dirtyStates w) [] (touchedFiles w))
    as H.
  cbv zeta in H. destruct H as (_ & _ & Hin & Hout). split.
  - intros [Hk Hp]. destruct (Hout Hnd path Hk) as [Hnil|?]; [|tauto].
    by apply elem_of_nil in Hnil.
  - intros (Hk & Ht & Htemp & Hp). split; [by apply Hin|done].
Qed.

Lemma cleanUnlinkedTests_touchedFiles (providers : list ProviderMain)
    (unlinked : list string) (w : Watcher) :
  touchedFiles (cleanUnlinkedTests providers unlinked w) = touchedFiles w
  ∧ runVector (cleanUnlinkedTests providers unlinked w) = runVector w
  ∧ previousFiles (cleanUnlinkedTests providers unlinked w) = previousFiles w.
Proof.
  revert w. induction unlinked as [|t l IH]; intros w; [done|].
  rewrite cleanUnlinkedTests_cons.
  destruct (IH (cleanUnlinkedTest providers w t)) as (-> & -> & ->). done.
Qed.

Lemma runAfterChanges_touchedFiles (classify : string → Classification)
    (providers : list ProviderMain) (patternFilters : list string)
    (applyTestFileFilter : list string → list string → list string)
    (w : Watcher) (path : string) :
  path ∈ touchedFiles
           (runAfterChanges classify providers patternFilters
              applyTestFileFilter w).1 →
  path ∈ touchedFiles w ∧ path ∉ fst <$> dirtyStates w.
Proof.
  unfold runAfterChanges.
  assert (Hclean : touchedFiles (afterCleanup classify providers w)
                   = touchedFiles w ∖ list_to_set (fst <$> dirtyStates w)).
  { unfold afterCleanup.
    destruct (cleanUnlinkedTests_touchedFiles providers
      (unlinkedTests
         (classifyDirty classify (dirtyStates w) (survivingPaths providers w)))
      (set_touchedFiles
         (dropTouchedAndTemporary (fst <$> dirtyStates w) w).2
         (set_dirtyStates [] w))) as [-> _].
    cbn [touchedFiles set_touchedFiles]. unfold dropTouchedAndTemporary.
    pose proof (keepDirtyPath_fold w (fst <$> dirtyStates w) []
                  (touchedFiles w)) as H.
    cbv zeta in H. by destruct H as [-> _]. }
  destruct (rerunDecision _ _ _) as [specificFiles|].
  - rewrite dispatch_pair. cbn [fst].
    pose proof (run_fields patternFilters applyTestFileFilter specificFiles
                  false (afterCleanup classify providers w)) as H.
    cbv zeta in H. destruct H as (_ & -> & _). set_solver.
  - cbn [fst]. rewrite Hclean. set_solver.
Qed.

(** X12: a path the watcher holds as touched is skipped once.  The batch in
    which it shows up drops it before classification, and after that batch it
    is no longer held as touched: the next batch that lists it lets it
    through, unless it is temporary or a provider ignores it. *)
Theorem touched_file_is_skipped_once (classify : string → Classification)
    (providers : list ProviderMain) (patternFilters : list string)
    (applyTestFileFilter : list string → list string → list string)
    (w : Watcher) (path : string) :
  NoDup (fst <$> dirtyStates w) →
  path ∈ touchedFiles w → path ∈ fst <$> dirtyStates w →
  let w' := (runAfterChanges classify providers patternFilters
               applyTestFileFilter w).1 in
  (path ∉ survivingPaths providers w)
  ∧ (path ∉ touchedFiles w')
  ∧ (path ∉ temporaryFiles w →
     (∀ main, main ∈ providers → ignoreChange main path = false) →
     ∀ ds, NoDup (fst <$> ds) → path ∈ fst <$> ds →
           path ∈ survivingPaths providers (set_dirtyStates ds w')).
Proof.
  intros Hnd Ht Hk w'. split; [|split].
  - rewrite elem_of_survivingPaths by done. tauto.
  - intros Hin. apply runAfterChanges_touchedFiles in Hin. tauto.
  - intros Htemp Hprov ds Hds Hin.
    apply elem_of_survivingPaths; [done|]. cbn [dirtyStates set_dirtyStates].
    split; [done|]. split; [|split; [|done]].
    + cbn [touchedFiles set_dirtyStates]. intros Hin'.
      apply runAfterChanges_touchedFiles in Hin'. tauto.
    + cbn [temporaryFiles set_dirtyStates]. unfold w'.
      by rewrite runAfterChanges_temporaryFiles.
Qed.

Lemma touched_file_is_skipped_once_witness :
  ("coverage/out.json"
   ∉ survivingPaths []
       (set_touchedFiles {["coverage/out.json"]}
          (sampleWatcher [("coverage/out.json", "change")])))
  ∧ "coverage/out.json"
    ∈ survivingPaths []
        (set_dirtyStates [("coverage/out.json", "change")]
           (runAfterChanges sampleClassify [] [] keepAll
              (set_touchedFiles {["coverage/out.json"]}
                 (sampleWatcher [("coverage/out.json", "change")]))).1).
Proof.
  pose proof (touched_file_is_skipped_once sampleClassify [] [] keepAll
                (set_touchedFiles {["coverage/out.json"]}
                   (sampleWatcher [("coverage/out.json", "change")]))
                "coverage/out.json") as H.
  cbv zeta in H. destruct H as (Hskip & _ & Hnext).
  - apply NoDup_singleton.
  - simpl. apply elem_of_singleton. reflexivity.
  - simpl. left.
  - split; [exact Hskip|]. apply Hnext.
    + simpl. apply not_elem_of_empty.
    + intros main Hmain. by apply elem_of_nil in Hmain.
    + apply NoDup_singleton.
    + simpl. left.
Defined.

(** X13: a batch none of whose paths gets past the touched files, the
    temporary files and the providers, the empty batch included, dispatches
    nothing; it only empties the dirty states and takes its own paths out of
    the touched files. *)
Theorem suppressed_batch_changes_nothing (classify : string → Classification)
    (providers : list ProviderMain) (patternFilters : list string)
    (applyTestFileFilter : list string → list string → list string)
    (w : Watcher) :
  NoDup (fst <$> dirtyStates w) →
  (∀ path, path ∈ fst <$> dirtyStates w →
     path ∈ touchedFiles w ∨ path ∈ temporaryFiles w
     ∨ ∃ main, main ∈ providers ∧ ignoreChange main path = true) →
  runAfterChanges classify providers patternFilters applyTestFileFilter w
  = (set_touchedFiles
       (touchedFiles w ∖ list_to_set (fst <$> dirtyStates w))
       (set_dirtyStates [] w), None).
Proof.
  intros Hnd Hall.
  assert (Hnone : survivingPaths providers w = []).
  { destruct (survivingPaths providers w) as [|x xs] eqn:E; [done|].
    assert (Hx : x ∈ survivingPaths providers w) by (rewrite E; left).
    apply elem_of_survivingPaths in Hx as (Hk & Ht & Htemp & Hp); [|done].
    destruct (Hall x Hk) as [?|[?|(main & Hm & Hi)]]; [done..|].
    rewrite (Hp main Hm) in Hi. done. }
  unfold runAfterChanges, afterCleanup. rewrite Hnone.
  unfold rerunDecision. cbn [classifyDirty fold_left unlinkedTests].
  rewrite bool_decide_eq_true_2 by done.
  cbn [cleanUnlinkedTests fold_left]. f_equal. f_equal.
  unfold dropTouchedAndTemporary.
  pose proof (keepDirtyPath_fold w (fst <$> dirtyStates w) [] (touchedFiles w))
    as H.
  cbv zeta in H. by destruct H as [-> _].
Qed.

Lemma suppressed_batch_changes_nothing_witness :
  (runAfterChanges sampleClassify [] [] keepAll
     (set_temporaryFiles {["tmp/x.js"]}
        (sampleWatcher [("tmp/x.js", "change")]))).2
  = None.
Proof.
  rewrite (suppressed_batch_changes_nothing sampleClassify [] [] keepAll
             (set_temporaryFiles {["tmp/x.js"]}
                (sampleWatcher [("tmp/x.js", "change")]))).
  - reflexivity.
  - apply NoDup_singleton.
  - intros path Hpath. simpl in Hpath.
    apply list_elem_of_singleton in Hpath. subst path.
    right. left. simpl. apply elem_of_singleton. reflexivity.
Defined.

Lemma keepDirtyPath_NoDup (w : Watcher) (l kept : list string)
    (touched : gset string) :
  NoDup (kept ++ l) → NoDup (fold_left (keepDirtyPath w) l (kept, touched)).1.
Proof.
  revert kept touched. induction l as [|a l IH]; intros kept touched Hnd.
  - simpl. by rewrite app_nil_r in Hnd.
  - assert (Hskip : NoDup (kept ++ l)).
    { apply NoDup_app in Hnd as (Hk & Hdisj & Hl).
      apply NoDup_cons in Hl as [_ Hl]. apply NoDup_app.
      split; [done|]. split; [|done].
      intros x Hx Hx'. apply (Hdisj x Hx). by right. }
    cbn [fold_left]. unfold keepDirtyPath at 2.
    destruct (decide (a ∈ touched));
      [|destruct (decide (a ∈ temporaryFiles w))].
    + by apply IH.
    + by apply IH.
    + apply IH. by rewrite <- app_assoc.
Qed.

Lemma survivingPaths_NoDup (providers : list ProviderMain) (w : Watcher) :
  NoDup (fst <$> dirtyStates w) → NoDup (survivingPaths providers w).
Proof.
  intros Hnd. unfold survivingPaths, dropIgnoredChanges, dropTouchedAndTemporary.
  pose proof (keepDirtyPath_NoDup w (fst <$> dirtyStates w) [] (touchedFiles w)
                Hnd) as Hkept.
  revert Hkept.
  generalize (fold_left (keepDirtyPath w) (fst <$> dirtyStates w)
                ([], touchedFiles w)).1.
  induction providers as [|main ps IH]; intros paths Hpaths; [done|].
  cbn [fold_left]. apply IH. by apply NoDup_filter.
Qed.

(** X14: a batch that reaches classification without a helper or source
    path, and does not consist of unlinked tests alone, makes the watcher
    request a run for exactly the tests of the batch that were added or
    changed, in the order of the batch.  The dispatched run targets that
    request when it has every file that is exclusive once the unlinked tests
    are cleaned up; otherwise it targets those exclusive files followed by the
    rest of the request, with [runOnlyExclusive] set; with pattern filters it
    targets what [applyTestFileFilter] makes of the list.  When no test was
    added or changed, because the other paths are ignored by the watcher, the
    run targets the empty list: all tests. *)
Theorem tests_of_the_batch_are_run (classify : string → Classification)
    (providers : list ProviderMain) (patternFilters : list string)
    (applyTestFileFilter : list string → list string → list string)
    (w : Watcher) :
  let paths := survivingPaths providers w in
  let changed :=
    filter (λ path, negb (isIgnoredByWatcher (classify path))
                    ∧ isTest (classify path)
                    ∧ dirtyState (dirtyStates w) path ≠ Some "unlink") paths in
  let unlinked :=
    filter (λ path, negb (isIgnoredByWatcher (classify path))
                    ∧ isTest (classify path)
                    ∧ dirtyState (dirtyStates w) path = Some "unlink") paths in
  let w' := afterCleanup classify providers w in
  let exclusive := filesWithExclusiveTests w' in
  let narrow (l : list string) :=
    if decide (patternFilters = []) then l
    else applyTestFileFilter patternFilters l in
  NoDup (fst <$> dirtyStates w) → NoDup (filesWithExclusiveTests w) →
  (∀ path, path ∈ paths →
     isIgnoredByWatcher (classify path) = true
     ∨ isTest (classify path) = true) →
  (∃ path, path ∈ paths
     ∧ (isIgnoredByWatcher (classify path) = true
        ∨ dirtyState (dirtyStates w) path ≠ Some "unlink")) →
  (∀ file, file ∈ exclusive
           ↔ file ∈ filesWithExclusiveTests w ∧ file ∉ unlinked)
  ∧ ∃ call,
      runAfterChanges classify providers patternFilters applyTestFileFilter w
      = ((run patternFilters applyTestFileFilter changed false w').1, Some call)
      ∧ call = (run patternFilters applyTestFileFilter changed false w').2
      ∧ opt_updateSnapshots (runtimeOptions call) = false
      ∧ (changed = [] →
         opt_runOnlyExclusive (runtimeOptions call) = false
         ∧ files call = [])
      ∧ (changed ≠ [] → exclusive ⊆ changed →
         opt_runOnlyExclusive (runtimeOptions call) = false
         ∧ files call = narrow changed)
      ∧ (changed ≠ [] → ¬ exclusive ⊆ changed →
         opt_runOnlyExclusive (runtimeOptions call) = true
         ∧ files call
           = narrow (exclusive ++ filter (λ file, file ∉ exclusive) changed)).
Proof.
  intros paths changed unlinked w' exclusive narrow Hkeys Hnd Hno
    (path & Hpath & Hnot).
  destruct (classifyDirty_spec classify (dirtyStates w) paths)
    as (Hh & Hc & Hu).
  destruct (afterCleanup_exclusive classify providers w Hnd) as [Hexd Hex].
  fold paths unlinked w' exclusive in Hexd, Hex.
  split; [exact Hex|].
  exists (run patternFilters applyTestFileFilter changed false w').2.
  split; [|split; [reflexivity|split; [apply run_updateSnapshots|]]].
  - unfold runAfterChanges. fold paths. fold w'. rewrite <- dispatch_pair.
    unfold rerunDecision. rewrite Hh, Hc, Hu. fold changed.
    rewrite bool_decide_eq_false_2.
    2:{ intros Hlen.
        pose proof (length_filter_lt
          (λ path, negb (isIgnoredByWatcher (classify path))
                   ∧ isTest (classify path)
                   ∧ dirtyState (dirtyStates w) path = Some "unlink")
          paths path Hpath) as Hlt.
        rewrite Hlen in Hlt.
        assert (Hlt' : ¬ (length paths < length paths)%nat) by lia.
        apply Hlt', Hlt. intros (Hi & _ & Hs).
        destruct Hnot as [Hig|Hst]; [|done].
        rewrite Hig in Hi. done. }
    assert (Hnil : filter (λ path, negb (isIgnoredByWatcher (classify path))
                                   ∧ negb (isTest (classify path))) paths
                   = []).
    { destruct (filter (λ path, negb (isIgnoredByWatcher (classify path))
                                ∧ negb (isTest (classify path))) paths)
        as [|x xs] eqn:E; [done|].
      assert (Hx : x ∈ filter
                     (λ path, negb (isIgnoredByWatcher (classify path))
                              ∧ negb (isTest (classify path))) paths)
        by (rewrite E; left).
      apply list_elem_of_filter in Hx as [[Hi Ht] Hx].
      destruct (Hno x Hx) as [Hig|Hte].
      - rewrite Hig in Hi. done.
      - rewrite Hte in Ht. done. }
    rewrite Hnil.
    rewrite (bool_decide_eq_true_2 (length [] = 0%nat)) by done.
    reflexivity.
  - assert (Hcd : NoDup changed)
      by (apply NoDup_filter; by apply survivingPaths_NoDup).
    split; [|split].
    + intros ->.
      destruct (run_empty patternFilters applyTestFileFilter false w'). done.
    + intros Hne Hcov.
      destruct (run_dispatch patternFilters applyTestFileFilter changed false
                  w' Hcd Hexd Hne) as [Hrun _].
      exact (Hrun Hcov).
    + intros Hne Hmiss.
      destruct (run_dispatch patternFilters applyTestFileFilter changed false
                  w' Hcd Hexd Hne) as [_ Hrun].
      exact (Hrun Hmiss).
Qed.

Lemma tests_of_the_batch_are_run_witness :
  files <$>
    (runAfterChanges sampleClassify [] [] keepAll
       (sampleWatcher [("test/b.js", "add"); ("test/c.js", "change")])).2
  = Some ["test/a.js"; "test/b.js"; "test/c.js"].
Proof.
  pose proof (tests_of_the_batch_are_run sampleClassify [] [] keepAll
                (sampleWatcher [("test/b.js", "add");
                                ("test/c.js", "change")])) as H.
  cbv zeta in H. destruct H as (_ & call & Hrun & _ & _ & _ & _ & Hmiss).
  - apply (bool_decide_unpack _). vm_compute. exact I.
  - apply NoDup_singleton.
  - intros path Hpath. vm_compute in Hpath. right.
    apply elem_of_cons in Hpath as [->|Hpath]; [reflexivity|].
    apply list_elem_of_singleton in Hpath. subst path. reflexivity.
  - exists "test/b.js". split; [vm_compute; left|]. right.
    vm_compute. discriminate.
  - rewrite Hrun. cbn [snd fmap option_fmap option_map]. f_equal.
    destruct Hmiss as [_ ->].
    + vm_compute. discriminate.
    + intros Hsub. specialize (Hsub "test/a.js").
      vm_compute in Hsub.
      assert (Hin : "test/a.js" ∈ ["test/b.js"; "test/c.js"])
        by (apply Hsub; left).
      apply elem_of_cons in Hin as [Hin|Hin]; [discriminate Hin|].
      apply list_elem_of_singleton in Hin. discriminate Hin.
    + vm_compute. reflexivity.
Defined.

(** X15: a batch whose surviving paths are all unlinked tests dispatches no
    run and leaves the run vector and the previous files alone; whatever the
    providers, each of those files is gone from the exclusive files and from
    the failure records, and without providers also from the tracked
    dependencies. *)
Theorem unlinked_tests_are_retired (classify : string → Classification)
    (providers : list ProviderMain) (patternFilters : list string)
    (applyTestFileFilter : list string → list string → list string)
    (w : Watcher) :
  NoDup (filesWithExclusiveTests w) →
  (∀ path, path ∈ survivingPaths providers w →
     isIgnoredByWatcher (classify path) = false
     ∧ isTest (classify path) = true
     ∧ dirtyState (dirtyStates w) path = Some "unlink") →
  let r := runAfterChanges classify providers patternFilters
             applyTestFileFilter w in
  snd r = None
  ∧ runVector (fst r) = runVector w
  ∧ previousFiles (fst r) = previousFiles w
  ∧ ∀ path, path ∈ survivingPaths providers w →
      (path ∉ filesWithExclusiveTests (fst r))
      ∧ (path ∉ state_file <$> filesWithFailures (fst r))
      ∧ (providers = [] → path ∉ dep_file <$> testDependencies (fst r)).
Proof.
  intros Hnd Hall r.
  set (paths := survivingPaths providers w) in *.
  set (w0 := set_touchedFiles
               (dropTouchedAndTemporary (fst <$> dirtyStates w) w).2
               (set_dirtyStates [] w)).
  destruct (classifyDirty_spec classify (dirtyStates w) paths) as (_ & _ & Hu).
  rewrite filter_all in Hu.
  2:{ apply Forall_forall. intros path Hp.
      destruct (Hall path Hp) as (-> & -> & ->). done. }
  assert (Hr : r = (cleanUnlinkedTests providers paths w0, None)).
  { unfold r, runAfterChanges, rerunDecision, afterCleanup. fold paths.
    rewrite Hu. by rewrite bool_decide_eq_true_2. }
  rewrite Hr. cbn [fst snd]. split; [done|].
  destruct (cleanUnlinkedTests_touchedFiles providers paths w0)
    as (_ & -> & ->).
  split; [done|]. split; [done|]. intros path Hp.
  destruct (cleanUnlinkedTests_exclusive providers paths w0 Hnd) as [_ Hex].
  split; [|split].
  - intros Hin. apply Hex in Hin. tauto.
  - rewrite cleanUnlinkedTests_failures.
    intros (s & -> & Hin)%list_elem_of_fmap.
    apply elem_of_pruneFailures in Hin. tauto.
  - intros ->.
    destruct (cleanUnlinkedTests_spec paths w0 Hnd) as (_ & Hdeps & _).
    intros (dep & -> & Hin)%list_elem_of_fmap. apply Hdeps in Hin. tauto.
Qed.

Lemma unlinked_tests_are_retired_witness :
  snd (runAfterChanges sampleClassify [plainProvider] [] keepAll
         (sampleWatcher [("test/a.js", "unlink")])) = None
  ∧ filesWithExclusiveTests
      (fst (runAfterChanges sampleClassify [plainProvider] [] keepAll
              (sampleWatcher [("test/a.js", "unlink")]))) = [].
Proof.
  pose proof (unlinked_tests_are_retired sampleClassify [plainProvider] []
                keepAll (sampleWatcher [("test/a.js", "unlink")])) as H.
  cbv zeta in H. destruct H as (Hnone & _).
  - apply NoDup_singleton.
  - intros path Hpath. vm_compute in Hpath.
    apply list_elem_of_singleton in Hpath. subst path.
    repeat split; reflexivity.
  - split; [exact Hnone|]. vm_compute. reflexivity.
Defined.

Lemma withRewritten_incl (providers : list ProviderMain) (file : string)
    (dependencies : list string) (x : string) :
  x ∈ dependencies → x ∈ withRewritten providers file dependencies.
Proof.
  intros Hx. induction providers as [|main ps IH] using rev_ind; [done|].
  rewrite withRewritten_snoc.
  destruct (includes _ _); [done|by right].
Qed.

Lemma updated_file_depends (providers : list ProviderMain) (file : string)
    (dependencies : list string) (l : list TestDependency) (path : string) :
  path ∈ withRewritten providers file dependencies →
  file ∈ dependentsOf path
           (updateTestDependencies providers file dependencies l).
Proof.
  intros Hp. apply elem_of_dependentsOf.
  exists {| dep_file := file;
            dep_dependencies := withRewritten providers file dependencies |}.
  split; [|done]. unfold updateTestDependencies.
  destruct (withRewritten providers file dependencies) as [|d ds] eqn:Er;
    [by apply elem_of_nil in Hp|]. simpl.
  destruct (someUpdateDependencies file (d :: ds) l) as [l'|] eqn:Eu.
  - apply someUpdateDependencies_Some_inv in Eu
      as (before & old & after & _ & _ & _ & ->).
    rewrite elem_of_app. right. left.
  - rewrite elem_of_app. right. left.
Qed.

Lemma dropIgnoredChanges_one (providers : list ProviderMain) (path : string) :
  (∀ main, main ∈ providers → ignoreChange main path = false) →
  dropIgnoredChanges providers [path] = [path].
Proof.
  unfold dropIgnoredChanges. induction providers as [|main ps IH]; [done|].
  intros Hall. simpl. rewrite filter_cons_True, filter_nil.
  - apply IH. intros m Hm. apply Hall. by right.
  - rewrite (Hall main); [done|left].
Qed.

Lemma stateChange_accessed (classify : string → Classification)
    (providers : list ProviderMain) (currentVector : Z)
    (testFile filename : string) (w : Watcher) :
  testDependencies
    (stateChange classify providers currentVector
       (AccessedSnapshots testFile filename) w)
  = updateTestDependencies providers testFile
      (if isIgnoredByWatcher (classify filename) then [] else [filename])
      (testDependencies w).
Proof.
  cbn [stateChange testDependencies set_testDependencies].
  rewrite filter_cons, filter_nil.
  destruct (isIgnoredByWatcher (classify filename)); reflexivity.
Qed.

(** X16: what telemetry reports as accessed brings its test back.  After a
    test file is reported to have accessed a file the watcher does not ignore,
    a batch made of that file alone, seen as a helper or source and neither
    touched, temporary nor ignored by a provider, dispatches a run that is
    not a run of all tests: the request holds the test file, and only tests
    tracked as depending on the accessed file. *)
Theorem accessed_file_reruns_its_test (classify : string → Classification)
    (providers : list ProviderMain) (patternFilters : list string)
    (applyTestFileFilter : list string → list string → list string)
    (currentVector : Z) (testFile filename kind : string) (w : Watcher) :
  isIgnoredByWatcher (classify filename) = false →
  isTest (classify filename) = false →
  filename ∉ touchedFiles w → filename ∉ temporaryFiles w →
  (∀ main, main ∈ providers → ignoreChange main filename = false) →
  let w1 :=
    set_dirtyStates [(filename, kind)]
      (stateChange classify providers currentVector
         (AccessedSnapshots testFile filename) w) in
  ∃ requested,
    runAfterChanges classify providers patternFilters applyTestFileFilter w1
    = ((run patternFilters applyTestFileFilter requested false
          (afterCleanup classify providers w1)).1,
       Some (run patternFilters applyTestFileFilter requested false
               (afterCleanup classify providers w1)).2)
    ∧ testFile ∈ requested
    ∧ ∀ x, x ∈ requested → x ∈ dependentsOf filename (testDependencies w1).
Proof.
  intros Hig Hte Htouched Htemp Hprov w1.
  assert (Hpaths : survivingPaths providers w1 = [filename]).
  { unfold survivingPaths, dropTouchedAndTemporary. simpl.
    rewrite decide_False by done. rewrite decide_False by done.
    simpl. by apply dropIgnoredChanges_one. }
  assert (Hc : classifyDirty classify (dirtyStates w1) [filename]
               = {| dirtyHelpersAndSources := [filename];
                    addedOrChangedTests := []; unlinkedTests := [] |}).
  { unfold classifyDirty. simpl. by rewrite Hig, Hte. }
  assert (Htracked : testDependencies (afterCleanup classify providers w1)
                     = testDependencies w1).
  { apply afterCleanup_without_unlinked. by rewrite Hpaths, Hc. }
  assert (Hdep : testFile ∈ dependentsOf filename (testDependencies w1)).
  { unfold w1. cbn [testDependencies set_dirtyStates].
    rewrite stateChange_accessed, Hig.
    apply updated_file_depends, withRewritten_incl. left. }
  pose proof (rerunDecision_helpers classify [filename] (dirtyStates w1)
                (testDependencies w1)) as Hdec.
  cbv zeta in Hdec. rewrite Hc in Hdec. cbn [dirtyHelpersAndSources
    addedOrChangedTests] in Hdec.
  rewrite bool_decide_eq_true_2 in Hdec.
  2:{ repeat constructor. intros Hnil. rewrite Hnil in Hdep.
      by apply elem_of_nil in Hdep. }
  specialize (Hdec ltac:(done)).
  eexists. split; [|split].
  - unfold runAfterChanges. rewrite Hpaths, Hc, Htracked, Hdec.
    apply dispatch_pair.
  - apply (proj2 (proj2 (spreadSet_spec _) testFile)).
    cbn [app fmap list_fmap concat]. rewrite app_nil_r. exact Hdep.
  - intros x Hx. pose proof (proj1 (proj2 (spreadSet_spec _) x) Hx) as Hx'.
    cbn [app fmap list_fmap concat] in Hx'. rewrite app_nil_r in Hx'.
    exact Hx'.
Qed.

Lemma accessed_file_reruns_its_test_witness :
  ∃ requested,
    runAfterChanges sampleClassify [] [] keepAll
      (set_dirtyStates [("snap/b.snap", "change")]
         (stateChange sampleClassify [] 1
            (AccessedSnapshots "test/b.js" "snap/b.snap") (sampleWatcher [])))
    = ((run [] keepAll requested false
          (afterCleanup sampleClassify []
             (set_dirtyStates [("snap/b.snap", "change")]
                (stateChange sampleClassify [] 1
                   (AccessedSnapshots "test/b.js" "snap/b.snap")
                   (sampleWatcher []))))).1,
       Some (run [] keepAll requested false
               (afterCleanup sampleClassify []
                  (set_dirtyStates [("snap/b.snap", "change")]
                     (stateChange sampleClassify [] 1
                        (AccessedSnapshots "test/b.js" "snap/b.snap")
                        (sampleWatcher []))))).2)
    ∧ "test/b.js" ∈ requested.
Proof.
  destruct (accessed_file_reruns_its_test sampleClassify [] [] keepAll 1
              "test/b.js" "snap/b.snap" "change" (sampleWatcher []))
    as (requested & Hrun & Hin & _).
  - reflexivity.
  - reflexivity.
  - simpl. apply not_elem_of_empty.
  - simpl. apply not_elem_of_empty.
  - intros main Hmain. by apply elem_of_nil in Hmain.
  - exists requested. split; [exact Hrun|exact Hin].
Defined.

(** ** Debouncer: delays and timeouts *)

Lemma debounceDelay_floor (delay : option Q) :
  (MIN_DEBOUNCE_DELAY <= debounceDelay delay)%Q.
Proof.
  unfold debounceDelay. destruct delay as [d|]; [|done].
  destruct (Qeq_bool d (inject_Z 0)); [done|].
  destruct (Qle_bool MIN_DEBOUNCE_DELAY d) eqn:E.
  - by apply Qle_bool_iff.
  - apply Qle_refl.
Qed.

Lemma debounceDelay_ceiling (d : Q) :
  (d <= INITIAL_DEBOUNCE_DELAY)%Q →
  (debounceDelay (Some (d / inject_Z 2)) <= INITIAL_DEBOUNCE_DELAY)%Q.
Proof.
  intros Hd. unfold debounceDelay.
  destruct (Qeq_bool _ _); [apply Qle_refl|].
  destruct (Qle_bool _ _); [|done].
  destruct d as [n p]. revert Hd.
  unfold Qle, Qdiv, Qmult, Qinv, INITIAL_DEBOUNCE_DELAY, inject_Z. simpl.
  lia.
Qed.

Lemma expire_delays (t : nat) (l : list Timeout) :
  timeout_delay <$>
    ((λ to, if decide (timeout_id to = t ∧ timeout_phase to = Scheduled)
            then {| timeout_id := t; timeout_delay := timeout_delay to;
                    timeout_phase := AwaitingBusy |}
            else to) <$> l)
  = timeout_delay <$> l.
Proof.
  induction l as [|to l IH]; [done|]. rewrite !fmap_cons, IH. f_equal.
  by case_decide.
Qed.

Lemma awaiting_Some (t : nat) (l : list Timeout) (to : Timeout) :
  awaiting t l = Some to →
  to ∈ l ∧ timeout_id to = t ∧ timeout_phase to = AwaitingBusy.
Proof.
  unfold awaiting. intros [Hin Hp]%find_some.
  apply list_elem_of_In in Hin. apply bool_decide_eq_true in Hp. tauto.
Qed.

Lemma Forall_timeout_delay (P : Q → Prop) (l : list Timeout) :
  Forall P (timeout_delay <$> l) → Forall (λ to, P (timeout_delay to)) l.
Proof.
  induction l as [|to l IH]; intros H; [constructor|].
  rewrite fmap_cons in H. apply Forall_cons in H as [Hto Hl].
  constructor; [done|by apply IH].
Qed.

Section DelayProperties.

Context (classify : string → Classification)
        (providers : list ProviderMain)
        (patternFilters : list string)
        (applyTestFileFilter : list string → list string → list string).

Lemma step_keeps_delays (r : Runtime) (e : Event) (P : Q → Prop) :
  (∀ delay, e = Debounce delay → P (debounceDelay delay)) →
  (∀ d, P d → P (debounceDelay (Some (d / inject_Z 2)%Q))) →
  Forall P (timeout_delay <$> pending r) →
  Forall P
    (timeout_delay <$>
       pending (step classify providers patternFilters applyTestFileFilter r e)).
Proof using Type.
  intros Hcall Hhalf Hr.
  assert (Hfilter : ∀ (Q : Timeout → Prop) `{!∀ to, Decision (Q to)},
            Forall P (timeout_delay <$> filter Q (pending r))).
  { intros Q ?. rewrite Forall_fmap in Hr. apply Forall_fmap.
    rewrite Forall_forall in Hr. apply Forall_forall.
    intros to [_ Hto]%list_elem_of_filter. by apply Hr. }
  assert (Hnew : ∀ (l : list Timeout) t d,
            P d → Forall P (timeout_delay <$> l) →
            Forall P (timeout_delay <$>
                        l ++ [{| timeout_id := t; timeout_delay := d;
                                 timeout_phase := Scheduled |}])).
  { intros l t d Hd Hl. rewrite fmap_app. apply Forall_app. split; [done|].
    by repeat constructor. }
  destruct e as [delay| |t|t|f]; cbn [step].
  - unfold debounce. destruct (timer (debouncer (this r))); simpl; [done|].
    apply Hnew; [by apply Hcall|done].
  - unfold cancel. destruct (timer (debouncer (this r))); simpl; [|done].
    apply Hfilter.
  - simpl. by rewrite expire_delays.
  - unfold resume. destruct (awaiting t (pending r)) as [to|] eqn:Eaw; [|done].
    destruct (decide (timer (debouncer (this r)) ≠ Some t)); [apply Hfilter|].
    destruct (again (debouncer (this r))).
    + unfold debounce.
      cbn [this debouncer set_debouncer timer pending].
      apply Hnew; [|apply Hfilter]. apply Hhalf.
      apply awaiting_Some in Eaw as [Hin _].
      rewrite Forall_fmap, Forall_forall in Hr. by apply Hr.
    + destruct (runAfterChanges _ _ _ _ _) as [w call]. simpl. apply Hfilter.
  - done.
Qed.

(** X17: whatever happens to a watcher whose debouncer starts without a
    timer, no timeout it sets is shorter than the minimal debounce delay,
    whatever delays [debounce] is called with; and when every call from
    outside passes no delay, none is longer than the initial delay. *)
Theorem timeouts_respect_the_floor (evs : list Event) (w : Watcher) :
  let r :=
    exec classify providers patternFilters applyTestFileFilter evs
      {| this := set_debouncer {| timer := None; again := false |} w;
         pending := []; allocated := 0%nat; effects := [] |} in
  Forall (λ to, (MIN_DEBOUNCE_DELAY <= timeout_delay to)%Q) (pending r)
  ∧ (Forall (λ e, ∀ d, e ≠ Debounce (Some d)) evs →
     Forall (λ to, (timeout_delay to <= INITIAL_DEBOUNCE_DELAY)%Q) (pending r)).
Proof using Type.
  cbv zeta.
  assert (Hgen : ∀ (P : Q → Prop) r0,
            Forall (λ e, ∀ delay, e = Debounce delay →
                                  P (debounceDelay delay)) evs →
            (∀ d, P d → P (debounceDelay (Some (d / inject_Z 2)%Q))) →
            Forall P (timeout_delay <$> pending r0) →
            Forall P
              (timeout_delay <$>
                 pending (exec classify providers patternFilters
                            applyTestFileFilter evs r0))).
  { intros P. induction evs as [|e evs IH]; intros r0 Hevs Hhalf Hr0; [done|].
    apply Forall_cons in Hevs as [He Hevs].
    simpl. apply IH; [done|done|]. by apply step_keeps_delays. }
  split.
  - pose proof (Hgen (λ d, (MIN_DEBOUNCE_DELAY <= d)%Q)
      {| this := set_debouncer {| timer := None; again := false |} w;
         pending := []; allocated := 0%nat; effects := [] |}) as H.
    apply (Forall_timeout_delay (λ d, (MIN_DEBOUNCE_DELAY <= d)%Q)), H.
    + apply Forall_forall. intros e _ delay _. apply debounceDelay_floor.
    + intros d _. apply debounceDelay_floor.
    + constructor.
  - intros Hevs.
    pose proof (Hgen (λ d, (d <= INITIAL_DEBOUNCE_DELAY)%Q)
      {| this := set_debouncer {| timer := None; again := false |} w;
         pending := []; allocated := 0%nat; effects := [] |}) as H.
    apply (Forall_timeout_delay (λ d, (d <= INITIAL_DEBOUNCE_DELAY)%Q)), H.
    + rewrite Forall_forall in Hevs. apply Forall_forall.
      intros e He delay ->. destruct delay as [d|]; [|apply Qle_refl].
      by destruct (Hevs _ He d).
    + intros d Hd. by apply debounceDelay_ceiling.
    + constructor.
Qed.

End DelayProperties.

Lemma timeouts_respect_the_floor_witness :
  Forall (λ to, (timeout_delay to <= INITIAL_DEBOUNCE_DELAY)%Q)
    (pending
       (exec sampleClassify [] [] keepAll
          [Debounce None; Debounce None; Expire 0; BusySettled 0]
          {| this := set_debouncer {| timer := None; again := false |}
                       (sampleWatcher []);
             pending := []; allocated := 0%nat; effects := [] |})).
Proof.
  apply (timeouts_respect_the_floor sampleClassify [] [] keepAll
           [Debounce None; Debounce None; Expire 0; BusySettled 0]
           (sampleWatcher [])).
  repeat constructor; intros d; discriminate.
Defined.


Lemma expire_ids (t : nat) (l : list Timeout) :
  timeout_id <$>
    ((λ to, if decide (timeout_id to = t ∧ timeout_phase to = Scheduled)
            then {| timeout_id := t; timeout_delay := timeout_delay to;
                    timeout_phase := AwaitingBusy |}
            else to) <$> l)
  = timeout_id <$> l.
Proof.
  induction l as [|to l IH]; [done|]. rewrite !fmap_cons, IH. f_equal.
  case_decide as H; [|done]. simpl. by destruct H.
Qed.

Lemma same_id_same_timeout (l : list Timeout) (x y : Timeout) :
  NoDup (timeout_id <$> l) → x ∈ l → y ∈ l →
  timeout_id x = timeout_id y → x = y.
Proof.
  induction l as [|a l IH]; intros Hnd Hx Hy Hid;
    [by apply elem_of_nil in Hx|].
  rewrite fmap_cons in Hnd. apply NoDup_cons in Hnd as [Ha Hnd].
  apply elem_of_cons in Hx as [->|Hx]; apply elem_of_cons in Hy as [->|Hy].
  - done.
  - destruct Ha. rewrite Hid. apply list_elem_of_fmap. eauto.
  - destruct Ha. rewrite <- Hid. apply list_elem_of_fmap. eauto.
  - by apply IH.
Qed.

Section TimeoutProperties.

Context (classify : string → Classification)
        (providers : list ProviderMain)
        (patternFilters : list string)
        (applyTestFileFilter : list string → list string → list string).

(** Identities are given once, and a timeout that has not expired is the one
    the debouncer holds. *)
Lemma step_keeps_one_scheduled (r : Runtime) (e : Event) :
  NoDup (timeout_id <$> pending r) →
  (∀ to, to ∈ pending r → (timeout_id to < allocated r)%nat) →
  (∀ to, to ∈ pending r → timeout_phase to = Scheduled →
         timer (debouncer (this r)) = Some (timeout_id to)) →
  let r' := step classify providers patternFilters applyTestFileFilter r e in
  NoDup (timeout_id <$> pending r')
  ∧ (∀ to, to ∈ pending r' → (timeout_id to < allocated r')%nat)
  ∧ (∀ to, to ∈ pending r' → timeout_phase to = Scheduled →
           timer (debouncer (this r')) = Some (timeout_id to)).
Proof using Type.
  intros Hnd Hlt Hheld.
  assert (Hfilter : ∀ (Q : Timeout → Prop) `{!∀ to, Decision (Q to)},
            NoDup (timeout_id <$> filter Q (pending r))).
  { intros Q ?. apply (sublist_NoDup _ (timeout_id <$> pending r)); [done|].
    apply fmap_sublist, sublist_filter. }
  assert (Hsnoc : ∀ (Q : Timeout → Prop) `{!∀ to, Decision (Q to)} d,
            (∀ to, to ∈ filter Q (pending r) →
                   timeout_phase to ≠ Scheduled) →
            let l := filter Q (pending r)
                     ++ [{| timeout_id := allocated r; timeout_delay := d;
                            timeout_phase := Scheduled |}] in
            NoDup (timeout_id <$> l)
            ∧ (∀ to, to ∈ l → (timeout_id to < S (allocated r))%nat)
            ∧ (∀ to, to ∈ l → timeout_phase to = Scheduled →
                     Some (allocated r) = Some (timeout_id to))).
  { intros Q ? d Hnone l. subst l. split; [|split].
    - rewrite fmap_app. apply NoDup_app. split; [apply Hfilter|].
      split; [|apply NoDup_singleton].
      intros x (to & -> & [_ Hto]%list_elem_of_filter)%list_elem_of_fmap
        Hx%list_elem_of_singleton.
      simpl in Hx. specialize (Hlt to Hto). lia.
    - intros to [[_ Hto]%list_elem_of_filter| ->%list_elem_of_singleton]
        %elem_of_app; [specialize (Hlt to Hto); lia|simpl; lia].
    - intros to [Hto| ->%list_elem_of_singleton]%elem_of_app Hs; [|done].
      by destruct (Hnone to Hto). }
  destruct e as [delay| |t|t|f]; cbn [step].
  - unfold debounce. destruct (timer (debouncer (this r))) as [t|] eqn:Et;
      cbn [this pending allocated debouncer set_debouncer timer].
    + rewrite ?Et. split; [done|split; done].
    + pose proof (Hsnoc (λ _, True) _ (debounceDelay delay)) as H.
      rewrite filter_all in H by (by apply Forall_forall).
      apply H. intros to Hto Hs. specialize (Hheld to Hto Hs). congruence.
  - unfold cancel. destruct (timer (debouncer (this r))) as [t|] eqn:Et;
      cbn [this pending allocated debouncer set_debouncer timer];
      [|rewrite Et; split; [done|split; done]].
    split; [apply Hfilter|]. split.
    + intros to [_ Hto]%list_elem_of_filter. by apply Hlt.
    + intros to [Hn Hto]%list_elem_of_filter Hs.
      specialize (Hheld to Hto Hs). destruct Hn. split; [congruence|done].
  - cbn [expire this pending allocated]. rewrite expire_ids.
    split; [done|]. split.
    + intros to' (to & -> & Hto)%list_elem_of_fmap.
      case_decide as H; [simpl; destruct H as [<- _]|]; by apply Hlt.
    + intros to' (to & -> & Hto)%list_elem_of_fmap Hs.
      case_decide as H; [done|]. by apply Hheld.
  - unfold resume. destruct (awaiting t (pending r)) as [to|] eqn:Eaw;
      [|split; [done|split; done]].
    apply awaiting_Some in Eaw as (Hto & Hid & Hph).
    destruct (decide (timer (debouncer (this r)) ≠ Some t)) as [Hne|Heq].
    { cbn [this pending allocated]. split; [apply Hfilter|]. split.
      - intros to' [_ Hto']%list_elem_of_filter. by apply Hlt.
      - intros to' [_ Hto']%list_elem_of_filter Hs. by apply Hheld. }
    apply dec_stable in Heq.
    assert (Hnone : ∀ to', to' ∈ filter
                      (λ to, ¬ (timeout_id to = t
                                ∧ timeout_phase to = AwaitingBusy))
                      (pending r) →
                    timeout_phase to' ≠ Scheduled).
    { intros to' [_ Hto']%list_elem_of_filter Hs.
      pose proof (Hheld to' Hto' Hs) as Hh. rewrite Heq in Hh.
      assert (to' = to).
      { apply (same_id_same_timeout (pending r)); [done..|]. congruence. }
      subst to'. congruence. }
    destruct (again (debouncer (this r))).
    + unfold debounce.
      cbn [this pending allocated debouncer set_debouncer timer].
      by apply Hsnoc.
    + destruct (runAfterChanges _ _ _ _ _) as [w call].
      cbn [this pending allocated debouncer set_debouncer timer].
      split; [apply Hfilter|]. split.
      * intros to' [_ Hto']%list_elem_of_filter. by apply Hlt.
      * intros to' Hto' Hs. by destruct (Hnone to' Hto').
  - cbn [this pending allocated debouncer set_debouncer].
    split; [done|split; done].
Qed.

(** X18: whatever happens to a watcher whose debouncer starts without a
    timer, at most one of the timeouts it has set is still to expire, and it
    is the one the debouncer holds: while the debouncer holds none, every
    timeout left has expired and its callback is waiting for the busy
    promise. *)
Theorem one_timeout_is_scheduled (evs : list Event) (w : Watcher) :
  let r :=
    exec classify providers patternFilters applyTestFileFilter evs
      {| this := set_debouncer {| timer := None; again := false |} w;
         pending := []; allocated := 0%nat; effects := [] |} in
  (length (filter (λ to, timeout_phase to = Scheduled) (pending r)) ≤ 1)%nat
  ∧ Forall (λ to, timeout_phase to = Scheduled →
                  timer (debouncer (this r)) = Some (timeout_id to))
      (pending r)
  ∧ (timer (debouncer (this r)) = None →
     Forall (λ to, timeout_phase to = AwaitingBusy) (pending r)).
Proof using Type.
  cbv zeta.
  assert (Hgen : ∀ r0,
    NoDup (timeout_id <$> pending r0) →
    (∀ to, to ∈ pending r0 → (timeout_id to < allocated r0)%nat) →
    (∀ to, to ∈ pending r0 → timeout_phase to = Scheduled →
           timer (debouncer (this r0)) = Some (timeout_id to)) →
    let r := exec classify providers patternFilters applyTestFileFilter
               evs r0 in
    NoDup (timeout_id <$> pending r)
    ∧ (∀ to, to ∈ pending r → timeout_phase to = Scheduled →
             timer (debouncer (this r)) = Some (timeout_id to))).
  { induction evs as [|e evs IH]; intros r0 H1 H2 H3; [done|].
    destruct (step_keeps_one_scheduled r0 e H1 H2 H3) as (? & ? & ?).
    simpl. by apply IH. }
  destruct (Hgen
    {| this := set_debouncer {| timer := None; again := false |} w;
       pending := []; allocated := 0%nat; effects := [] |}) as [Hnd Hheld].
  { constructor. }
  { intros to Hto. by apply elem_of_nil in Hto. }
  { intros to Hto. by apply elem_of_nil in Hto. }
  set (r := exec _ _ _ _ _ _) in *. split; [|split].
  - destruct (filter (λ to, timeout_phase to = Scheduled) (pending r))
      as [|a [|b rest]] eqn:E; simpl; [lia|lia|].
    assert (Ha : a ∈ filter (λ to, timeout_phase to = Scheduled) (pending r))
      by (rewrite E; left).
    assert (Hb : b ∈ filter (λ to, timeout_phase to = Scheduled) (pending r))
      by (rewrite E; right; left).
    apply list_elem_of_filter in Ha as [Hsa Ha].
    apply list_elem_of_filter in Hb as [Hsb Hb].
    assert (Hab : a = b).
    { apply (same_id_same_timeout (pending r)); [done..|].
      pose proof (Hheld a Ha Hsa). pose proof (Hheld b Hb Hsb). congruence. }
    subst b.
    assert (Hdup : NoDup (filter (λ to, timeout_phase to = Scheduled)
                            (pending r))).
    { apply NoDup_filter. by apply (NoDup_fmap_1 timeout_id). }
    rewrite E in Hdup. apply NoDup_cons in Hdup as [Hdup _].
    destruct Hdup. left.
  - apply Forall_forall. intros to Hto Hs. by apply Hheld.
  - intros Hnone. apply Forall_forall. intros to Hto.
    destruct (timeout_phase to) eqn:Ep; [|done].
    specialize (Hheld to Hto Ep). congruence.
Qed.

End TimeoutProperties.

Lemma one_timeout_is_scheduled_witness :
  Forall (λ to, timeout_phase to = AwaitingBusy)
    (pending
       (exec sampleClassify [] [] keepAll [Debounce None; Expire 0; Cancel]
          {| this := set_debouncer {| timer := None; again := false |}
                       (sampleWatcher []);
             pending := []; allocated := 0%nat; effects := [] |})).
Proof.
  apply (one_timeout_is_scheduled sampleClassify [] [] keepAll
           [Debounce None; Expire 0; Cancel] (sampleWatcher [])).
  reflexivity.
Defined.

Section BurstProperties.

Context (classify : string → Classification)
        (providers : list ProviderMain)
        (patternFilters : list string)
        (applyTestFileFilter : list string → list string → list string).

Lemma exec_debounces_held (ds : list (option Q)) (r : Runtime) (t : nat) :
  timer (debouncer (this r)) = Some t →
  exec classify providers patternFilters applyTestFileFilter
    (Debounce <$> ds) r
  = match ds with
    | [] => r
    | _ => {| this := set_debouncer {| timer := Some t; again := true |}
                        (this r);
              pending := pending r; allocated := allocated r;
              effects := effects r |}
    end.
Proof using Type.
  revert r. induction ds as [|d ds IH]; intros r Ht; [done|].
  rewrite fmap_cons. cbn [exec fold_left step].
  fold (exec classify providers patternFilters applyTestFileFilter
          (Debounce <$> ds) (debounce d r)).
  assert (Hd : debounce d r
               = {| this := set_debouncer {| timer := Some t; again := true |}
                              (this r);
                    pending := pending r; allocated := allocated r;
                    effects := effects r |}).
  { unfold debounce. by rewrite Ht. }
  rewrite Hd. rewrite IH by reflexivity. by destruct ds.
Qed.

(** X19: a burst of [debounce] calls on an idle debouncer sets one timeout,
    with the delay of the first call.  A single call lets the callback run
    [runAfterChanges] when the busy promise settles.  Further calls in the
    meantime make that callback run nothing and keep the dirty states; it sets
    a second timeout with half the delay, not below the minimum, and the
    callback of that one runs [runAfterChanges], once. *)
Theorem burst_is_handled_once (d : option Q) (ds : list (option Q))
    (w : Watcher) :
  let idle := set_debouncer {| timer := None; again := false |} w in
  let r1 := exec classify providers patternFilters applyTestFileFilter
              (Debounce <$> d :: ds)
              {| this := idle; pending := []; allocated := 0%nat;
                 effects := [] |} in
  let r2 := exec classify providers patternFilters applyTestFileFilter
              [Expire 0; BusySettled 0] r1 in
  let r3 := exec classify providers patternFilters applyTestFileFilter
              [Expire 1; BusySettled 1] r2 in
  pending r1 = [{| timeout_id := 0%nat; timeout_delay := debounceDelay d;
                   timeout_phase := Scheduled |}]
  ∧ (ds = [] →
     r2 = {| this := set_debouncer {| timer := None; again := false |}
                       (runAfterChanges classify providers patternFilters
                          applyTestFileFilter (this r1)).1;
             pending := []; allocated := 1%nat;
             effects :=
               [RanAfterChanges 0
                  (runAfterChanges classify providers patternFilters
                     applyTestFileFilter (this r1)).2] |})
  ∧ (ds ≠ [] →
     r2 = {| this := set_debouncer {| timer := Some 1%nat; again := false |} w;
             pending :=
               [{| timeout_id := 1%nat;
                   timeout_delay :=
                     debounceDelay (Some (debounceDelay d / inject_Z 2)%Q);
                   timeout_phase := Scheduled |}];
             allocated := 2%nat; effects := [Restarted 0] |}
     ∧ r3 = {| this := set_debouncer {| timer := None; again := false |}
                         (runAfterChanges classify providers patternFilters
                            applyTestFileFilter (this r2)).1;
               pending := []; allocated := 2%nat;
               effects :=
                 [RanAfterChanges 1
                    (runAfterChanges classify providers patternFilters
                       applyTestFileFilter (this r2)).2;
                  Restarted 0] |}).
Proof using Type.
  intros idle r1 r2 r3.
  set (r0 := {| this := set_debouncer {| timer := Some 0%nat; again := false |}
                          idle;
                pending := [{| timeout_id := 0%nat;
                               timeout_delay := debounceDelay d;
                               timeout_phase := Scheduled |}];
                allocated := 1%nat; effects := [] |}).
  assert (Hr1 : r1 = match ds with
                     | [] => r0
                     | _ => {| this := set_debouncer
                                         {| timer := Some 0%nat; again := true |}
                                         (this r0);
                               pending := pending r0; allocated := allocated r0;
                               effects := effects r0 |}
                     end).
  { unfold r1. rewrite fmap_cons. cbn [exec fold_left step].
    fold (exec classify providers patternFilters applyTestFileFilter
            (Debounce <$> ds)
            (debounce d {| this := idle; pending := []; allocated := 0%nat;
                           effects := [] |})).
    change (debounce d {| this := idle; pending := []; allocated := 0%nat;
                          effects := [] |}) with r0.
    by apply exec_debounces_held. }
  split; [rewrite Hr1; by destruct ds|]. split.
  - intros ->. unfold r2. rewrite Hr1. unfold r0, idle.
    cbn -[runAfterChanges debounceDelay]. unfold resume, expire, awaiting.
    cbn -[runAfterChanges debounceDelay].
    by destruct (runAfterChanges _ _ _ _ _).
  - intros Hne. destruct ds as [|d' ds]; [done|].
    assert (Hr2 : r2
      = {| this := set_debouncer {| timer := Some 1%nat; again := false |} w;
           pending :=
             [{| timeout_id := 1%nat;
                 timeout_delay :=
                   debounceDelay (Some (debounceDelay d / inject_Z 2)%Q);
                 timeout_phase := Scheduled |}];
           allocated := 2%nat; effects := [Restarted 0] |}).
    { unfold r2. rewrite Hr1. unfold r0, idle.
      cbn -[runAfterChanges debounceDelay Qdiv].
      unfold resume, expire, awaiting, debounce.
      cbn -[runAfterChanges debounceDelay Qdiv]. reflexivity. }
    split; [exact Hr2|]. unfold r3. rewrite Hr2.
    cbn -[runAfterChanges debounceDelay Qdiv].
    unfold resume, expire, awaiting.
    cbn -[runAfterChanges debounceDelay Qdiv].
    by destruct (runAfterChanges _ _ _ _ _).
Qed.

End BurstProperties.

Lemma burst_is_handled_once_witness :
  effects
    (exec sampleClassify [] [] keepAll [Expire 0; BusySettled 0]
       (exec sampleClassify [] [] keepAll (Debounce <$> [None; None; None])
          {| this := set_debouncer {| timer := None; again := false |}
                       (sampleWatcher [("test/a.js", "change")]);
             pending := []; allocated := 0%nat; effects := [] |}))
  = [Restarted 0].
Proof.
  pose proof (burst_is_handled_once sampleClassify [] [] keepAll
                None [None; None]
                (sampleWatcher [("test/a.js", "change")])) as H.
  cbv zeta in H. destruct H as (_ & _ & Hmore).
  destruct Hmore as [-> _]; [discriminate|]. reflexivity.
Defined.

(** ** The [plan] generator: signals and instructions *)

Lemma callSignalChanged_changed (value : list string) (p : Plan) :
  let p' := planOf (callSignalChanged value p) in
  changed p'
  = (if signalChanged p
     then match changed p with
          | Unsettled => Resolved value
          | Resolved v => Resolved v
          end
     else changed p)
  ∧ firstRun p' = firstRun p ∧ runAll p' = runAll p
  ∧ updateSnapshots p' = updateSnapshots p
  ∧ signalChanged p' = signalChanged p
  ∧ dirtyPaths p' = dirtyPaths p
  ∧ plan_temporaryFiles p' = plan_temporaryFiles p
  ∧ plan_touchedFiles p' = plan_touchedFiles p.
Proof.
  unfold callSignalChanged. destruct (signalChanged p) eqn:E; simpl;
    repeat split; done.
Qed.

Section PlanProperties.

Context (classify : string → Classification)
        (isIgnored : string → bool)
        (providers : list ProviderMain)
        (patternFilters : list string)
        (applyTestFileFilter : list string → list string → list string).

Lemma planStdinData_fields (data : string) (p : Plan) :
  let p' := planOf (planStdinData data p) in
  firstRun p' = firstRun p
  ∧ signalChanged p' = signalChanged p
  ∧ (∀ v, changed p = Resolved v → changed p' = Resolved v)
  ∧ updateSnapshots p'
    = updateSnapshots p || bool_decide (toLowerCase (trim data) = "u").
Proof using Type.
  unfold planStdinData, callSignalChanged. cbn [runAll updateSnapshots
    signalChanged changed].
  destruct (runAll p || bool_decide (toLowerCase (trim data) = "r")
            || (updateSnapshots p
                || bool_decide (toLowerCase (trim data) = "u")));
    [destruct (signalChanged p) eqn:Es|];
    cbn [planOf firstRun signalChanged changed updateSnapshots];
    (split; [done|]); (split; [done|]); (split; [|done]);
    intros v Hv; by rewrite ?Hv.
Qed.

Lemma planDebounced_fields (p : Plan) :
  let p' := planOf (planDebounced classify isIgnored providers patternFilters
                      applyTestFileFilter p) in
  firstRun p' = firstRun p
  ∧ signalChanged p' = signalChanged p
  ∧ (∀ v, changed p = Resolved v → changed p' = Resolved v)
  ∧ updateSnapshots p' = updateSnapshots p.
Proof using Type.
  unfold planDebounced, callSignalChanged.
  destruct (bool_decide (length (dirtyPaths p) = 0%nat)); [done|].
  cbn [signalChanged changed].
  match goal with
  | |- context [if bool_decide (0 < length ?l)%nat then _ else _] =>
      destruct (bool_decide (0 < length l)%nat)
  end; [destruct (signalChanged p) eqn:Es|];
    cbn [planOf firstRun signalChanged changed updateSnapshots];
    (split; [done|]); (split; [done|]); (split; [|done]);
    intros v Hv; by rewrite ?Hv.
Qed.

(** What a listener leaves of the variables the loop reads. *)
Lemma planStep_listener (p : Plan) (ys : list Instructions) (ev : PlanEvent) :
  ev ≠ OnNext →
  let acc := planStep classify isIgnored providers patternFilters
               applyTestFileFilter (p, ys) ev in
  acc.2 = ys
  ∧ firstRun acc.1 = firstRun p
  ∧ signalChanged acc.1 = signalChanged p
  ∧ (∀ v, changed p = Resolved v → changed acc.1 = Resolved v)
  ∧ (updateSnapshots p = true ∨ ev = OnStdin "u" →
     updateSnapshots acc.1 = true).
Proof using Type.
  intros Hev. destruct ev as [data|filename| |cf tf|f s d|]; [..|done];
    cbn [planStep fst snd].
  - pose proof (planStdinData_fields data p) as H. cbv zeta in H.
    destruct H as (Hf & Hs & Hc & Hu). rewrite Hf, Hs, Hu.
    split; [done|]. split; [done|]. split; [done|]. split; [done|].
    intros [->|[= ->]]; [done|]. apply orb_true_r.
  - split; [done|]. split; [done|]. split; [done|]. split; [done|].
    by intros [?|?].
  - pose proof (planDebounced_fields p) as H. cbv zeta in H.
    destruct H as (Hf & Hs & Hc & Hu). rewrite Hf, Hs, Hu.
    split; [done|]. split; [done|]. split; [done|]. split; [done|].
    by intros [?|?].
  - split; [done|]. split; [done|]. split; [done|]. split; [done|].
    by intros [?|?].
  - split; [done|]. split; [done|]. split; [done|]. split; [done|].
    by intros [?|?].
Qed.

(** X20: the first signal wins.  Once [changed] is resolved, whatever the
    listeners do before the loop takes its next turn, that turn yields the
    files the promise was resolved with; a [u] typed in the meantime still
    turns [updateSnapshots] on for them. *)
Theorem signalled_files_are_kept (evs : list PlanEvent) (p : Plan)
    (ys : list Instructions) (v : list string) :
  Forall (λ ev, ev ≠ OnNext) evs →
  changed p = Resolved v →
  let p' := (fold_left
               (planStep classify isIgnored providers patternFilters
                  applyTestFileFilter) evs (p, ys)).1 in
  ∃ ins next,
    planNext p' = Some (ins, next)
    ∧ ins_files ins = v
    ∧ ins_firstRun ins = firstRun p
    ∧ (updateSnapshots p = true ∨ OnStdin "u" ∈ evs →
       ins_updateSnapshots ins = true).
Proof using Type.
  intros Hevs Hv. cbv zeta.
  assert (Hgen : ∀ p0 ys0,
    changed p0 = Resolved v →
    let p' := (fold_left
                 (planStep classify isIgnored providers patternFilters
                    applyTestFileFilter) evs (p0, ys0)).1 in
    changed p' = Resolved v ∧ firstRun p' = firstRun p0
    ∧ (updateSnapshots p0 = true ∨ OnStdin "u" ∈ evs →
       updateSnapshots p' = true)).
  { induction evs as [|ev evs IH]; intros p0 ys0 Hp0.
    - simpl. split; [done|]. split; [done|]. intros [?|Hin]; [done|].
      by apply elem_of_nil in Hin.
    - apply Forall_cons in Hevs as [Hev Hevs]. cbn [fold_left].
      pose proof (planStep_listener p0 ys0 ev Hev) as Hstep.
      cbv zeta in Hstep. destruct Hstep as (_ & Hf & _ & Hc & Hu).
      destruct (planStep _ _ _ _ _ (p0, ys0) ev) as [p1 ys1] eqn:E.
      cbn [fst snd] in *.
      destruct (IH Hevs p1 ys1 (Hc v Hp0)) as (Hc' & Hf' & Hu').
      split; [done|]. split; [congruence|].
      intros [Hup|Hin]; apply Hu'; [left; apply Hu; by left|].
      apply elem_of_cons in Hin as [<-|Hin]; [|by right]. left.
      apply Hu. by right. }
  destruct (Hgen p ys Hv) as (Hc & Hf & Hu).
  unfold planNext. rewrite Hc. do 2 eexists. split; [reflexivity|].
  cbn [ins_files ins_firstRun ins_updateSnapshots].
  split; [done|]. split; [done|]. exact Hu.
Qed.

(** X21: without pattern filters, the debounce callback, waiting for a
    change, passes on exactly the dirty paths that are test files and are
    neither temporary, touched, ignored by a provider nor ignored by the
    matcher; a batch without such a path, as every batch of helper or source
    files, signals nothing.  Either way a non-empty batch empties the dirty
    paths, the touched files and the temporary files. *)
Theorem plan_passes_on_dirty_tests (p : Plan) :
  signalChanged p = true → changed p = Unsettled → dirtyPaths p ≠ [] →
  let p' := planOf (planDebounced classify isIgnored providers []
                      applyTestFileFilter p) in
  let kept path :=
    path ∈ dirtyPaths p ∧ isTest (classify path) = true
    ∧ (path ∉ plan_temporaryFiles p) ∧ (path ∉ plan_touchedFiles p)
    ∧ (∀ main, main ∈ providers → ignoreChange main path = false)
    ∧ isIgnored path = false in
  dirtyPaths p' = [] ∧ plan_touchedFiles p' = ∅ ∧ plan_temporaryFiles p' = ∅
  ∧ match changed p' with
    | Unsettled => ∀ path, ¬ kept path
    | Resolved l => l ≠ [] ∧ ∀ path, path ∈ l ↔ kept path
    end.
Proof using Type.
  intros Hs Hc Hne p' kept.
  assert (Hkeeps : ∀ path,
    path ∈ filter (λ path, planKeeps classify isIgnored providers p path)
             (dirtyPaths p) ↔ kept path).
  { intros path. rewrite list_elem_of_filter. unfold kept, planKeeps.
    destruct (decide (path ∈ plan_temporaryFiles p)) as [?|?];
      [simpl; tauto|].
    destruct (decide (path ∈ plan_touchedFiles p)) as [?|?];
      [simpl; tauto|].
    destruct (existsb (λ main, ignoreChange main path) providers) eqn:Ee.
    { simpl. split; [tauto|]. intros (_ & _ & _ & _ & Hp & _).
      apply existsb_exists in Ee as (main & Hm & Hi).
      rewrite (Hp main) in Hi; [done|by apply list_elem_of_In]. }
    assert (Hp : ∀ main, main ∈ providers → ignoreChange main path = false).
    { intros main Hm. destruct (ignoreChange main path) eqn:Ei; [|done].
      assert (existsb (λ main, ignoreChange main path) providers = true)
        as Hex; [|congruence].
      apply existsb_exists. exists main.
      split; [by apply list_elem_of_In|done]. }
    destruct (isIgnored path); [simpl; split; [tauto|]; intros (_&_&_&_&_&?);
      done|].
    destruct (isTest (classify path)); simpl; [tauto|].
    split; [tauto|]. intros (_ & ? & _). done. }
  subst p'. unfold planDebounced.
  rewrite bool_decide_eq_false_2 by (destruct (dirtyPaths p); simpl;
    [done|lia]).
  rewrite (bool_decide_eq_false_2 (0 < length [])%nat) by (simpl; lia).
  set (testFiles := filter _ (dirtyPaths p)) in *.
  destruct testFiles as [|f fs] eqn:Et.
  - rewrite (bool_decide_eq_false_2 (0 < length [])%nat) by (simpl; lia).
    cbn [planOf dirtyPaths plan_touchedFiles plan_temporaryFiles changed].
    rewrite Hc. split; [done|]. split; [done|]. split; [done|].
    intros path Hk. apply Hkeeps in Hk. by apply elem_of_nil in Hk.
  - rewrite bool_decide_eq_true_2 by (simpl; lia).
    unfold callSignalChanged. cbn [signalChanged]. rewrite Hs.
    cbn [planOf dirtyPaths plan_touchedFiles plan_temporaryFiles changed].
    rewrite Hc. split; [done|]. split; [done|]. split; [done|].
    split; [done|]. exact Hkeeps.
Qed.

(** X22: in any session of the generator the first instructions yielded,
    if any, ask for all tests and are the only ones flagged as the first run;
    no instructions ever report previous failures or ask to run only
    exclusive tests. *)
Theorem only_the_first_run_is_first (evs : list PlanEvent) :
  let ys := (planSession classify isIgnored providers patternFilters
               applyTestFileFilter evs).2 in
  Forall (λ ins, ins_previousFailures ins = 0
                 ∧ ins_runOnlyExclusive ins = false) ys
  ∧ match ys with
    | [] => True
    | first :: rest =>
        ins_firstRun first = true ∧ ins_files first = []
        ∧ Forall (λ ins, ins_firstRun ins = false) rest
    end.
Proof using Type.
  cbv zeta. unfold planSession.
  assert (Hgen : ∀ p ys,
    Forall (λ ins, ins_previousFailures ins = 0
                   ∧ ins_runOnlyExclusive ins = false) ys →
    (ys = [] ∧ firstRun p = true ∧ changed p = Resolved []
     ∨ firstRun p = false
       ∧ ∃ first rest, ys = first :: rest
           ∧ ins_firstRun first = true ∧ ins_files first = []
           ∧ Forall (λ ins, ins_firstRun ins = false) rest) →
    let ys' := (fold_left
                  (planStep classify isIgnored providers patternFilters
                     applyTestFileFilter) evs (p, ys)).2 in
    Forall (λ ins, ins_previousFailures ins = 0
                   ∧ ins_runOnlyExclusive ins = false) ys'
    ∧ match ys' with
      | [] => True
      | first :: rest =>
          ins_firstRun first = true ∧ ins_files first = []
          ∧ Forall (λ ins, ins_firstRun ins = false) rest
      end).
  { induction evs as [|ev evs IH]; intros p ys Hall Hshape.
    - simpl. split; [done|].
      destruct Hshape as [(-> & _)|(_ & first & rest & -> & ?)]; done.
    - cbn [fold_left].
      assert (Hcase : ev = OnNext ∨ ev ≠ OnNext)
        by (destruct ev; (by left) || (by right)).
      destruct Hcase as [->|Hev].
      + cbn [planStep]. unfold planNext.
        destruct (changed p) as [|value] eqn:Ec;
          [apply IH; [done|]; rewrite Ec; exact Hshape|].
        apply IH.
        * apply Forall_app. split; [done|]. by repeat constructor.
        * right. split; [done|].
          destruct Hshape as [(-> & Hf & Hc)|(Hf & first & rest & -> & H1
                                              & H2 & H3)].
          -- inversion Hc; subst.
             eexists _, []. simpl. split; [done|]. split; [done|].
             split; [done|constructor].
          -- exists first, (rest ++ [{| ins_files := value;
                                        ins_firstRun := firstRun p;
                                        ins_previousFailures := 0;
                                        ins_runOnlyExclusive := false;
                                        ins_updateSnapshots :=
                                          updateSnapshots p |}]).
             split; [done|]. split; [done|]. split; [done|].
             apply Forall_app. split; [done|]. by repeat constructor.
      + pose proof (planStep_listener p ys ev Hev) as Hstep.
        cbv zeta in Hstep. destruct Hstep as (Hys & Hf & _ & Hc & _).
        destruct (planStep _ _ _ _ _ (p, ys) ev) as [p1 ys1].
        cbn [fst snd] in *. subst ys1. apply IH; [done|].
        destruct Hshape as [(-> & Hf0 & Hc0)|(Hf0 & Hrest)].
        * left. split; [done|]. split; [congruence|by apply Hc].
        * right. split; [congruence|done]. }
  apply Hgen; [constructor|]. left. done.
Qed.

End PlanProperties.

Lemma signalled_files_are_kept_witness :
  ∃ ins next,
    planNext
      (fold_left (planStep sampleClassify ignoreNothing [] [] keepAll)
         [OnWatch "test/a.js"; OnTimeout; OnStdin "u"; OnWatch "test/b.js";
          OnTimeout]
         (reset planStart, [])).1
    = Some (ins, next)
    ∧ ins_files ins = ["test/a.js"] ∧ ins_updateSnapshots ins = true.
Proof.
  destruct (signalled_files_are_kept sampleClassify ignoreNothing [] [] keepAll
              [OnStdin "u"; OnWatch "test/b.js"; OnTimeout]
              (fold_left (planStep sampleClassify ignoreNothing [] [] keepAll)
                 [OnWatch "test/a.js"; OnTimeout] (reset planStart, [])).1
              [] ["test/a.js"])
    as (ins & next & Hnext & Hfiles & _ & Hupdate).
  - repeat constructor; discriminate.
  - vm_compute. reflexivity.
  - exists ins, next. split; [exact Hnext|]. split; [exact Hfiles|].
    apply Hupdate. right. left.
Defined.

Lemma plan_passes_on_dirty_tests_witness :
  changed
    (planOf (planDebounced sampleClassify ignoreNothing [] [] keepAll
               (planWatched "src/helper.js" (reset planStart))))
  = Unsettled.
Proof.
  pose proof (plan_passes_on_dirty_tests sampleClassify ignoreNothing [] keepAll
                (planWatched "src/helper.js" (reset planStart))) as H.
  cbv zeta in H. destruct H as (_ & _ & _ & H);
    [reflexivity|reflexivity|discriminate|].
  destruct (changed _) as [|l]; [reflexivity|].
  destruct H as [Hne Hl]. destruct l as [|x l]; [done|].
  destruct (proj1 (Hl x)) as (Hx & Ht & _); [left|].
  vm_compute in Hx. apply list_elem_of_singleton in Hx. subst x.
  discriminate Ht.
Defined.

(** ** ControlChannel: what counts as a command *)

Lemma append_cons (c : ascii) (a b : string) :
  String c a +:+ b = String c (a +:+ b).
Proof. reflexivity. Qed.

Lemma append_nil_r (s : string) : s +:+ "" = s.
Proof.
  induction s as [|c s IH]; [done|]. by rewrite append_cons, IH.
Qed.

Lemma append_assoc (a b c : string) : (a +:+ b) +:+ c = a +:+ (b +:+ c).
Proof.
  induction a as [|x a IH]; [done|]. by rewrite !append_cons, IH.
Qed.

Lemma rev_app_append (s1 s2 : string) :
  String.rev_app s1 s2 = String.rev s1 +:+ s2.
Proof.
  unfold String.rev. revert s2. induction s1 as [|c s1 IH]; intros s2; [done|].
  cbn [String.rev_app].
  rewrite (IH (String c s2)), (IH (String c "")), append_assoc. done.
Qed.

Lemma rev_cons (c : ascii) (s : string) :
  String.rev (String c s) = String.rev s +:+ String c "".
Proof. unfold String.rev at 1. cbn [String.rev_app]. apply rev_app_append. Qed.

Lemma rev_append (a b : string) :
  String.rev (a +:+ b) = String.rev b +:+ String.rev a.
Proof.
  induction a as [|c a IH].
  - symmetry. apply append_nil_r.
  - by rewrite append_cons, !rev_cons, IH, append_assoc.
Qed.

Lemma rev_rev (s : string) : String.rev (String.rev s) = s.
Proof.
  induction s as [|c s IH]; [done|].
  rewrite rev_cons, rev_append, IH. done.
Qed.

Lemma trimStart_blank_cons (c : ascii) (s : string) :
  trimStart (String c s) = "" ↔ isWhiteSpace c = true ∧ trimStart s = "".
Proof.
  simpl. destruct (isWhiteSpace c); [tauto|]. split; [done|]. by intros [? _].
Qed.

Lemma trimStart_blank_append (a b : string) :
  trimStart a = "" → trimStart (a +:+ b) = trimStart b.
Proof.
  induction a as [|c a IH]; [done|].
  intros [Hc Ha]%trimStart_blank_cons.
  rewrite append_cons. cbn [trimStart]. rewrite Hc. by apply IH.
Qed.

Lemma trimStart_blank_rev (s : string) :
  trimStart s = "" → trimStart (String.rev s) = "".
Proof.
  induction s as [|c s IH]; [done|].
  intros [Hc Hs]%trimStart_blank_cons.
  rewrite rev_cons, trimStart_blank_append by auto. simpl. by rewrite Hc.
Qed.

Lemma trimStart_length (s : string) :
  (String.length (trimStart s) <= String.length s)%nat.
Proof.
  induction s as [|x s IH]; cbn [trimStart String.length]; [lia|].
  destruct (isWhiteSpace x); cbn [String.length]; lia.
Qed.

(** A text whose first and last characters are no white space comes back
    from [trim] when it is padded with white space. *)
Lemma trim_padded (pre body post : string) :
  trimStart pre = "" → trimStart post = "" →
  trimStart body = body → trimStart (String.rev body) = String.rev body →
  trim (pre +:+ body +:+ post) = body.
Proof.
  intros Hpre Hpost Hfirst Hlast. unfold trim, trimEnd.
  rewrite trimStart_blank_append by done.
  assert (Hhead : trimStart (body +:+ post) = body +:+ post
                  ∨ body = "").
  { destruct body as [|c body]; [by right|]. left.
    rewrite append_cons. cbn [trimStart] in *.
    destruct (isWhiteSpace c) eqn:Ec; [|done].
    exfalso. pose proof (trimStart_length body) as Hlen.
    rewrite Hfirst in Hlen. cbn [String.length] in Hlen. lia. }
  destruct Hhead as [->| ->].
  - rewrite rev_append, trimStart_blank_append
      by (by apply trimStart_blank_rev).
    by rewrite Hlast, rev_rev.
  - change ("" +:+ post) with post.
    rewrite (trimStart_blank_rev (trimStart post)) by (by rewrite Hpost).
    done.
Qed.

Lemma lowerChar_inv (c : ascii) :
  (lowerChar c = "r"%char → c = "r"%char ∨ c = "R"%char)
  ∧ (lowerChar c = "s"%char → c = "s"%char ∨ c = "S"%char)
  ∧ (lowerChar c = "u"%char → c = "u"%char ∨ c = "U"%char).
Proof.
  destruct c as [[] [] [] [] [] [] [] []]; vm_compute;
    repeat split; intros H; (discriminate H || (by left) || (by right)).
Qed.

(** X23: the listener takes a command whatever the case of its letters and
    whatever ASCII white space surrounds it, as the line end that comes with
    a typed line: such input is a recognised command, normalised to [r],
    [rs] or [u], and the debouncer is cancelled. *)
Theorem commands_survive_padding (pre command post : string) (r : Runtime) :
  trimStart pre = "" → trimStart post = "" →
  toLowerCase command = "r" ∨ toLowerCase command = "rs"
  ∨ toLowerCase command = "u" →
  stdinData (pre +:+ command +:+ post) r
  = Some (toLowerCase command, cancel r).
Proof.
  intros Hpre Hpost Hcmd.
  assert (Hcases : command ∈ ["r"; "R"; "rs"; "rS"; "Rs"; "RS"; "u"; "U"]).
  { destruct command as [|c1 [|c2 [|c3 rest]]]; simpl in Hcmd.
    - destruct Hcmd as [?|[?|?]]; done.
    - destruct (lowerChar_inv c1) as (Hr & _ & Hu).
      destruct Hcmd as [[= H]|[[= H]|[= H]]].
      + destruct (Hr H) as [-> | ->]; solve [repeat constructor].
      + destruct (Hu H) as [-> | ->]; solve [repeat constructor].
    - destruct (lowerChar_inv c1) as (Hr & _ & _).
      destruct (lowerChar_inv c2) as (_ & Hs & _).
      destruct Hcmd as [[= H]|[[= H1 H2]|[= H]]].
      destruct (Hr H1) as [-> | ->], (Hs H2) as [-> | ->]; solve [repeat constructor].
    - destruct Hcmd as [?|[?|?]]; done. }
  assert (Htrim : trim (pre +:+ command +:+ post) = command).
  { apply trim_padded; [done|done| |];
      repeat (apply elem_of_cons in Hcases as [->|Hcases]; [reflexivity|]);
      by apply elem_of_nil in Hcases. }
  unfold stdinData. rewrite Htrim.
  destruct Hcmd as [-> | [-> | ->]]; reflexivity.
Qed.

Lemma commands_survive_padding_witness :
  stdinData (" " +:+ "Rs" +:+ String "010"%char "")
    {| this := sampleWatcher []; pending := []; allocated := 0%nat;
       effects := [] |}
  = Some ("rs", cancel {| this := sampleWatcher []; pending := [];
                          allocated := 0%nat; effects := [] |}).
Proof.
  apply (commands_survive_padding " " "Rs" (String "010"%char "")
           {| this := sampleWatcher []; pending := []; allocated := 0%nat;
              effects := [] |}).
  - reflexivity.
  - reflexivity.
  - right. left. reflexivity.
Defined.
